(** * autorace: the OddsPark scraper and the CSV-to-JSON converter

    A shallow embedding of [scrape_autorace_oddspark.py] and
    [convert_autorace_csv_to_json.py].

    Conventions of the embedding.
    - A Python [str] is the Rocq [string] of its UTF-8 bytes; [chars] cuts
      it into its characters and [ord] gives their code points.  [\d] and
      the digits of [int] are the decimal digits of Unicode (the full-width
      digits of Japanese text among them), the white space of [int] is that
      of the interpreter.  An [int] is a [Z]; the interpreter's adjustable
      cap on the length of a decimal literal is no part of the model.
    - An exception is a value of [exn]; a call that may raise returns a
      [result].
    - What the markup library ([BeautifulSoup]), the URL library
      ([urllib.parse]), [datetime.strptime] and the Unicode-aware regular
      expressions over page text compute is taken as given: the DOM is read
      through records of the queried facts, and the library functions are
      [Variable]s of the sections below. *)

From Stdlib Require Import ZArith Lia Ascii String List Permutation Sorted.
From stdpp Require Import base option list strings pretty gmap.

Open Scope Z_scope.

(** ** Python primitives *)

Module Py.

Inductive exn : Set :=
| ValueError
| TypeError
| KeyError
| OverflowError
| UnboundLocalError
| RequestException
| HTTPError.

Inductive result (A : Type) : Type :=
| Ok (a : A)
| Raise (e : exn).
Arguments Ok {A} a.
Arguments Raise {A} e.

Definition bind {A B} (m : result A) (k : A -> result B) : result B :=
  match m with
  | Ok a => k a
  | Raise e => Raise e
  end.

Definition code (c : ascii) : Z := Z.of_N (N_of_ascii c).

(** *** Characters

    A [str] is held by its UTF-8 bytes.  A character is one byte below
    128, or a leading byte followed by its continuation bytes. *)

(** a continuation byte: [10xxxxxx] *)
Definition is_cont (c : ascii) : bool := (128 <=? code c) && (code c <? 192).

(** the characters of a [str], each by its bytes: a character starts at
    every byte that is not a continuation byte *)
Fixpoint chars (s : string) : list string :=
  match s with
  | EmptyString => []
  | String c s' =>
      match s' with
      | String d _ =>
          if is_cont d then
            match chars s' with
            | x :: l => String c x :: l
            | [] => [String c EmptyString]
            end
          else String c EmptyString :: chars s'
      | EmptyString => [String c EmptyString]
      end
  end.

(** the six payload bits of a continuation byte *)
Definition cont_bits (c : ascii) : Z := code c - 128.

(** [ord(ch)]: the code point of a character, [None] for bytes that are
    not the UTF-8 form of a code point *)
Definition ord (ch : string) : option Z :=
  match ch with
  | String a EmptyString => if code a <? 128 then Some (code a) else None
  | String a (String b EmptyString) =>
      if (194 <=? code a) && (code a <? 224) && is_cont b
      then Some ((code a - 192) * 64 + cont_bits b)
      else None
  | String a (String b (String c EmptyString)) =>
      let n := (code a - 224) * 4096 + cont_bits b * 64 + cont_bits c in
      if (224 <=? code a) && (code a <? 240) && is_cont b && is_cont c
         && (2048 <=? n) && negb ((55296 <=? n) && (n <? 57344))
      then Some n
      else None
  | String a (String b (String c (String d EmptyString))) =>
      let n := (code a - 240) * 262144 + cont_bits b * 4096
               + cont_bits c * 64 + cont_bits d in
      if (240 <=? code a) && (code a <? 245) && is_cont b && is_cont c
         && is_cont d && (65536 <=? n) && (n <? 1114112)
      then Some n
      else None
  | _ => None
  end.

(** The decimal digits of Unicode (general category Nd, Unicode 14.0, the
    table of CPython 3.11): the code points of the zeros; the digits 1 to 9
    of a script follow its zero.  These are the characters that [\d]
    matches in a [str] pattern and that [int] reads. *)
Definition decimal_zeros : list Z :=
  [ 48; 1632; 1776; 1984; 2406; 2534; 2662; 2790; 2918; 3046; 3174; 3302;
    3430; 3558; 3664; 3792; 3872; 4160; 4240; 6112; 6160; 6470; 6608; 6784;
    6800; 6992; 7088; 7232; 7248; 42528; 43216; 43264; 43472; 43504; 43600;
    44016; 65296; 66720; 68912; 69734; 69872; 69942; 70096; 70384; 70736;
    70864; 71248; 71360; 71472; 71904; 72016; 72784; 73040; 73120; 92768;
    92864; 93008; 120782; 120792; 120802; 120812; 120822; 123200; 123632;
    125264; 130032 ].

(** [unicodedata.decimal] of a code point, [None] when it is no decimal
    digit *)
Definition decimal_of (n : Z) : option Z :=
  (fun z => n - z)
  <$> List.find (fun z => (z <=? n) && (n <? z + 10)) decimal_zeros.

(** the value of a character as a decimal digit *)
Definition decimal (ch : string) : option Z := n ← ord ch; decimal_of n.

(** [\d] *)
Definition is_decimal (ch : string) : bool :=
  match decimal ch with Some _ => true | None => false end.

(** The white space that [int] drops around a number: the characters of
    [str.isspace] less the separators U+001C to U+001F (tab to carriage
    return, space, U+0085, U+00A0, U+1680, U+2000 to U+200A, U+2028,
    U+2029, U+202F, U+205F, U+3000). *)
Definition int_spaces : list Z :=
  [ 9; 10; 11; 12; 13; 32; 133; 160; 5760; 8192; 8193; 8194; 8195; 8196;
    8197; 8198; 8199; 8200; 8201; 8202; 8232; 8233; 8239; 8287; 12288 ].

Definition is_int_space (ch : string) : bool :=
  match ord ch with
  | Some n => existsb (Z.eqb n) int_spaces
  | None => false
  end.

Fixpoint lstrip (cs : list string) : list string :=
  match cs with
  | ch :: cs' => if is_int_space ch then lstrip cs' else cs
  | [] => []
  end.

Fixpoint rstrip (cs : list string) : list string :=
  match cs with
  | [] => []
  | ch :: cs' =>
      match rstrip cs' with
      | [] => if is_int_space ch then [] else [ch]
      | r => ch :: r
      end
  end.

(** the digits of an [int] literal: decimal digits, an underscore allowed
    between two digits *)
Fixpoint int_body (prev_digit : bool) (acc : Z) (cs : list string)
    : option Z :=
  match cs with
  | [] => if prev_digit then Some acc else None
  | ch :: cs' =>
      match decimal ch with
      | Some d => int_body true (10 * acc + d) cs'
      | None =>
          if String.eqb ch "_" && prev_digit then int_body false acc cs'
          else None
      end
  end.

(** [int(s)] for a [str] argument, base 10: white space around, a sign,
    the digits *)
Definition int (s : string) : result Z :=
  let r :=
    match rstrip (lstrip (chars s)) with
    | ch :: cs =>
        if String.eqb ch "-" then Z.opp <$> int_body false 0 cs
        else if String.eqb ch "+" then int_body false 0 cs
        else int_body false 0 (ch :: cs)
    | [] => None
    end in
  match r with
  | Some z => Ok z
  | None => Raise ValueError
  end.

(** [str(n)] for an [int] *)
Definition str_of_int (n : Z) : string := pretty n.

(** [f"{n:02d}"]: sign-aware zero padding to width 2 *)
Definition format_02d (n : Z) : string :=
  let s := str_of_int n in
  if (String.length s <? 2)%nat then "0" +:+ s else s.

(** [s.split(sep)] for a one-character separator *)
Fixpoint split (sep : ascii) (s : string) : list string :=
  match s with
  | EmptyString => [EmptyString]
  | String c s' =>
      if Ascii.eqb c sep then EmptyString :: split sep s'
      else
        match split sep s' with
        | x :: l => String c x :: l
        | [] => [String c EmptyString]
        end
  end.

(** [sep.join(l)] *)
Fixpoint join (sep : string) (l : list string) : string :=
  match l with
  | [] => EmptyString
  | [x] => x
  | x :: l' => x +:+ sep +:+ join sep l'
  end.

(** [sub in s] *)
Fixpoint contains (sub s : string) : bool :=
  String.prefix sub s ||
  match s with
  | EmptyString => false
  | String _ s' => contains sub s'
  end.

(** truthiness of a [str] *)
Definition truthy (s : string) : bool :=
  match s with EmptyString => false | _ => true end.

End Py.

Export Py.

Notation "'let*' x ':=' m 'in' k" := (Py.bind m (fun x => k))
  (at level 10, x name, m at level 100, k at level 200,
   format "'let*'  x  ':='  m  'in' '//' k").

(** ** [datetime]

    A [datetime] of whole minutes: the minutes elapsed since 00:00 of the
    day of proleptic ordinal 0, so that [date] is the ordinal of the day
    ([date.toordinal]).  [datetime] covers the years 1 to 9999. *)

Module datetime.

Definition t := Z.

Definition MINORD : Z := 1.
Definition MAXORD : Z := 3652059.

Definition timedelta (days hours minutes : Z) : Z :=
  days * 1440 + hours * 60 + minutes.

Definition of_ordinal (d : Z) : t := d * 1440.

Definition date (dt : t) : Z := dt / 1440.
Definition hour (dt : t) : Z := (dt mod 1440) / 60.
Definition minute (dt : t) : Z := dt mod 60.

Definition in_range (dt : t) : bool :=
  (MINORD <=? date dt) && (date dt <=? MAXORD).

(** [dt + td], [OverflowError] outside the supported years *)
Definition add (dt : t) (td : Z) : result t :=
  if in_range (dt + td) then Ok (dt + td) else Raise OverflowError.

Definition sub (dt : t) (td : Z) : result t := add dt (- td).

(** [dt.strftime("%H:%M")] *)
Definition strftime_HM (dt : t) : string :=
  format_02d (hour dt) +:+ ":" +:+ format_02d (minute dt).

End datetime.

(** ** The scraper: time normalizer *)

Module Scraper.

(** [re.fullmatch(r"(\d{1,2}):(\d{2})", s)]: the two groups; the pattern
    is a [str] pattern, [\d] matches the decimal digits of Unicode *)
Definition re_fullmatch_hhmm (s : string) : option (string * string) :=
  match chars s with
  | [a; b; c; d] =>
      if is_decimal a && String.eqb b ":" && is_decimal c && is_decimal d
      then Some (a, c +:+ d)
      else None
  | [a; b; c; d; e] =>
      if is_decimal a && is_decimal b && String.eqb c ":" && is_decimal d
         && is_decimal e
      then Some (a +:+ b, d +:+ e)
      else None
  | _ => None
  end.

Section TimeNormalizer.

(** [datetime.strptime(date_str, "%Y%m%d")]: the ordinal of the day read,
    [None] for the [ValueError] *)
Variable strptime_Ymd : string -> option Z.

Definition strptime (date_str : string) : result datetime.t :=
  match strptime_Ymd date_str with
  | Some d => Ok (datetime.of_ordinal d)
  | None => Raise ValueError
  end.

Definition hhmm_to_closed (hhmm date_str : string) : result string :=
  match re_fullmatch_hhmm hhmm with
  | None => Ok hhmm
  | Some (g1, g2) =>
      let* h := int g1 in
      let* mi := int g2 in
      if negb ((0 <=? mi) && (mi <? 60)) then Ok hhmm else
      let* base := strptime date_str in
      let '(day_offset, h_real) :=
        if 24 <=? h then (h / 24, h mod 24) else (0, h) in
      let* start_dt := datetime.add base (datetime.timedelta day_offset h_real mi) in
      let* closed_dt := datetime.sub start_dt (datetime.timedelta 0 0 2) in
      if 24 <=? h then
        let* next_day := datetime.add base (datetime.timedelta 1 0 0) in
        if datetime.date closed_dt =? datetime.date next_day then
          let hours_24style := datetime.hour closed_dt + 24 in
          Ok (format_02d hours_24style +:+ ":" +:+
              format_02d (datetime.minute closed_dt))
        else
          Ok (datetime.strftime_HM closed_dt)
      else
        Ok (datetime.strftime_HM closed_dt)
  end.

End TimeNormalizer.

(** ** The scraper: link discoverer *)

Definition BASE : string := "https://www.oddspark.com".
Definition KAISAI_URL : string := BASE +:+ "/autorace/KaisaiRaceList.do".

(** 02=川口, 03=伊勢崎, 04=浜松, 05=飯塚, 06=山陽 *)
Definition PLACECD_TO_VENUE : gmap string string :=
  list_to_map
    [("02", "川口"); ("03", "伊勢崎"); ("04", "浜松"); ("05", "飯塚");
     ("06", "山陽")].

(** The listing page as [collect_oneday_links] queries it. *)
Record listing := {
  (** [a.get("href")] of each element of
      [soup.select('a[href*="/autorace/OneDayRaceList.do"]')], in order *)
  listing_anchors : list (option string);
  (** the same selection below [soup.select_one("#raceToday")], when that
      element exists *)
  listing_race_today : option (list (option string));
}.

(** [(q.get(k) or [""])[0]] *)
Definition first_value (v : option (list string)) : string :=
  match v with
  | Some (x :: _) => x
  | _ => ""
  end.

Section Links.

(** [BeautifulSoup(kaisai_html, "lxml")] *)
Variable soup_listing : string -> listing.
(** [urljoin(base, href)]; [urlsplit] raises [ValueError] on some hrefs *)
Variable urljoin : string -> string -> result string.
(** [parse_qs(urlparse(u).query)] *)
Variable url_query : string -> result (gmap string (list string)).

Fixpoint collect_loop (anchors : list (option string))
    (seen : gset (string * string)) (found : list string)
    : result (list string) :=
  match anchors with
  | [] => Ok found
  | a :: anchors' =>
      let href := default "" a in
      if negb (contains "/autorace/OneDayRaceList.do" href)
      then collect_loop anchors' seen found
      else
        let* abs_url := urljoin BASE href in
        let* q := url_query abs_url in
        let raceDy := first_value (q !! "raceDy") in
        let placeCd := first_value (q !! "placeCd") in
        if negb (truthy raceDy) || negb (truthy placeCd)
        then collect_loop anchors' seen found
        else
          let key := (raceDy, placeCd) in
          if bool_decide (key ∈ seen)
          then collect_loop anchors' seen found
          else collect_loop anchors' ({[key]} ∪ seen) (found ++ [abs_url])
  end.

Definition collect_oneday_links (kaisai_html : string) : result (list string) :=
  let soup := soup_listing kaisai_html in
  let anchors :=
    match listing_anchors soup with
    | [] => default [] (listing_race_today soup)
    | anchors => anchors
    end in
  collect_loop anchors ∅ [].

Fixpoint filter_loop (_links : list string) (_raceDy : string)
    (seen : gset (string * string)) (filtered : list string)
    : result (list string) :=
  match _links with
  | [] => Ok filtered
  | u :: links' =>
      let* q := url_query u in
      let dy := first_value (q !! "raceDy") in
      let pc := first_value (q !! "placeCd") in
      if String.eqb dy _raceDy && truthy pc then
        let key := (dy, pc) in
        if negb (bool_decide (key ∈ seen))
        then filter_loop links' _raceDy ({[key]} ∪ seen) (filtered ++ [u])
        else filter_loop links' _raceDy seen filtered
      else filter_loop links' _raceDy seen filtered
  end.

Definition _filter_links_by_day (_links : list string) (_raceDy : string)
    : result (list string) :=
  filter_loop _links _raceDy ∅ [].

End Links.

(** ** The scraper: race extractor *)

(** A roster row as the extractor queries it. *)
Record tr := {
  (** [td.get_text(strip=True)] of each of [tr.find_all("td")] *)
  tr_tds : list string;
  (** [get_text(strip=True)] of
      [tr.find("td", class_=re.compile(r"\bbg-[1-8]\b"))] *)
  tr_car_td : option string;
  (** [get_text("", strip=True)] of [tr.select_one("td.racer1")] *)
  tr_racer1 : option string;
}.

Record table := {
  (** [table.get_text(" ", strip=True)] *)
  table_text : string;
  (** [table.select("tr")] *)
  table_trs : list tr;
}.

(** A [div.h30] header box as the extractor queries it. *)
Record box := {
  (** [get_text(" ", strip=True)] of
      [box.select_one('strong > a[href*="/autorace/RaceList.do"]')] *)
  box_anchor : option string;
  (** [get_text(strip=True)] of [box.select_one("span.start-time strong")] *)
  box_start_time : option string;
  (** [box.get_text(" ", strip=True)] *)
  box_text : string;
  (** [" ".join(t.get_text(" ", strip=True) for t in box.find_all(limit=5))] *)
  box_near2 : string;
  (** [box.find_next("table")] *)
  box_table : option table;
}.

(** [s.replace(old, new)] for a non-empty [old] *)
Fixpoint replace_go (old new : string) (skip : nat) (s : string) : string :=
  match s with
  | EmptyString => EmptyString
  | String c s' =>
      match skip with
      | S k => replace_go old new k s'
      | O =>
          if String.prefix old s
          then new +:+ replace_go old new (String.length old - 1) s'
          else String c (replace_go old new O s')
      end
  end.

Definition replace (old new s : string) : string := replace_go old new O s.

(** [re.fullmatch(r"[1-8]", s)] *)
Definition re_fullmatch_car (s : string) : bool :=
  match s with
  | String c EmptyString => (49 <=? code c) && (code c <=? 56)
  | _ => false
  end.

(** [hh, mm = s.split(":")] then [f"{int(hh):02d}:{int(mm):02d}"] *)
Definition normalize_hhmm (s : string) : result string :=
  match split ":" s with
  | [hh; mm] =>
      let* h := int hh in
      let* m := int mm in
      Ok (format_02d h +:+ ":" +:+ format_02d m)
  | _ => Raise ValueError
  end.

(** [l.sort(key=key)]: a stable sort *)
Section Sort.
Context {A : Type} (key : A -> Z).

Fixpoint insert_by (x : A) (l : list A) : list A :=
  match l with
  | [] => [x]
  | y :: l' => if key x <=? key y then x :: l else y :: insert_by x l'
  end.

Fixpoint sort_by (l : list A) : list A :=
  match l with
  | [] => []
  | x :: l' => insert_by x (sort_by l')
  end.

End Sort.

(** [(race_no, start_time, closed_at, players, cat)] *)
Definition race_section : Type := Z * string * string * list string * string.

Record oneday := {
  oneday_venue : string;
  oneday_grade : string;
  oneday_rows : list race_section;
}.

Section Extractor.

Variable strptime_Ymd : string -> option Z.
(** [BeautifulSoup(html, "lxml").select("div.h30")] *)
Variable soup_oneday : string -> list box.
(** group 1 of [re.search(r"(\d+)\s*R\b", title_txt)] *)
Variable re_race_no : string -> option string.
(** group 2 of
    [re.search(r"(発走(?:時間|予定)?)[^\d]*(\d{1,2}:\d{2})", text)] *)
Variable re_start : string -> option string.
(** [re.search(r"(車\s*番|選手名|LG|ハンデ|現ランク|審査|試走)", head_txt)] *)
Variable re_roster_head : string -> bool.
(** group 1 of [re.search(r"(一般|予選|準決勝?|優勝戦|特別|選抜)", title_txt)] *)
Variable re_category : string -> option string.
(** [re.sub(r"\s+", "", name_txt)] *)
Variable re_sub_spaces : string -> string.

(** the start time of a header box: [None] when none was found *)
Definition box_start (b : box) : result (option string) :=
  match box_start_time b with
  | None =>
      let m2 :=
        match re_start (box_text b) with
        | Some g => Some g
        | None => re_start (box_near2 b)
        end in
      match m2 with
      | Some g => let* start_time := normalize_hhmm g in Ok (Some start_time)
      | None => Ok None
      end
  | Some st => let* start_time := normalize_hhmm st in Ok (Some start_time)
  end.

(** the name cell of a roster row *)
Definition tr_name_cell (r : tr) : option string :=
  match tr_racer1 r with
  | Some name => Some name
  | None =>
      let cand := filter (fun t => truthy t = true) (tail (tr_tds r)) in
      head cand
  end.

(** the loop over [table.select("tr")] *)
Fixpoint players_loop (trs : list tr) (players : list string) : list string :=
  match trs with
  | [] => players
  | r :: trs' =>
      match tr_tds r with
      | [] => players_loop trs' players
      | _ =>
          match tr_car_td r with
          | None => players_loop trs' players
          | Some car_txt =>
              if negb (re_fullmatch_car car_txt) then players_loop trs' players
              else
                match tr_name_cell r with
                | None => players_loop trs' players
                | Some name_txt =>
                    let name_txt := re_sub_spaces name_txt in
                    players_loop trs' (players ++ [car_txt +:+ name_txt])
                end
          end
      end
  end.

(** one turn of the loop over the header boxes: the race section appended,
    if any *)
Definition box_section (raceDy : string) (b : box)
    : result (option race_section) :=
  match box_anchor b with
  | None => Ok None
  | Some a =>
      let title_txt := replace "　" " " a in
      match re_race_no title_txt with
      | None => Ok None
      | Some g =>
          let* race_no := int g in
          let* start_time := box_start b in
          match box_table b with
          | None => Ok None
          | Some table =>
              let head_txt := table_text table in
              if negb (re_roster_head head_txt) then Ok None
              else
                let cat := default "" (re_category title_txt) in
                let players := players_loop (table_trs table) [] in
                match start_time with
                | Some start_time =>
                    if (6 <=? Z.of_nat (length players))
                       && (Z.of_nat (length players) <=? 8)
                       && truthy start_time
                    then
                      let* closed_at :=
                        hhmm_to_closed strptime_Ymd start_time raceDy in
                      Ok (Some (race_no, start_time, closed_at, players, cat))
                    else Ok None
                | None => Ok None
                end
          end
      end
  end.

Fixpoint sections_loop (raceDy : string) (boxes : list box)
    (race_sections : list race_section) : result (list race_section) :=
  match boxes with
  | [] => Ok race_sections
  | b :: boxes' =>
      let* s := box_section raceDy b in
      match s with
      | Some s => sections_loop raceDy boxes' (race_sections ++ [s])
      | None => sections_loop raceDy boxes' race_sections
      end
  end.

Definition extract_races_from_oneday (html raceDy placeCd : string)
    : result oneday :=
  let venue := default "" (PLACECD_TO_VENUE !! placeCd) in
  let grade := "" in
  let* race_sections := sections_loop raceDy (soup_oneday html) [] in
  let race_sections := sort_by (fun x => x.1.1.1.1) race_sections in
  Ok {| oneday_venue := venue; oneday_grade := grade;
        oneday_rows := race_sections |}.

End Extractor.

(** ** The scraper: fetching and the orchestrator *)

(** [requests.Response]: what [http_get] and [main] read of it *)
Record response := {
  status_code : Z;
  text : string;
}.

(** the outcome of one [requests.get] *)
Inductive attempt :=
| Failed (e : exn)
| Responded (r : response).

(** [r.raise_for_status()] *)
Definition raise_for_status (r : response) : result unit :=
  if (400 <=? status_code r) && (status_code r <? 600)
  then Raise HTTPError else Ok tt.

(** the rows of the intermediate CSV:
    [date, venue, grade, race_number, start_time, closed_at, players,
     class_category] *)
Definition csv_row : Type :=
  string * string * string * Z * string * string * string * string.

Section Orchestrator.

Variable strptime_Ymd : string -> option Z.
Variable soup_listing : string -> listing.
Variable urljoin : string -> string -> result string.
Variable url_query : string -> result (gmap string (list string)).
Variable soup_oneday : string -> list box.
Variable re_race_no : string -> option string.
Variable re_start : string -> option string.
Variable re_roster_head : string -> bool.
Variable re_category : string -> option string.
Variable re_sub_spaces : string -> string.
(** the network: the outcome of the [i]-th [requests.get] of a URL
    (every URL of a run is fetched by one [http_get] only) *)
Variable requests_get : string -> nat -> attempt.

(** the [for i in range(1, max_retry + 1)] loop of [http_get], [n] turns
    left; [r] is the last response bound *)
Fixpoint http_get_loop (url : string) (i n : nat) (last_exc : option exn)
    (r : option response) : result response :=
  match n with
  | O =>
      match last_exc with
      | Some e => Raise e
      | None =>
          match r with
          | Some r => let* _u := raise_for_status r in Ok r
          | None => Raise UnboundLocalError
          end
      end
  | S n' =>
      match requests_get url i with
      | Responded r' =>
          if (status_code r' =? 200) && truthy (text r') then Ok r'
          else http_get_loop url (S i) n' last_exc (Some r')
      | Failed e => http_get_loop url (S i) n' (Some e) r
      end
  end.

Definition http_get (url : string) : result response :=
  http_get_loop url 1 3 None None.

(** the loop of [main] over the links *)
Fixpoint crawl (raceDy : string) (links : list string)
    (rows_out : list csv_row) : result (list csv_row) :=
  match links with
  | [] => Ok rows_out
  | url :: links' =>
      let* q := url_query url in
      let dy := first_value (q !! "raceDy") in
      let placeCd := first_value (q !! "placeCd") in
      if negb (truthy dy) || negb (truthy placeCd)
      then crawl raceDy links' rows_out
      else if negb (String.eqb dy raceDy)
      then crawl raceDy links' rows_out
      else
        let* rr := http_get url in
        let* data :=
          extract_races_from_oneday strptime_Ymd soup_oneday re_race_no
            re_start re_roster_head re_category re_sub_spaces
            (text rr) dy placeCd in
        let venue := oneday_venue data in
        let grade := oneday_grade data in
        let rows :=
          map (fun '(race_no, start_time, closed_at, players, class_cat) =>
                 (dy, venue, grade, race_no, start_time, closed_at,
                  join "," players, class_cat))
              (oneday_rows data) in
        crawl raceDy links' (rows_out ++ rows)
  end.

(** the links of the target day: the listing without parameter first, the
    listing of the day when that gives none *)
Definition discover (raceDy : string) : result (list string) :=
  let* r := http_get KAISAI_URL in
  let* links := collect_oneday_links soup_listing urljoin url_query (text r) in
  let* links := _filter_links_by_day url_query links raceDy in
  match links with
  | [] =>
      let url_with_day := KAISAI_URL +:+ "?raceDy=" +:+ raceDy in
      let* r2 := http_get url_with_day in
      let* links :=
        collect_oneday_links soup_listing urljoin url_query (text r2) in
      _filter_links_by_day url_query links raceDy
  | _ => Ok links
  end.

(** [main] for the target day [raceDy]: the rows written to the CSV file,
    [None] when no file is written *)
Definition main (raceDy : string) : result (option (list csv_row)) :=
  let* links := discover raceDy in
  let* rows_out := crawl raceDy links [] in
  match rows_out with
  | [] => Ok None
  | _ => Ok (Some rows_out)
  end.

End Orchestrator.

End Scraper.

(** ** The converter *)

Module Converter.

(** a row of [csv.DictReader]: the header's fields, [None] for a field
    that a short line lacks *)
Abbreviation row := (gmap string (option string)).

(** [row[k]] *)
Definition getitem (r : row) (k : string) : result (option string) :=
  match r !! k with
  | Some v => Ok v
  | None => Raise KeyError
  end.

(** [row.get(k, d)] *)
Definition get (r : row) (k : string) (d : string) : option string :=
  default (Some d) (r !! k).

(** [int(v)] for a field *)
Definition int_field (v : option string) : result Z :=
  match v with
  | Some s => int s
  | None => Raise TypeError
  end.

Record races_item := {
  race_number : Z;
  start_time : option string;
  closed_at : option string;
  players : list string;
  class_category : option string;
}.

Abbreviation group_key := (option string * option string)%type.

Record venue_group := {
  venue : option string;
  grade : option string;
  races : list races_item;
}.

(** [groups[key].append(item)] on the insertion-ordered [defaultdict(list)] *)
Fixpoint groups_append (key : group_key) (item : races_item)
    (groups : list (group_key * list races_item))
    : list (group_key * list races_item) :=
  match groups with
  | [] => [(key, [item])]
  | (k, items) :: groups' =>
      if decide (k = key) then (k, items ++ [item]) :: groups'
      else (k, items) :: groups_append key item groups'
  end.

(** the players of a row: the non-empty segments of the field *)
Definition row_players (v : option string) : list string :=
  filter (fun p => truthy p = true) (split "," (default EmptyString v)).

(** the loop over the rows of the reader *)
Fixpoint read_rows (rows : list row)
    (groups : list (group_key * list races_item))
    : result (list (group_key * list races_item)) :=
  match rows with
  | [] => Ok groups
  | r :: rows' =>
      let* p := getitem r "players" in
      let players := row_players p in
      if negb ((6 <=? Z.of_nat (length players))
               && (Z.of_nat (length players) <=? 8))
      then read_rows rows' groups
      else
        let* rn := getitem r "race_number" in
        let* race_number := int_field rn in
        let* start_time := getitem r "start_time" in
        let* closed_at := getitem r "closed_at" in
        let races_item :=
          {| race_number := race_number; start_time := start_time;
             closed_at := closed_at; players := players;
             class_category := get r "class_category" EmptyString |} in
        let* venue := getitem r "venue" in
        let key := (venue, get r "grade" EmptyString) in
        read_rows rows' (groups_append key races_item groups)
  end.

(** [main] on the rows of the input file: the array written as JSON *)
Definition main (rows : list row) : result (list venue_group) :=
  let* groups := read_rows rows [] in
  Ok (map (fun '((venue, grade), items) =>
             {| venue := venue; grade := grade;
                races := Scraper.sort_by race_number items |})
          groups).

End Converter.

(** ** Vocabulary of the statements *)

(** the hour and the minute an input of the shape [H:MM] or [HH:MM] with a
    minute below 60 stands for *)
Definition valid_hhmm (s : string) : option (Z * Z) :=
  match Scraper.re_fullmatch_hhmm s with
  | Some (g1, g2) =>
      match int g1, int g2 with
      | Ok h, Ok mi => if (0 <=? mi) && (mi <? 60) then Some (h, mi) else None
      | _, _ => None
      end
  | None => None
  end.

(** the instant a time string denotes, in minutes after 00:00 of the
    reference date: an hour of 24 or more is an hour of a following day *)
Definition instant_of (s : string) : option Z :=
  '(h, mi) ← valid_hhmm s; Some (60 * h + mi).

(** an ASCII digit, and its value *)
Definition is_digit (c : ascii) : bool := (48 <=? code c) && (code c <=? 57).
Definition digit_value (c : ascii) : Z := code c - 48.

Definition digit_char (d : Z) : ascii := ascii_of_N (Z.to_N (48 + d)).
Arguments digit_char : simpl never.

(** the two-digit rendering of a number below 100 *)
Definition two_digits (n : Z) : string :=
  String (digit_char (n / 10)) (String (digit_char (n mod 10)) EmptyString).

(** the plain rendering [HH:MM] (00 to 23) of the time of day of an instant *)
Definition plain_HM (t : Z) : string :=
  two_digits ((t mod 1440) / 60) +:+ ":" +:+ two_digits (t mod 60).

(** the rendering of an instant of a following day with 24 added to its
    hour *)
Definition plus24_HM (t : Z) : string :=
  two_digits ((t mod 1440) / 60 + 24) +:+ ":" +:+ two_digits (t mod 60).

(** The proleptic Gregorian calendar of [datetime], to read the dates
    written as eight ASCII digits. *)
Definition is_leap (y : Z) : bool :=
  (y mod 4 =? 0) && (negb (y mod 100 =? 0) || (y mod 400 =? 0)).

Definition days_in_month (y m : Z) : Z :=
  if m =? 2 then (if is_leap y then 29 else 28)
  else if (m =? 4) || (m =? 6) || (m =? 9) || (m =? 11) then 30 else 31.

Definition days_before_year (y : Z) : Z :=
  let y1 := y - 1 in y1 * 365 + y1 / 4 - y1 / 100 + y1 / 400.

Fixpoint days_before_month (y : Z) (m : nat) : Z :=
  match m with
  | O => 0
  | S m' => days_before_month y m' + days_in_month y (Z.of_nat m)
  end.

Definition ymd2ord (y m d : Z) : Z :=
  days_before_year y + days_before_month y (Z.to_nat (m - 1)) + d.

Fixpoint all_digits (s : string) : bool :=
  match s with
  | EmptyString => true
  | String c s' => is_digit c && all_digits s'
  end.

(** the number written by a string of ASCII digits, [None] for the empty
    string *)
Fixpoint digits_body (prev_digit : bool) (acc : Z) (s : string) : option Z :=
  match s with
  | EmptyString => if prev_digit then Some acc else None
  | String c s' =>
      if is_digit c then digits_body true (10 * acc + digit_value c) s'
      else None
  end.

Definition digits_value (s : string) : option Z :=
  if all_digits s then digits_body false 0 s else None.

(** a string that starts at a character: empty, or not at a continuation
    byte *)
Definition starts_char (s : string) : bool :=
  match s with
  | String c _ => negb (is_cont c)
  | EmptyString => true
  end.

(** a string without the byte [sep] *)
Fixpoint sep_free (sep : ascii) (s : string) : bool :=
  match s with
  | EmptyString => true
  | String c s' => negb (Ascii.eqb c sep) && sep_free sep s'
  end.

(** strings put end to end *)
Fixpoint cat (l : list string) : string :=
  match l with
  | [] => EmptyString
  | x :: l' => x +:+ cat l'
  end.

(** [datetime.strptime(s, "%Y%m%d")] on the strings of eight ASCII digits *)
Definition strptime_Ymd8 (s : string) : option Z :=
  if (String.length s =? 8)%nat then
    y ← digits_value (substring 0 4 s);
    m ← digits_value (substring 4 2 s);
    d ← digits_value (substring 6 2 s);
    if (1 <=? y) && (1 <=? m) && (m <=? 12) && (1 <=? d)
       && (d <=? days_in_month y m)
    then Some (ymd2ord y m d) else None
  else None.

(** the (date, venue code) pair a reference carries in its query *)
Definition link_fields (url_query : string -> result (gmap string (list string)))
    (u : string) : option (string * string) :=
  match url_query u with
  | Ok q =>
      Some (Scraper.first_value (q !! "raceDy"),
            Scraper.first_value (q !! "placeCd"))
  | Raise _ => None
  end.

(** the absolute references of the anchors of a listing to one-day pages,
    in document order *)
Definition candidates (urljoin : string -> string -> result string)
    (anchors : list (option string)) : list string :=
  omap (fun a =>
          if contains "/autorace/OneDayRaceList.do" (default EmptyString a)
          then match urljoin Scraper.BASE (default EmptyString a) with
               | Ok u => Some u
               | Raise _ => None
               end
          else None) anchors.

(** a reference with a date and a venue code *)
Definition has_fields (url_query : string -> result (gmap string (list string)))
    (u : string) : bool :=
  match link_fields url_query u with
  | Some (dy, pc) => truthy dy && truthy pc
  | None => false
  end.

(** a reference of the day [raceDy] *)
Definition of_day (url_query : string -> result (gmap string (list string)))
    (raceDy u : string) : bool :=
  match link_fields url_query u with
  | Some (dy, _) => String.eqb dy raceDy
  | None => false
  end.

(** a reference whose pair is not in [seen] *)
Definition unseen (url_query : string -> result (gmap string (list string)))
    (seen : gset (string * string)) (u : string) : bool :=
  match link_fields url_query u with
  | Some k => bool_decide (k ∉ seen)
  | None => true
  end.

(** the elements of a list that are the first with their key, in order *)
Fixpoint first_by {A K} `{EqDecision K} (f : A -> K) (l : list A) : list A :=
  match l with
  | [] => []
  | x :: l' => x :: filter (fun y => f y <> f x) (first_by f l')
  end.

(** the anchors [collect_oneday_links] walks *)
Definition walked_anchors (l : Scraper.listing) : list (option string) :=
  match Scraper.listing_anchors l with
  | [] => default [] (Scraper.listing_race_today l)
  | anchors => anchors
  end.

(** A sample listing: two venues of 2025-01-01, one of them twice, and a
    venue of the following day. *)
Definition sample_oneday_url (dy pc : string) : string :=
  "/autorace/OneDayRaceList.do?raceDy=" +:+ dy +:+ "&placeCd=" +:+ pc.

Definition sample_soup_listing (html : string) : Scraper.listing :=
  {| Scraper.listing_anchors :=
       [Some (sample_oneday_url "20250101" "02");
        Some (sample_oneday_url "20250102" "03");
        Some (sample_oneday_url "20250101" "02");
        Some (sample_oneday_url "20250101" "05")];
     Scraper.listing_race_today := None |}.

Definition sample_urljoin (base href : string) : result string :=
  Ok (base +:+ href).

Definition sample_url_query (u : string)
    : result (gmap string (list string)) :=
  let fields (dy pc : string) : gmap string (list string) :=
    {[ "raceDy" := [dy]; "placeCd" := [pc] ]} in
  if String.eqb u (Scraper.BASE +:+ sample_oneday_url "20250101" "02")
  then Ok (fields "20250101" "02")
  else if String.eqb u (Scraper.BASE +:+ sample_oneday_url "20250102" "03")
  then Ok (fields "20250102" "03")
  else if String.eqb u (Scraper.BASE +:+ sample_oneday_url "20250101" "05")
  then Ok (fields "20250101" "05")
  else Ok ∅.

(** the roster extracted from a header box: that of the roster table, for
    a box with a heading anchor, an ordinal and a table with a roster
    column keyword; [None] for a box skipped before the table is read *)
Definition box_roster (re_race_no : string -> option string)
    (re_roster_head : string -> bool) (re_sub_spaces : string -> string)
    (b : Scraper.box) : option (list string) :=
  a ← Scraper.box_anchor b;
  _ ← re_race_no (Scraper.replace "　" " " a);
  table ← Scraper.box_table b;
  if re_roster_head (Scraper.table_text table)
  then Some (Scraper.players_loop re_sub_spaces (Scraper.table_trs table) [])
  else None.

(** the players of a race section *)
Definition section_players (s : Scraper.race_section) : list string :=
  s.1.2.

(** A sample race page: header boxes of race 9 with a given start-time
    cell and a given roster, read with stand-ins for the regular
    expressions that agree with them on these texts. *)
Definition sample_tr (car name : string) : Scraper.tr :=
  {| Scraper.tr_tds := [car; name];
     Scraper.tr_car_td := Some car;
     Scraper.tr_racer1 := Some name |}.

Definition sample_box (start : option string) (roster : list Scraper.tr)
    : Scraper.box :=
  {| Scraper.box_anchor := Some "9R 予選 3100m(6周)";
     Scraper.box_start_time := start;
     Scraper.box_text := "9R 予選 3100m(6周)";
     Scraper.box_near2 := "9R 予選 3100m(6周)";
     Scraper.box_table :=
       Some {| Scraper.table_text := "車番 選手名 ハンデ";
               Scraper.table_trs := roster |} |}.

Definition sample_roster (n : nat) : list Scraper.tr :=
  take n [sample_tr "1" "青山"; sample_tr "2" "鈴木"; sample_tr "3" "佐藤";
          sample_tr "4" "高橋"; sample_tr "5" "田中"; sample_tr "6" "伊藤";
          sample_tr "7" "渡辺"; sample_tr "8" "山本"; sample_tr "8" "中村"].

Definition sample_re_race_no (t : string) : option string :=
  if String.prefix "9R" t then Some "9" else None.

Definition sample_re_start (t : string) : option string := None.

Definition sample_re_roster_head (t : string) : bool := contains "選手名" t.

Definition sample_re_category (t : string) : option string :=
  if contains "予選" t then Some "予選" else None.

Definition sample_re_sub_spaces (t : string) : string := t.

(** A sample network: every page answers at once but the page of venue
    05, which fails at each try. *)
Definition sample_requests_get (url : string) (i : nat) : Scraper.attempt :=
  if String.eqb url (Scraper.BASE +:+ sample_oneday_url "20250101" "05")
  then Scraper.Failed RequestException
  else Scraper.Responded {| Scraper.status_code := 200;
                            Scraper.text := "<html>" |}.

Definition sample_soup_oneday (html : string) : list Scraper.box :=
  [sample_box (Some "18:48") (sample_roster 6)].

(** a sample parser that finds no header box in an empty body *)
Definition sample_soup_body (html : string) : list Scraper.box :=
  if truthy html then sample_soup_oneday html else [].

(** A sample network on which the page of venue 05 answers each try with
    status 503. *)
Definition sample_requests_503 (url : string) (i : nat) : Scraper.attempt :=
  Scraper.Responded
    {| Scraper.status_code :=
         if String.eqb url (Scraper.BASE +:+ sample_oneday_url "20250101" "05")
         then 503 else 200;
       Scraper.text := "<html>" |}.

(** A sample network on which the page of venue 05 answers each try with
    status 200 and an empty body. *)
Definition sample_requests_empty (url : string) (i : nat) : Scraper.attempt :=
  Scraper.Responded
    {| Scraper.status_code := 200;
       Scraper.text :=
         if String.eqb url (Scraper.BASE +:+ sample_oneday_url "20250101" "05")
         then EmptyString else "<html>" |}.

(** the rows the converter keeps: those with 6 to 8 players *)
Definition retained (r : Converter.row) : bool :=
  match r !! "players" with
  | Some v =>
      (6 <=? Z.of_nat (length (Converter.row_players v)))
      && (Z.of_nat (length (Converter.row_players v)) <=? 8)
  | None => false
  end.

(** the (venue, grade) pair of a row *)
Definition row_key (r : Converter.row) : Converter.group_key :=
  (default None (r !! "venue"), Converter.get r "grade" EmptyString).

(** a row the converter reads without raising: it has a players field and,
    when it is kept, a race number that [int] reads, the two times and a
    venue *)
Definition readable (r : Converter.row) : Prop :=
  is_Some (r !! "players")
  /\ (retained r = true ->
      (exists rn n, r !! "race_number" = Some rn
                    /\ Converter.int_field rn = Ok n)
      /\ is_Some (r !! "start_time") /\ is_Some (r !! "closed_at")
      /\ is_Some (r !! "venue")).

(** the distinct elements of a list, in the order of their first
    occurrences *)
Fixpoint first_seen {K} `{EqDecision K} (l : list K) : list K :=
  match l with
  | [] => []
  | k :: l' => k :: filter (fun k' => k' <> k) (first_seen l')
  end.

(** what [groups_append] does to the keys of the groups *)
Definition note_key {K} `{EqDecision K} (seen : list K) (k : K) : list K :=
  if decide (k ∈ seen) then seen else seen ++ [k].

(** the pair of a group of the document *)
Definition group_pair (g : Converter.venue_group) : Converter.group_key :=
  (Converter.venue g, Converter.grade g).

(** a row of the table, by its eight fields *)
Definition csv_fields (date venue grade race_number start_time closed_at
    players class_category : option string) : Converter.row :=
  {[ "date" := date; "venue" := venue; "grade" := grade;
     "race_number" := race_number; "start_time" := start_time;
     "closed_at" := closed_at; "players" := players;
     "class_category" := class_category ]}.

(** Flattening the document of the day [ymd] back into rows, the inverse
    that the round-trip property of the specification speaks of (the
    repository has no such function): one row per race of each group, with
    the date of the day, the venue and the grade of the group, the race
    number in decimal and the players joined by commas. *)
Definition item_row (ymd : string) (key : Converter.group_key)
    (item : Converter.races_item) : Converter.row :=
  csv_fields (Some ymd) key.1 key.2
    (Some (str_of_int (Converter.race_number item)))
    (Converter.start_time item) (Converter.closed_at item)
    (Some (join "," (Converter.players item)))
    (Converter.class_category item).

Definition flatten (ymd : string) (doc : list Converter.venue_group)
    : list Converter.row :=
  g ← doc; item_row ymd (group_pair g) <$> Converter.races g.

(** what the converter guarantees of a players array of the document *)
Definition players_ok (rows : list Converter.row)
    (item : Converter.races_item) : Prop :=
  (6 <= length (Converter.players item) <= 8)%nat
  /\ Forall (fun p => p <> EmptyString) (Converter.players item)
  /\ exists r p, r ∈ rows /\ r !! "players" = Some p
                 /\ Converter.players item = Converter.row_players p.

(** A sample table: three races of two venues and a row of two players. *)
Definition sample_row (venue race_number players : string) : Converter.row :=
  csv_fields (Some "20250101") (Some venue) (Some EmptyString)
    (Some race_number) (Some "18:48") (Some "18:46") (Some players)
    (Some "予選").

Definition sample_rows : list Converter.row :=
  [sample_row "川口" "3" "1a,2b,3c,4d,5e,6f";
   sample_row "伊勢崎" "2" "1a,2b,3c,4d,5e,6f,7g";
   sample_row "川口" "1" ",1a,,2b,3c,4d,5e,6f,";
   sample_row "山陽" "9" "1a,2b"].

Definition sample_item (n : Z) (players : list string)
    : Converter.races_item :=
  {| Converter.race_number := n;
     Converter.start_time := Some "18:48";
     Converter.closed_at := Some "18:46";
     Converter.players := players;
     Converter.class_category := Some "予選" |}.

Definition sample_document : list Converter.venue_group :=
  [{| Converter.venue := Some "川口"; Converter.grade := Some EmptyString;
      Converter.races :=
        [sample_item 1 ["1a"; "2b"; "3c"; "4d"; "5e"; "6f"];
         sample_item 3 ["1a"; "2b"; "3c"; "4d"; "5e"; "6f"]] |};
   {| Converter.venue := Some "伊勢崎"; Converter.grade := Some EmptyString;
      Converter.races :=
        [sample_item 2 ["1a"; "2b"; "3c"; "4d"; "5e"; "6f"; "7g"]] |}].

(** a players entry without a comma *)
Fixpoint comma_free (p : string) : bool :=
  match p with
  | EmptyString => true
  | String c p' => negb (Ascii.eqb c ",") && comma_free p'
  end.

(** A row of the table of the day [ymd] in the form in which the scraper
    writes its rows: the eight fields, the race number in decimal, and 6
    to 8 players, each non-empty and without a comma, joined by commas. *)
Definition canonical_row (ymd : string) (r : Converter.row) : Prop :=
  exists v g n st cl ps cat,
    r = csv_fields (Some ymd) (Some v) (Some g) (Some (str_of_int n))
          (Some st) (Some cl) (Some (join "," ps)) (Some cat)
    /\ 0 <= n
    /\ (6 <= length ps <= 8)%nat
    /\ Forall (fun p => p <> EmptyString /\ comma_free p = true) ps.

(** the rows of the groups being read *)
Definition flat_groups (ymd : string)
    (groups : list (Converter.group_key * list Converter.races_item))
    : list Converter.row :=
  g ← groups; item_row ymd g.1 <$> g.2.

(** a try that [http_get] returns at once: status 200 and a body *)
Definition attempt_ok (a : Scraper.attempt) : bool :=
  match a with
  | Scraper.Responded r =>
      (Scraper.status_code r =? 200) && truthy (Scraper.text r)
  | Scraper.Failed _ => false
  end.

(** the exception of the last try that raised, if any did *)
Fixpoint last_failure (l : list Scraper.attempt) : option exn :=
  match l with
  | [] => None
  | a :: l' =>
      match last_failure l' with
      | Some e => Some e
      | None => match a with
                | Scraper.Failed e => Some e
                | Scraper.Responded _ => None
                end
      end
  end.

(** a players entry that starts with a car number, 1 to 8 *)
Definition starts_with_car (p : string) : Prop :=
  exists c name, p = String c name /\ 49 <= code c <= 56.

(** the race number of a race section *)
Definition section_race_no (s : Scraper.race_section) : Z := s.1.1.1.1.

(** what every race section of a page satisfies, for the target day
    [raceDy] *)
Definition section_ok (strptime_Ymd : string -> option Z) (raceDy : string)
    (s : Scraper.race_section) : Prop :=
  let '(race_no, start_time, closed_at, players, cat) := s in
  (6 <= length players <= 8)%nat
  /\ Forall starts_with_car players
  /\ (exists t, Scraper.normalize_hhmm t = Ok start_time)
  /\ Scraper.hhmm_to_closed strptime_Ymd start_time raceDy = Ok closed_at.

(** what every row that [main] writes satisfies, for the target day
    [raceDy] *)
Definition csv_row_ok (strptime_Ymd : string -> option Z) (raceDy : string)
    (row : Scraper.csv_row) : Prop :=
  let '(date, venue, grade, race_no, start_time, closed_at, players, cat) :=
    row in
  date = raceDy
  /\ grade = EmptyString
  /\ (exists placeCd,
        venue = default EmptyString (Scraper.PLACECD_TO_VENUE !! placeCd))
  /\ Scraper.hhmm_to_closed strptime_Ymd start_time raceDy = Ok closed_at
  /\ exists l, players = join "," l /\ (6 <= length l <= 8)%nat
                /\ Forall starts_with_car l.

(** the rows of the page of a link: what one turn of the loop of [main]
    appends for a link of the target day *)
Definition page_result (strptime_Ymd : string -> option Z)
    (url_query : string -> result (gmap string (list string)))
    (soup_oneday : string -> list Scraper.box)
    (re_race_no re_start : string -> option string)
    (re_roster_head : string -> bool) (re_category : string -> option string)
    (re_sub_spaces : string -> string)
    (requests_get : string -> nat -> Scraper.attempt)
    (u : string) : result (list Scraper.csv_row) :=
  let* q := url_query u in
  let dy := Scraper.first_value (q !! "raceDy") in
  let placeCd := Scraper.first_value (q !! "placeCd") in
  let* rr := Scraper.http_get requests_get u in
  let* data :=
    Scraper.extract_races_from_oneday strptime_Ymd soup_oneday re_race_no
      re_start re_roster_head re_category re_sub_spaces
      (Scraper.text rr) dy placeCd in
  Ok (map (fun '(race_no, start_time, closed_at, players, class_cat) =>
             (dy, Scraper.oneday_venue data, Scraper.oneday_grade data,
              race_no, start_time, closed_at, join "," players, class_cat))
          (Scraper.oneday_rows data)).

(** the rows of a result, none for an exception *)
Definition rows_of (r : result (list Scraper.csv_row)) : list Scraper.csv_row :=
  match r with
  | Ok rows => rows
  | Raise _ => []
  end.

(** the race that the converter builds from a kept row *)
Definition row_item (r : Converter.row) : Converter.races_item :=
  {| Converter.race_number :=
       match Converter.int_field (default None (r !! "race_number")) with
       | Ok n => n
       | Raise _ => 0
       end;
     Converter.start_time := default None (r !! "start_time");
     Converter.closed_at := default None (r !! "closed_at");
     Converter.players :=
       Converter.row_players (default None (r !! "players"));
     Converter.class_category :=
       Converter.get r "class_category" EmptyString |}.

(** the races of the kept rows of one (venue, grade) pair, in the order of
    the rows *)
Definition items_of (key : Converter.group_key) (rows : list Converter.row)
    : list Converter.races_item :=
  row_item <$> filter (fun r => retained r = true /\ row_key r = key) rows.

(** the groups of the loop over the rows, once [rows] are read *)
Definition groups_of (rows : list Converter.row)
    : list (Converter.group_key * list Converter.races_item) :=
  map (fun key => (key, items_of key rows))
    (first_seen (row_key <$> filter (fun r => retained r = true) rows)).

(** the document of a table, group by group *)
Definition document_of (rows : list Converter.row)
    : list Converter.venue_group :=
  map (fun key =>
         {| Converter.venue := key.1; Converter.grade := key.2;
            Converter.races :=
              Scraper.sort_by Converter.race_number (items_of key rows) |})
    (first_seen (row_key <$> filter (fun r => retained r = true) rows)).

(** the start time of a race section *)
Definition section_start (s : Scraper.race_section) : string := s.1.1.1.2.

(** the ordinal text of a header box: group 1 of the match on its
    heading *)
Definition box_ordinal (re_race_no : string -> option string)
    (b : Scraper.box) : option string :=
  a ← Scraper.box_anchor b; re_race_no (Scraper.replace "　" " " a).

(** a header box that the loop reads without raising up to the roster: when
    its heading has an ordinal, [int] reads the ordinal and the start time
    is resolved or found absent (a start-time text is two fields around one
    colon that [int] reads) *)
Definition box_readable (re_race_no re_start : string -> option string)
    (b : Scraper.box) : Prop :=
  forall g, box_ordinal re_race_no b = Some g ->
    (exists n, int g = Ok n)
    /\ (exists o, Scraper.box_start re_start b = Ok o).

(** * Proofs *)

(** [lia] reads divisions and remainders by constants. *)
Ltac Zify.zify_post_hook ::= Z.div_mod_to_equations.

(** [simpl] leaves [+:+] alone: appending to a string of known characters. *)
Ltac simpl_append := cbv beta iota fix delta [String.append].

(** the conditions under which [ord] reads a character *)
Ltac ord_conds H :=
  cbv zeta in H; revert H;
  match goal with
  | |- (if ?c then _ else _) = _ -> _ =>
      let E := fresh "E" in
      destruct c eqn:E; [|discriminate];
      intros H; repeat (apply andb_true_iff in E as [E ?])
  end.

(** ** Characters *)

Lemma chars_cons_start c s :
  starts_char s = true ->
  chars (String c s) = String c EmptyString :: chars s.
Proof.
  destruct s as [|d s]; [reflexivity|]. cbn [starts_char]. intros H.
  simpl. destruct (is_cont d); [discriminate H | reflexivity].
Qed.

Lemma chars_cons_cont c d s x l :
  is_cont d = true -> chars (String d s) = x :: l ->
  chars (String c (String d s)) = String c x :: l.
Proof.
  intros Hd Hx.
  assert (chars (String c (String d s))
          = if is_cont d then
              match chars (String d s) with
              | x :: l => String c x :: l
              | [] => [String c EmptyString]
              end
            else String c EmptyString :: chars (String d s)) as ->
    by reflexivity.
  by rewrite Hd, Hx.
Qed.

Lemma append_nil_r s : s +:+ EmptyString = s.
Proof.
  induction s as [|c s IH]; [reflexivity|].
  change (String c s +:+ EmptyString) with (String c (s +:+ EmptyString)).
  by rewrite IH.
Qed.

(** the bytes of a code point are one character *)
Lemma chars_char a n s :
  ord a = Some n -> starts_char s = true -> chars (a +:+ s) = a :: chars s.
Proof.
  intros Ha Hs. unfold ord in Ha.
  destruct a as [|a0 [|b [|c [|d [|e a]]]]]; try discriminate Ha.
  - simpl_append. by apply chars_cons_start.
  - ord_conds Ha. simpl_append.
    apply chars_cons_cont; [assumption|]. by apply chars_cons_start.
  - ord_conds Ha. simpl_append.
    apply chars_cons_cont; [assumption|].
    apply chars_cons_cont; [assumption|]. by apply chars_cons_start.
  - ord_conds Ha. simpl_append.
    apply chars_cons_cont; [assumption|].
    apply chars_cons_cont; [assumption|].
    apply chars_cons_cont; [assumption|]. by apply chars_cons_start.
Qed.

Lemma ord_starts a n s : ord a = Some n -> starts_char (a +:+ s) = true.
Proof.
  intros Ha. unfold ord in Ha.
  destruct a as [|a0 [|b [|c [|d [|e a]]]]]; try discriminate Ha;
    simpl_append; cbn [starts_char]; unfold is_cont.
  - destruct (code a0 <? 128) eqn:E; [lia | discriminate Ha].
  - ord_conds Ha. lia.
  - ord_conds Ha. lia.
  - ord_conds Ha. lia.
Qed.

Lemma chars_char1 a n : ord a = Some n -> chars a = [a].
Proof.
  intros Ha. rewrite <- (append_nil_r a) at 1.
  by rewrite (chars_char a n EmptyString Ha).
Qed.

Lemma chars_char2 a b n m :
  ord a = Some n -> ord b = Some m -> chars (a +:+ b) = [a; b].
Proof.
  intros Ha Hb. rewrite (chars_char a n b Ha).
  - by rewrite (chars_char1 b m Hb).
  - rewrite <- (append_nil_r b). by eapply ord_starts.
Qed.

Lemma chars_cat s : cat (chars s) = s.
Proof.
  induction s as [|c s IH]; [reflexivity|].
  destruct s as [|d s]; [reflexivity|].
  assert (chars (String c (String d s))
          = if is_cont d then
              match chars (String d s) with
              | x :: l => String c x :: l
              | [] => [String c EmptyString]
              end
            else String c EmptyString :: chars (String d s)) as ->
    by reflexivity.
  destruct (is_cont d).
  - destruct (chars (String d s)) as [|x l]; [discriminate IH|].
    cbn [cat] in IH |- *.
    change (String c x +:+ cat l) with (String c (x +:+ cat l)).
    by rewrite IH.
  - cbn [cat].
    change (String c EmptyString +:+ cat (chars (String d s)))
      with (String c (cat (chars (String d s)))).
    by rewrite IH.
Qed.

(** ** Decimal digits *)

Lemma decimal_of_range n d : decimal_of n = Some d -> 0 <= d <= 9.
Proof.
  unfold decimal_of.
  destruct (find _ decimal_zeros) as [z|] eqn:Hz; [|discriminate].
  apply find_some in Hz as [_ Hz]. intros [= <-]. lia.
Qed.

Lemma decimal_inv ch d :
  decimal ch = Some d ->
  exists n, ord ch = Some n /\ decimal_of n = Some d /\ 0 <= d <= 9.
Proof.
  unfold decimal. destruct (ord ch) as [n|]; [|discriminate].
  cbn [mbind option_bind]. intros H. exists n.
  repeat split; try assumption; by eapply decimal_of_range.
Qed.

(** a decimal digit is no white space, sign, underscore or colon *)
Lemma decimal_plain ch d :
  decimal ch = Some d ->
  is_int_space ch = false
  /\ String.eqb ch "-" = false /\ String.eqb ch "+" = false
  /\ String.eqb ch "_" = false /\ String.eqb ch ":" = false.
Proof.
  intros H. split.
  - destruct (decimal_inv _ _ H) as (n & Hn & Hd & _).
    unfold is_int_space. rewrite Hn.
    destruct (existsb (Z.eqb n) int_spaces) eqn:E; [|reflexivity].
    apply existsb_exists in E as (w & Hw & ->%Z.eqb_eq).
    unfold int_spaces in Hw. cbn [In] in Hw.
    repeat (destruct Hw as [<- | Hw]; [vm_compute in Hd; discriminate Hd|]).
    destruct Hw.
  - repeat split.
    all: match goal with
         | |- String.eqb ?c ?m = false =>
             destruct (String.eqb c m) eqn:E; [|reflexivity];
             apply String.eqb_eq in E; subst c; vm_compute in H;
             discriminate H
         end.
Qed.

Lemma byte_above c sep :
  128 <= code c -> code sep < 128 -> Ascii.eqb c sep = false.
Proof.
  intros H Hs. destruct (Ascii.eqb c sep) eqn:E; [|reflexivity].
  apply Ascii.eqb_eq in E. subst. lia.
Qed.

(** a decimal digit holds no colon *)
Lemma decimal_colon_free ch d : decimal ch = Some d -> sep_free ":" ch = true.
Proof.
  intros H. destruct (decimal_plain _ _ H) as (_ & _ & _ & _ & Hc).
  destruct (decimal_inv _ _ H) as (n & Hn & _). clear H.
  assert (code ":" < 128) as Hcolon by (vm_compute; reflexivity).
  unfold ord in Hn.
  destruct ch as [|a0 [|b [|c [|e [|f ch]]]]]; try discriminate Hn;
    cbn [sep_free].
  - destruct (Ascii.eqb a0 ":") eqn:E; [|reflexivity].
    apply Ascii.eqb_eq in E. subst. discriminate Hc.
  - ord_conds Hn. unfold is_cont in *.
    rewrite !byte_above by lia. reflexivity.
  - ord_conds Hn. unfold is_cont in *.
    rewrite !byte_above by lia. reflexivity.
  - ord_conds Hn. unfold is_cont in *.
    rewrite !byte_above by lia. reflexivity.
Qed.

(** ** [int] on digits *)

Lemma int_decimal1 a d : decimal a = Some d -> int a = Ok d.
Proof.
  intros Ha. destruct (decimal_inv _ _ Ha) as (n & Hn & _).
  destruct (decimal_plain _ _ Ha) as (Hs & Hm & Hp & _).
  unfold int. rewrite (chars_char1 a n Hn). cbn [lstrip rstrip].
  rewrite Hs. cbn [rstrip]. rewrite Hs, Hm, Hp. cbn [int_body].
  rewrite Ha. reflexivity.
Qed.

Lemma int_decimal2 a b da db :
  decimal a = Some da -> decimal b = Some db ->
  int (a +:+ b) = Ok (10 * da + db).
Proof.
  intros Ha Hb.
  destruct (decimal_inv _ _ Ha) as (n & Hn & _).
  destruct (decimal_inv _ _ Hb) as (m & Hm & _).
  destruct (decimal_plain _ _ Ha) as (Hs & Hmi & Hp & _).
  destruct (decimal_plain _ _ Hb) as (Hs' & _).
  unfold int. rewrite (chars_char2 a b n m Hn Hm). cbn [lstrip rstrip].
  rewrite Hs. cbn [rstrip]. rewrite Hs', Hmi, Hp. cbn [int_body].
  rewrite Ha, Hb. f_equal; lia.
Qed.

Lemma is_decimal_Some ch : is_decimal ch = true -> exists d, decimal ch = Some d.
Proof. unfold is_decimal. destruct (decimal ch); [eauto|discriminate]. Qed.


Lemma append_assoc x y z : (x +:+ y) +:+ z = x +:+ (y +:+ z).
Proof.
  induction x as [|c x IH]; [reflexivity|].
  change (String c x +:+ y) with (String c (x +:+ y)).
  change (String c (x +:+ y) +:+ z) with (String c ((x +:+ y) +:+ z)).
  by rewrite IH.
Qed.

Lemma sep_free_app sep x y :
  sep_free sep (x +:+ y) = sep_free sep x && sep_free sep y.
Proof.
  induction x as [|c x IH]; [reflexivity|].
  change (String c x +:+ y) with (String c (x +:+ y)). cbn [sep_free].
  by rewrite IH, andb_assoc.
Qed.

(** the form of a matched time: digits, a colon, digits *)
Lemma re_fullmatch_hhmm_inv s g1 g2 :
  Scraper.re_fullmatch_hhmm s = Some (g1, g2) ->
  s = g1 +:+ ":" +:+ g2
  /\ sep_free ":" g1 = true /\ sep_free ":" g2 = true
  /\ exists h mi, int g1 = Ok h /\ int g2 = Ok mi
                  /\ 0 <= h <= 99 /\ 0 <= mi <= 99.
Proof.
  unfold Scraper.re_fullmatch_hhmm. intros H.
  pose proof (chars_cat s) as Hs.
  destruct (chars s) as [|a [|b [|c [|d [|e [|f l]]]]]]; try discriminate H.
  - destruct (is_decimal a) eqn:Ha; [|discriminate H].
    destruct (String.eqb b ":") eqn:Hb; [|discriminate H].
    destruct (is_decimal c) eqn:Hc; [|discriminate H].
    destruct (is_decimal d) eqn:Hd; [|discriminate H].
    cbn [andb] in H. injection H as <- <-.
    apply String.eqb_eq in Hb. subst b.
    apply is_decimal_Some in Ha as (va & Ha), Hc as (vc & Hc),
      Hd as (vd & Hd).
    cbn [cat] in Hs. rewrite append_nil_r in Hs.
    split; [by rewrite <- Hs|].
    rewrite sep_free_app, (decimal_colon_free _ _ Ha),
      (decimal_colon_free _ _ Hc), (decimal_colon_free _ _ Hd).
    split; [reflexivity|]. split; [reflexivity|].
    exists va, (10 * vc + vd).
    rewrite (int_decimal1 _ _ Ha), (int_decimal2 _ _ _ _ Hc Hd).
    destruct (decimal_inv _ _ Ha) as (_ & _ & _ & ?).
    destruct (decimal_inv _ _ Hc) as (_ & _ & _ & ?).
    destruct (decimal_inv _ _ Hd) as (_ & _ & _ & ?).
    repeat split; lia.
  - destruct (is_decimal a) eqn:Ha; [|discriminate H].
    destruct (is_decimal b) eqn:Hb; [|discriminate H].
    destruct (String.eqb c ":") eqn:Hc; [|discriminate H].
    destruct (is_decimal d) eqn:Hd; [|discriminate H].
    destruct (is_decimal e) eqn:He; [|discriminate H].
    cbn [andb] in H. injection H as <- <-.
    apply String.eqb_eq in Hc. subst c.
    apply is_decimal_Some in Ha as (va & Ha), Hb as (vb & Hb),
      Hd as (vd & Hd), He as (ve & He).
    cbn [cat] in Hs. rewrite append_nil_r in Hs.
    split; [by rewrite <- Hs, append_assoc|].
    rewrite !sep_free_app, (decimal_colon_free _ _ Ha),
      (decimal_colon_free _ _ Hb), (decimal_colon_free _ _ Hd),
      (decimal_colon_free _ _ He).
    split; [reflexivity|]. split; [reflexivity|].
    exists (10 * va + vb), (10 * vd + ve).
    rewrite (int_decimal2 _ _ _ _ Ha Hb), (int_decimal2 _ _ _ _ Hd He).
    destruct (decimal_inv _ _ Ha) as (_ & _ & _ & ?).
    destruct (decimal_inv _ _ Hb) as (_ & _ & _ & ?).
    destruct (decimal_inv _ _ Hd) as (_ & _ & _ & ?).
    destruct (decimal_inv _ _ He) as (_ & _ & _ & ?).
    repeat split; lia.
Qed.

(** the groups of a match are one or two digits, and [int] reads them *)
Lemma re_fullmatch_hhmm_int s g1 g2 :
  Scraper.re_fullmatch_hhmm s = Some (g1, g2) ->
  exists h mi, int g1 = Ok h /\ int g2 = Ok mi
               /\ 0 <= h <= 99 /\ 0 <= mi <= 99.
Proof. intros H. by destruct (re_fullmatch_hhmm_inv _ _ _ H) as (_ & _ & _ & ?). Qed.

(** [split] at a separator byte *)
Lemma split_sep_free sep s : sep_free sep s = true -> split sep s = [s].
Proof.
  induction s as [|c s IH]; [reflexivity|]. cbn [sep_free split].
  intros [Hc Hs]%andb_true_iff. apply negb_true_iff in Hc.
  by rewrite Hc, (IH Hs).
Qed.

Lemma split_app_sep sep x y :
  sep_free sep x = true ->
  split sep (x +:+ String sep y) = x :: split sep y.
Proof.
  induction x as [|c x IH]; intros H.
  - change (EmptyString +:+ String sep y) with (String sep y).
    cbn [split]. by rewrite Ascii.eqb_refl.
  - cbn [sep_free] in H. apply andb_true_iff in H as [Hc Hx].
    apply negb_true_iff in Hc.
    change (String c x +:+ String sep y) with (String c (x +:+ String sep y)).
    cbn [split]. by rewrite Hc, (IH Hx).
Qed.

(** a text of the shape of a time is cut at its colon *)
Lemma split_colon_hhmm s g1 g2 :
  Scraper.re_fullmatch_hhmm s = Some (g1, g2) -> split ":" s = [g1; g2].
Proof.
  intros H. destruct (re_fullmatch_hhmm_inv _ _ _ H) as (-> & H1 & H2 & _).
  change (g1 +:+ ":" +:+ g2) with (g1 +:+ String ":" g2).
  by rewrite (split_app_sep _ _ _ H1), (split_sep_free _ _ H2).
Qed.

Lemma digit_char_spec d :
  0 <= d <= 9 ->
  is_digit (digit_char d) = true /\ digit_value (digit_char d) = d.
Proof.
  intros H.
  assert (d = 0 \/ d = 1 \/ d = 2 \/ d = 3 \/ d = 4 \/ d = 5 \/ d = 6
          \/ d = 7 \/ d = 8 \/ d = 9) as Hd by lia.
  repeat (destruct Hd as [-> | Hd]); try subst d; split; reflexivity.
Qed.

Lemma is_digit_decimal c :
  is_digit c = true -> decimal (String c EmptyString) = Some (digit_value c).
Proof.
  unfold is_digit, digit_value, decimal, ord. intros H.
  replace (code c <? 128) with true by lia. cbn [mbind option_bind].
  unfold decimal_of, decimal_zeros. cbn [find].
  replace ((48 <=? code c) && (code c <? 48 + 10)) with true by lia.
  reflexivity.
Qed.

Lemma is_digit_starts c s : is_digit c = true -> starts_char (String c s) = true.
Proof. unfold is_digit, starts_char, is_cont. lia. Qed.

(** [int] reads two ASCII digits *)
Lemma int_digit2 a b :
  is_digit a = true -> is_digit b = true ->
  int (String a (String b EmptyString))
  = Ok (10 * digit_value a + digit_value b).
Proof.
  intros Ha Hb.
  exact (int_decimal2 (String a EmptyString) (String b EmptyString) _ _
           (is_digit_decimal a Ha) (is_digit_decimal b Hb)).
Qed.

(** the two-digit rendering of an hour and a minute below 100 is matched,
    and [int] reads the two numbers back *)
Lemma fullmatch_two_digits h mi :
  0 <= h < 100 -> 0 <= mi < 100 ->
  Scraper.re_fullmatch_hhmm (two_digits h +:+ ":" +:+ two_digits mi)
  = Some (two_digits h, two_digits mi)
  /\ int (two_digits h) = Ok h /\ int (two_digits mi) = Ok mi.
Proof.
  intros Hh Hmi. unfold two_digits. simpl_append.
  destruct (digit_char_spec (h / 10)) as [Ha Va]; [lia|].
  destruct (digit_char_spec (h mod 10)) as [Hb Vb]; [lia|].
  destruct (digit_char_spec (mi / 10)) as [Hc Vc]; [lia|].
  destruct (digit_char_spec (mi mod 10)) as [Hd Vd]; [lia|].
  unfold Scraper.re_fullmatch_hhmm.
  rewrite !chars_cons_start
    by first [by apply is_digit_starts | reflexivity].
  unfold is_decimal.
  rewrite !is_digit_decimal by assumption. cbn [chars String.eqb andb].
  rewrite !int_digit2 by assumption. rewrite Va, Vb, Vc, Vd.
  repeat split; f_equal; lia.
Qed.

(** ** The two-digit rendering *)

Lemma is_digit_range c : is_digit c = true -> 0 <= digit_value c <= 9.
Proof. unfold is_digit, digit_value. lia. Qed.

Lemma valid_hhmm_inv s h mi :
  valid_hhmm s = Some (h, mi) ->
  exists g1 g2, Scraper.re_fullmatch_hhmm s = Some (g1, g2)
                /\ int g1 = Ok h /\ int g2 = Ok mi
                /\ 0 <= h <= 99 /\ 0 <= mi < 60.
Proof.
  unfold valid_hhmm. intros H.
  destruct (Scraper.re_fullmatch_hhmm s) as [[g1 g2]|] eqn:Hm;
    try discriminate H.
  destruct (re_fullmatch_hhmm_int _ _ _ Hm) as (h' & mi' & H1 & H2 & Hh & Hmi).
  rewrite H1, H2 in H.
  destruct ((0 <=? mi') && (mi' <? 60)) eqn:Hr; try discriminate H.
  injection H as <- <-. exists g1, g2. repeat split; try assumption; lia.
Qed.

Lemma format_02d_two_digits n :
  0 <= n < 100 -> format_02d n = two_digits n.
Proof.
  intros Hn.
  assert (forallb (fun k => String.eqb (format_02d (Z.of_nat k))
                                       (two_digits (Z.of_nat k)))
                  (seq 0 100) = true) as Hall by (vm_compute; reflexivity).
  rewrite forallb_forall in Hall.
  specialize (Hall (Z.to_nat n)).
  rewrite Z2Nat.id in Hall by lia.
  apply String.eqb_eq, Hall, in_seq. lia.
Qed.

Lemma valid_hhmm_two_digits h mi :
  0 <= h < 100 -> 0 <= mi < 60 ->
  valid_hhmm (two_digits h +:+ ":" +:+ two_digits mi) = Some (h, mi).
Proof.
  intros Hh Hmi.
  destruct (fullmatch_two_digits h mi) as (Hm & H1 & H2); [lia|lia|].
  unfold valid_hhmm. rewrite Hm, H1, H2.
  by replace ((0 <=? mi) && (mi <? 60)) with true by lia.
Qed.

(** ** The time normalizer *)

Lemma instant_of_inv s t :
  instant_of s = Some t ->
  exists h mi, valid_hhmm s = Some (h, mi) /\ t = 60 * h + mi.
Proof.
  unfold instant_of. destruct (valid_hhmm s) as [[h mi]|]; simpl;
    intros H; inversion H. eauto.
Qed.

Lemma instant_of_plain_HM c :
  0 <= c < 1440 -> instant_of (plain_HM c) = Some c.
Proof.
  intros Hc. unfold instant_of, plain_HM.
  rewrite valid_hhmm_two_digits by lia. simpl. f_equal. lia.
Qed.

Lemma instant_of_plus24_HM c :
  1440 <= c < 2880 -> instant_of (plus24_HM c) = Some c.
Proof.
  intros Hc. unfold instant_of, plus24_HM.
  rewrite valid_hhmm_two_digits by lia. simpl. f_equal. lia.
Qed.

(** On a valid input the function returns the rendering of the instant two
    minutes earlier: with 24 added to the hour when the input hour is 24 or
    more and that instant is of the day after the reference date, plain
    otherwise. *)
Lemma hhmm_to_closed_valid strptime_Ymd hhmm date_str d h mi :
  valid_hhmm hhmm = Some (h, mi) ->
  strptime_Ymd date_str = Some d ->
  datetime.MINORD < d -> d + 4 < datetime.MAXORD ->
  Scraper.hhmm_to_closed strptime_Ymd hhmm date_str
  = Ok (if (24 <=? h) && ((60 * h + mi - 2) / 1440 =? 1)
        then plus24_HM (60 * h + mi - 2) else plain_HM (60 * h + mi - 2)).
Proof.
  intros Hv Hd Hlo Hhi.
  destruct (valid_hhmm_inv _ _ _ Hv) as (g1 & g2 & Hm & H1 & H2 & Hh & Hmi).
  unfold Scraper.hhmm_to_closed, Scraper.strptime.
  rewrite Hm, H1. cbn [Py.bind]. rewrite H2. cbn [Py.bind].
  replace ((0 <=? mi) && (mi <? 60)) with true by lia. cbn [negb].
  rewrite Hd. cbn [Py.bind].
  unfold datetime.MINORD, datetime.MAXORD in *.
  set (c := 60 * h + mi - 2).
  assert (datetime.of_ordinal d
          + datetime.timedelta (if 24 <=? h then h / 24 else 0)
              (if 24 <=? h then h mod 24 else h) mi
          = d * 1440 + c + 2) as Hstart.
  { unfold datetime.of_ordinal, datetime.timedelta, c.
    destruct (24 <=? h); lia. }
  destruct (24 <=? h) eqn:H24; cbn [andb];
    unfold datetime.sub, datetime.add; rewrite Hstart;
    unfold datetime.in_range, datetime.date, datetime.MINORD,
      datetime.MAXORD, datetime.timedelta, datetime.of_ordinal.
  - replace ((1 <=? (d * 1440 + c + 2) / 1440)
             && ((d * 1440 + c + 2) / 1440 <=? 3652059)) with true by lia.
    cbn [Py.bind].
    replace (d * 1440 + c + 2 + - (0 * 1440 + 0 * 60 + 2))
      with (d * 1440 + c) by lia.
    replace ((1 <=? (d * 1440 + c) / 1440)
             && ((d * 1440 + c) / 1440 <=? 3652059)) with true by lia.
    cbn [Py.bind].
    replace ((1 <=? (d * 1440 + (1 * 1440 + 0 * 60 + 0)) / 1440)
             && ((d * 1440 + (1 * 1440 + 0 * 60 + 0)) / 1440 <=? 3652059))
      with true by lia.
    cbn [Py.bind].
    replace ((d * 1440 + c) / 1440
             =? (d * 1440 + (1 * 1440 + 0 * 60 + 0)) / 1440)
      with (c / 1440 =? 1) by lia.
    destruct (c / 1440 =? 1) eqn:Hday.
    + unfold plus24_HM, datetime.hour, datetime.minute.
      rewrite !format_02d_two_digits by lia.
      replace ((d * 1440 + c) mod 1440) with (c mod 1440) by lia.
      replace ((d * 1440 + c) mod 60) with (c mod 60) by lia.
      reflexivity.
    + unfold plain_HM, datetime.strftime_HM, datetime.hour, datetime.minute.
      rewrite !format_02d_two_digits by lia.
      replace ((d * 1440 + c) mod 1440) with (c mod 1440) by lia.
      replace ((d * 1440 + c) mod 60) with (c mod 60) by lia.
      reflexivity.
  - replace ((1 <=? (d * 1440 + c + 2) / 1440)
             && ((d * 1440 + c + 2) / 1440 <=? 3652059)) with true by lia.
    cbn [Py.bind].
    replace (d * 1440 + c + 2 + - (0 * 1440 + 0 * 60 + 2))
      with (d * 1440 + c) by lia.
    replace ((1 <=? (d * 1440 + c) / 1440)
             && ((d * 1440 + c) / 1440 <=? 3652059)) with true by lia.
    cbn [Py.bind].
    unfold plain_HM, datetime.strftime_HM, datetime.hour, datetime.minute.
    rewrite !format_02d_two_digits by lia.
    replace ((d * 1440 + c) mod 1440) with (c mod 1440) by lia.
    replace ((d * 1440 + c) mod 60) with (c mod 60) by lia.
    reflexivity.
Qed.

(** an input that denotes no instant is returned unchanged *)
Lemma closing_fallback_cases strptime_Ymd hhmm date_str :
  valid_hhmm hhmm = None ->
  Scraper.hhmm_to_closed strptime_Ymd hhmm date_str = Ok hhmm.
Proof.
  unfold valid_hhmm, Scraper.hhmm_to_closed. intros Hv.
  destruct (Scraper.re_fullmatch_hhmm hhmm) as [[g1 g2]|] eqn:Hm;
    [|reflexivity].
  destruct (re_fullmatch_hhmm_int _ _ _ Hm) as (h & mi & H1 & H2 & _).
  rewrite H1, H2 in *. cbn [Py.bind].
  destruct ((0 <=? mi) && (mi <? 60)); [discriminate Hv | reflexivity].
Qed.

(** C1, as amended.  For a reference date that [strptime] reads (from
    0001-01-02 to 9999-12-26) and every input of the shape [H:MM] or
    [HH:MM] with a minute below 60 that denotes an instant [t] from 00:02
    to 47:59, [hhmm_to_closed] returns a string that denotes, with hours of
    24 and more read as hours of the following day, the instant [t - 2];
    and the closing time of 18:48 is 18:46. *)
Theorem closing_two_minutes_before strptime_Ymd date_str d :
  strptime_Ymd date_str = Some d ->
  datetime.MINORD < d -> d + 4 < datetime.MAXORD ->
  (forall hhmm t,
     instant_of hhmm = Some t -> 2 <= t < 2880 ->
     exists out,
       Scraper.hhmm_to_closed strptime_Ymd hhmm date_str = Ok out
       /\ instant_of out = Some (t - 2))
  /\ Scraper.hhmm_to_closed strptime_Ymd "18:48" date_str = Ok "18:46".
Proof.
  intros Hd Hlo Hhi. split.
  - intros hhmm t Ht Hr.
    destruct (instant_of_inv _ _ Ht) as (h & mi & Hv & ->).
    destruct (valid_hhmm_inv _ _ _ Hv) as (_ & _ & _ & _ & _ & Hh & Hmi).
    rewrite (hhmm_to_closed_valid _ _ _ _ _ _ Hv Hd Hlo Hhi).
    eexists. split; [reflexivity|].
    destruct ((24 <=? h) && ((60 * h + mi - 2) / 1440 =? 1)) eqn:Hb.
    + apply instant_of_plus24_HM. lia.
    + apply instant_of_plain_HM. lia.
  - rewrite (hhmm_to_closed_valid _ "18:48" _ d 18 48 eq_refl Hd Hlo Hhi).
    reflexivity.
Qed.

Lemma closing_two_minutes_before_witness :
  strptime_Ymd8 "20250101" = Some 739252
  /\ datetime.MINORD < 739252 /\ 739252 + 4 < datetime.MAXORD
  /\ instant_of "24:05" = Some 1445 /\ 2 <= 1445 < 2880
  /\ exists out,
       Scraper.hhmm_to_closed strptime_Ymd8 "24:05" "20250101" = Ok out
       /\ instant_of out = Some (1445 - 2).
Proof.
  assert (strptime_Ymd8 "20250101" = Some 739252) as Hd by reflexivity.
  assert (datetime.MINORD < 739252) as Hlo by reflexivity.
  assert (739252 + 4 < datetime.MAXORD) as Hhi by reflexivity.
  assert (instant_of "24:05" = Some 1445) as Ht by reflexivity.
  assert (2 <= 1445 < 2880) as Hr by (split; [discriminate | reflexivity]).
  repeat (split; [assumption|]).
  exact (proj1 (closing_two_minutes_before strptime_Ymd8 "20250101" 739252
                  Hd Hlo Hhi) "24:05" 1445 Ht Hr).
Defined.

(** C1 as stated fails at the start of the reference day: the closing time
    of 00:01 is rendered 23:59, which denotes an instant later in the
    reference day and not the instant two minutes before. *)
Lemma closing_before_midnight_counterexample :
  strptime_Ymd8 "20250101" = Some 739252
  /\ instant_of "00:01" = Some 1
  /\ Scraper.hhmm_to_closed strptime_Ymd8 "00:01" "20250101" = Ok "23:59"
  /\ instant_of "23:59" = Some 1439
  /\ instant_of "23:59" <> Some (1 - 2).
Proof. repeat split; try reflexivity. discriminate. Qed.

(** The rendering of an input hour of 48 or more: the closing time of 48:05
    is rendered 00:03. *)
Example closing_hour_48 :
  Scraper.hhmm_to_closed strptime_Ymd8 "48:05" "20250101" = Ok "00:03"
  /\ Scraper.hhmm_to_closed strptime_Ymd8 "48:01" "20250101" = Ok "47:59".
Proof. split; reflexivity. Qed.

(** Full-width digits are digits of [\d] and of [int]: such a time is
    matched and its closing time is written with ASCII digits. *)
Example closing_full_width_digits :
  Scraper.re_fullmatch_hhmm "１８:４８" = Some ("１８", "４８")
  /\ valid_hhmm "１８:４８" = Some (18, 48)
  /\ Scraper.hhmm_to_closed strptime_Ymd8 "１８:４８" "20250101" = Ok "18:46"
  /\ int "１" = Ok 1.
Proof. repeat split; vm_compute; reflexivity. Qed.

(** C2.  For a valid input of hour [h] and minute [mi], with [c] the instant
    two minutes earlier (in minutes after 00:00 of the reference date):
    when [h >= 24] and [c] is of the day after the reference date the result
    is the rendering with 24 added to the hour; when [h >= 24] and [c] is of
    the reference day itself the result is the plain rendering; when
    [h < 24] the result is the plain rendering.  The closing time of 24:01
    is 23:59 and that of 24:05 is 24:03. *)
Theorem closing_rendering strptime_Ymd hhmm date_str d h mi :
  valid_hhmm hhmm = Some (h, mi) ->
  strptime_Ymd date_str = Some d ->
  datetime.MINORD < d -> d + 4 < datetime.MAXORD ->
  let c := 60 * h + mi - 2 in
  (24 <= h -> c / 1440 = 1 ->
   Scraper.hhmm_to_closed strptime_Ymd hhmm date_str = Ok (plus24_HM c))
  /\ (24 <= h -> c / 1440 = 0 ->
      Scraper.hhmm_to_closed strptime_Ymd hhmm date_str = Ok (plain_HM c))
  /\ (h < 24 ->
      Scraper.hhmm_to_closed strptime_Ymd hhmm date_str = Ok (plain_HM c))
  /\ Scraper.hhmm_to_closed strptime_Ymd "24:01" date_str = Ok "23:59"
  /\ Scraper.hhmm_to_closed strptime_Ymd "24:05" date_str = Ok "24:03".
Proof.
  intros Hv Hd Hlo Hhi c.
  pose proof (hhmm_to_closed_valid _ _ _ _ _ _ Hv Hd Hlo Hhi) as H.
  fold c in H.
  split; [|split; [|split; [|split]]].
  - intros H24 Hday. rewrite H.
    replace ((24 <=? h) && (c / 1440 =? 1)) with true by lia. reflexivity.
  - intros H24 Hday. rewrite H.
    replace ((24 <=? h) && (c / 1440 =? 1)) with false by lia. reflexivity.
  - intros H24. rewrite H.
    replace ((24 <=? h) && (c / 1440 =? 1)) with false by lia. reflexivity.
  - rewrite (hhmm_to_closed_valid _ "24:01" _ d 24 1 eq_refl Hd Hlo Hhi).
    reflexivity.
  - rewrite (hhmm_to_closed_valid _ "24:05" _ d 24 5 eq_refl Hd Hlo Hhi).
    reflexivity.
Qed.

Lemma closing_rendering_witness :
  valid_hhmm "25:10" = Some (25, 10)
  /\ strptime_Ymd8 "20250101" = Some 739252
  /\ datetime.MINORD < 739252 /\ 739252 + 4 < datetime.MAXORD
  /\ Scraper.hhmm_to_closed strptime_Ymd8 "25:10" "20250101" = Ok "25:08".
Proof.
  assert (valid_hhmm "25:10" = Some (25, 10)) as Hv by reflexivity.
  assert (strptime_Ymd8 "20250101" = Some 739252) as Hd by reflexivity.
  assert (datetime.MINORD < 739252) as Hlo by reflexivity.
  assert (739252 + 4 < datetime.MAXORD) as Hhi by reflexivity.
  repeat (split; [assumption|]).
  refine (proj1 (closing_rendering strptime_Ymd8 "25:10" "20250101" 739252
                   25 10 Hv Hd Hlo Hhi) _ _).
  - discriminate.
  - reflexivity.
Defined.

(** C9.  An input that is not of the shape [H:MM] or [HH:MM], or whose
    minute is outside 0 to 59, is returned unchanged, whatever the reference
    date: the function returns before the date is read. *)
Theorem closing_fallback strptime_Ymd hhmm date_str :
  Scraper.re_fullmatch_hhmm hhmm = None
  \/ (exists g1 g2 mi,
        Scraper.re_fullmatch_hhmm hhmm = Some (g1, g2)
        /\ int g2 = Ok mi /\ ~ (0 <= mi < 60)) ->
  Scraper.hhmm_to_closed strptime_Ymd hhmm date_str = Ok hhmm.
Proof.
  intros [Hm | (g1 & g2 & mi & Hm & H2 & Hmi)];
    unfold Scraper.hhmm_to_closed; rewrite Hm; [reflexivity|].
  destruct (re_fullmatch_hhmm_int _ _ _ Hm) as (h & mi' & H1 & H2' & _).
  rewrite H1, H2. cbn [Py.bind].
  replace ((0 <=? mi) && (mi <? 60)) with false by lia. reflexivity.
Qed.

Lemma closing_fallback_witness :
  (Scraper.re_fullmatch_hhmm "9:75" = None
   \/ exists g1 g2 mi,
        Scraper.re_fullmatch_hhmm "9:75" = Some (g1, g2)
        /\ int g2 = Ok mi /\ ~ (0 <= mi < 60))
  /\ Scraper.hhmm_to_closed (fun _ => None) "9:75" "no date" = Ok "9:75".
Proof.
  assert (Scraper.re_fullmatch_hhmm "9:75" = None
          \/ exists g1 g2 mi,
               Scraper.re_fullmatch_hhmm "9:75" = Some (g1, g2)
               /\ int g2 = Ok mi /\ ~ (0 <= mi < 60)) as H.
  { right. exists "9", "75", 75. repeat split; try reflexivity.
    intros [_ Hlt]. discriminate Hlt. }
  split; [exact H|].
  exact (closing_fallback (fun _ => None) "9:75" "no date" H).
Defined.

(** ** The link discoverer *)

Lemma truthy_true s : truthy s = true <-> s <> EmptyString.
Proof. destruct s; simpl; split; congruence. Qed.

(** what [collect_loop] appends: references of the anchors, in their order,
    each with a date and a venue code, no pair seen before and no pair
    twice *)
Lemma collect_loop_inv urljoin url_query anchors : forall seen found res,
  Scraper.collect_loop urljoin url_query anchors seen found = Ok res ->
  exists new,
    res = found ++ new
    /\ sublist new (candidates urljoin anchors)
    /\ Forall (fun u => exists dy pc,
                 link_fields url_query u = Some (dy, pc)
                 /\ dy <> EmptyString /\ pc <> EmptyString
                 /\ (dy, pc) ∉ seen) new
    /\ NoDup (link_fields url_query <$> new).
Proof.
  induction anchors as [|a anchors IH]; intros seen found res H.
  - injection H as <-. exists []. rewrite app_nil_r.
    repeat split; constructor.
  - cbn [Scraper.collect_loop] in H. unfold candidates. cbn [omap list_omap].
    fold (candidates urljoin anchors).
    destruct (contains "/autorace/OneDayRaceList.do" (default "" a));
      cbn [negb] in H.
    2:{ destruct (IH _ _ _ H) as (new & -> & Hs & HF & HN).
        exists new. repeat split; auto. }
    destruct (urljoin Scraper.BASE (default "" a)) as [abs_url|e] eqn:Hj;
      [|discriminate H].
    cbn [Py.bind] in H.
    destruct (url_query abs_url) as [q|e] eqn:Hq; [|discriminate H].
    cbn [Py.bind] in H.
    set (dy := Scraper.first_value (q !! "raceDy")) in *.
    set (pc := Scraper.first_value (q !! "placeCd")) in *.
    destruct (truthy dy) eqn:Hdy; cbn [negb orb] in H.
    2:{ destruct (IH _ _ _ H) as (new & -> & Hs & HF & HN).
        exists new. repeat split; auto. by apply sublist_cons. }
    destruct (truthy pc) eqn:Hpc; cbn [negb orb] in H.
    2:{ destruct (IH _ _ _ H) as (new & -> & Hs & HF & HN).
        exists new. repeat split; auto. by apply sublist_cons. }
    destruct (bool_decide ((dy, pc) ∈ seen)) eqn:Hseen.
    { destruct (IH _ _ _ H) as (new & -> & Hs & HF & HN).
      exists new. repeat split; auto. by apply sublist_cons. }
    apply bool_decide_eq_false in Hseen.
    destruct (IH _ _ _ H) as (new & -> & Hs & HF & HN).
    assert (link_fields url_query abs_url = Some (dy, pc)) as Hk.
    { unfold link_fields. by rewrite Hq. }
    exists (abs_url :: new). rewrite <- app_assoc. repeat split.
    + by apply sublist_skip.
    + constructor.
      * exists dy, pc. repeat split; auto; by apply truthy_true.
      * eapply Forall_impl; [exact HF|]. cbn beta.
        intros u (dy' & pc' & Hu & ? & ? & Hn). exists dy', pc'.
        repeat split; auto. set_solver.
    + rewrite fmap_cons. constructor; [|exact HN].
      rewrite list_elem_of_fmap. intros (u & Hu & Hin).
      rewrite Forall_forall in HF.
      destruct (HF u Hin) as (dy' & pc' & Hu' & _ & _ & Hn).
      rewrite Hk in Hu. rewrite <- Hu in Hu'. injection Hu' as <- <-.
      set_solver.
Qed.

(** what [filter_loop] appends: references of the given list, in their
    order, each of the target date and with a venue code, no pair seen
    before and no pair twice *)
Lemma filter_loop_inv url_query raceDy links : forall seen filtered res,
  Scraper.filter_loop url_query links raceDy seen filtered = Ok res ->
  exists new,
    res = filtered ++ new
    /\ sublist new links
    /\ Forall (fun u => exists pc,
                 link_fields url_query u = Some (raceDy, pc)
                 /\ pc <> EmptyString /\ (raceDy, pc) ∉ seen) new
    /\ NoDup (link_fields url_query <$> new).
Proof.
  induction links as [|u links IH]; intros seen filtered res H.
  - injection H as <-. exists []. rewrite app_nil_r.
    repeat split; constructor.
  - cbn [Scraper.filter_loop] in H.
    destruct (url_query u) as [q|e] eqn:Hq; [|discriminate H].
    cbn [Py.bind] in H.
    set (dy := Scraper.first_value (q !! "raceDy")) in *.
    set (pc := Scraper.first_value (q !! "placeCd")) in *.
    destruct (String.eqb dy raceDy) eqn:Hdy; cbn [andb] in H.
    2:{ destruct (IH _ _ _ H) as (new & -> & Hs & HF & HN).
        exists new. repeat split; auto. by apply sublist_cons. }
    apply String.eqb_eq in Hdy.
    destruct (truthy pc) eqn:Hpc.
    2:{ destruct (IH _ _ _ H) as (new & -> & Hs & HF & HN).
        exists new. repeat split; auto. by apply sublist_cons. }
    destruct (bool_decide ((dy, pc) ∈ seen)) eqn:Hseen; cbn [negb] in H.
    { destruct (IH _ _ _ H) as (new & -> & Hs & HF & HN).
      exists new. repeat split; auto. by apply sublist_cons. }
    apply bool_decide_eq_false in Hseen.
    destruct (IH _ _ _ H) as (new & -> & Hs & HF & HN).
    assert (link_fields url_query u = Some (raceDy, pc)) as Hk.
    { unfold link_fields. rewrite Hq. fold dy pc. by rewrite Hdy. }
    rewrite Hdy in *.
    exists (u :: new). rewrite <- app_assoc. repeat split.
    + by apply sublist_skip.
    + constructor.
      * exists pc. repeat split; auto. by apply truthy_true.
      * eapply Forall_impl; [exact HF|]. cbn beta.
        intros u' (pc' & Hu & ? & Hn). exists pc'.
        repeat split; auto. set_solver.
    + rewrite fmap_cons. constructor; [|exact HN].
      rewrite list_elem_of_fmap. intros (u' & Hu & Hin).
      rewrite Forall_forall in HF.
      destruct (HF u' Hin) as (pc' & Hu' & _ & Hn).
      rewrite Hk in Hu. rewrite <- Hu in Hu'. injection Hu' as <-.
      set_solver.
Qed.

(** what [collect_loop] appends, as a function of the anchors: of the
    candidates with both fields, those that are the first with their pair
    and whose pair was not seen before *)
Lemma collect_loop_spec urljoin url_query anchors : forall seen found res,
  Scraper.collect_loop urljoin url_query anchors seen found = Ok res ->
  res = found
        ++ filter (fun u => unseen url_query seen u = true)
             (first_by (link_fields url_query)
                (filter (fun u => has_fields url_query u = true)
                   (candidates urljoin anchors))).
Proof.
  induction anchors as [|a anchors IH]; intros seen found res H.
  - injection H as <-. by rewrite app_nil_r.
  - cbn [Scraper.collect_loop] in H. unfold candidates. cbn [omap list_omap].
    fold (candidates urljoin anchors).
    destruct (contains "/autorace/OneDayRaceList.do" (default "" a));
      cbn [negb] in H; [|by apply IH].
    destruct (urljoin Scraper.BASE (default "" a)) as [abs_url|e] eqn:Hj;
      [|discriminate H].
    cbn [Py.bind] in H.
    destruct (url_query abs_url) as [q|e] eqn:Hq; [|discriminate H].
    cbn [Py.bind] in H.
    set (dy := Scraper.first_value (q !! "raceDy")) in *.
    set (pc := Scraper.first_value (q !! "placeCd")) in *.
    assert (link_fields url_query abs_url = Some (dy, pc)) as Hk.
    { unfold link_fields. by rewrite Hq. }
    assert (has_fields url_query abs_url = truthy dy && truthy pc) as Hhas.
    { unfold has_fields. by rewrite Hk. }
    destruct (truthy dy) eqn:Hdy; cbn [negb orb] in H.
    2:{ rewrite filter_cons_False by (rewrite Hhas; discriminate).
        by apply IH. }
    destruct (truthy pc) eqn:Hpc; cbn [negb orb] in H.
    2:{ rewrite filter_cons_False by (rewrite Hhas; discriminate).
        by apply IH. }
    rewrite filter_cons_True by (by rewrite Hhas). cbn [first_by].
    destruct (bool_decide ((dy, pc) ∈ seen)) eqn:Hseen.
    + apply bool_decide_eq_true in Hseen.
      rewrite filter_cons_False.
      2:{ unfold unseen. rewrite Hk.
          rewrite bool_decide_eq_false_2 by (intros Hn; by apply Hn).
          discriminate. }
      rewrite (IH _ _ _ H), list_filter_filter. do 2 f_equal.
      apply list_filter_iff. intros u. cbn beta. split; [|tauto].
      intros Hu. split; [exact Hu|]. intros Heq.
      unfold unseen in Hu. rewrite Heq, Hk in Hu.
      apply bool_decide_eq_true in Hu. by apply Hu.
    + apply bool_decide_eq_false in Hseen.
      rewrite filter_cons_True.
      2:{ unfold unseen. rewrite Hk. by apply bool_decide_eq_true. }
      rewrite (IH _ _ _ H), list_filter_filter, <- app_assoc. cbn [app].
      do 2 f_equal. apply list_filter_iff. intros u. cbn beta.
      unfold unseen.
      destruct (link_fields url_query u) as [k|] eqn:Hu.
      * rewrite !bool_decide_eq_true, Hk. split.
        -- intros Hn. split; [set_solver|]. intros [= ->]. set_solver.
        -- intros [Hn Hne]. apply not_elem_of_union. split; [|exact Hn].
           intros ->%elem_of_singleton. by apply Hne.
      * rewrite Hk. split; [|tauto]. intros _. split; [reflexivity|].
        discriminate.
Qed.

(** among the first of their pair every element is *)
Lemma first_by_NoDup {A K} `{EqDecision K} (f : A -> K) (l : list A) :
  NoDup (f <$> l) -> first_by f l = l.
Proof.
  induction l as [|x l IH]; [reflexivity|]. rewrite fmap_cons.
  intros [Hx Hl]%NoDup_cons. cbn [first_by]. rewrite (IH Hl). f_equal.
  clear IH Hl. induction l as [|y l IH]; [reflexivity|].
  rewrite fmap_cons, not_elem_of_cons in Hx. destruct Hx as [Hne Hx].
  rewrite filter_cons_True by (by intros Heq; apply Hne). by rewrite IH.
Qed.

(** the day filter on references that were deduplicated already: the
    references of the day, nothing else dropped *)
Lemma filter_loop_spec url_query raceDy links : forall seen filtered res,
  Forall (fun u => has_fields url_query u = true) links ->
  NoDup (link_fields url_query <$> links) ->
  Forall (fun u => unseen url_query seen u = true) links ->
  Scraper.filter_loop url_query links raceDy seen filtered = Ok res ->
  res = filtered ++ filter (fun u => of_day url_query raceDy u = true) links.
Proof.
  induction links as [|u links IH]; intros seen filtered res Hhas HN Hun H.
  - injection H as <-. by rewrite app_nil_r.
  - cbn [Scraper.filter_loop] in H.
    apply Forall_cons in Hhas as [Hu Hhas]. apply Forall_cons in Hun as [Hs Hun].
    rewrite fmap_cons in HN. apply NoDup_cons in HN as [Hfresh HN].
    unfold has_fields, unseen, of_day, link_fields in Hu, Hs |- *.
    fold (link_fields url_query) in Hfresh |- *.
    destruct (url_query u) as [q|e] eqn:Hq; [|discriminate H].
    cbn [Py.bind] in H.
    set (dy := Scraper.first_value (q !! "raceDy")) in *.
    set (pc := Scraper.first_value (q !! "placeCd")) in *.
    apply andb_true_iff in Hu as [_ Hpc]. rewrite Hpc, andb_true_r in H.
    assert (link_fields url_query u = Some (dy, pc)) as Hk.
    { unfold link_fields. by rewrite Hq. }
    destruct (String.eqb dy raceDy) eqn:Hdy.
    + apply bool_decide_eq_true in Hs.
      rewrite (bool_decide_eq_false_2 _ Hs) in H. cbn [negb] in H.
      rewrite filter_cons_True by (unfold link_fields; by rewrite Hq).
      assert (Forall (fun v => unseen url_query ({[(dy, pc)]} ∪ seen) v = true)
                links) as Hun'.
      { apply Forall_forall. intros v Hv. rewrite Forall_forall in Hun.
        specialize (Hun v Hv). unfold unseen in Hun |- *.
        destruct (link_fields url_query v) as [k|] eqn:Hkv; [|reflexivity].
        apply bool_decide_eq_true in Hun. apply bool_decide_eq_true.
        apply not_elem_of_union. split; [|exact Hun].
        intros ->%elem_of_singleton. apply Hfresh. rewrite Hk, <- Hkv.
        by apply list_elem_of_fmap_2. }
      rewrite (IH _ _ _ Hhas HN Hun' H). by rewrite <- app_assoc.
    + rewrite filter_cons_False
        by (unfold link_fields; rewrite Hq; fold dy; rewrite Hdy; discriminate).
      by eapply IH.
Qed.

(** the discoverer returns whenever the URL library does *)
Lemma collect_loop_total urljoin url_query anchors : forall seen found,
  (forall href, exists u, urljoin Scraper.BASE href = Ok u) ->
  (forall u, exists q, url_query u = Ok q) ->
  exists res, Scraper.collect_loop urljoin url_query anchors seen found
              = Ok res.
Proof.
  intros seen found Hj Hq. revert seen found.
  induction anchors as [|a anchors IH]; intros seen found; [by eexists|].
  cbn [Scraper.collect_loop].
  destruct (negb (contains _ _)); [apply IH|].
  destruct (Hj (default "" a)) as (u & ->). cbn [Py.bind].
  destruct (Hq u) as (q & ->). cbn [Py.bind].
  destruct (negb _ || negb _); [apply IH|].
  destruct (bool_decide _); apply IH.
Qed.

(** the links of one listing page, after the day filter *)
Lemma page_links_inv soup_listing urljoin url_query html raceDy found links :
  Scraper.collect_oneday_links soup_listing urljoin url_query html
    = Ok found ->
  Scraper._filter_links_by_day url_query found raceDy = Ok links ->
  Forall (fun u => exists pc,
            link_fields url_query u = Some (raceDy, pc)
            /\ raceDy <> EmptyString /\ pc <> EmptyString) links
  /\ NoDup (link_fields url_query <$> links)
  /\ sublist links found
  /\ sublist found (candidates urljoin (walked_anchors (soup_listing html))).
Proof.
  intros Hc Hf.
  unfold Scraper.collect_oneday_links in Hc.
  fold (walked_anchors (soup_listing html)) in Hc.
  apply collect_loop_inv in Hc as (new & -> & Hs & HF & HN).
  apply filter_loop_inv in Hf as (new' & -> & Hs' & HF' & HN').
  cbn [app] in *. repeat split; auto.
  rewrite Forall_forall in HF, HF'. apply Forall_forall. intros u Hu.
  destruct (HF' u Hu) as (pc & Hk & Hpc & _).
  assert (u ∈ new) as Hin by (eapply elem_of_sublist; eauto).
  destruct (HF u Hin) as (dy' & pc' & Hk' & Hdy & _).
  rewrite Hk in Hk'. injection Hk' as <- <-.
  exists pc. repeat split; assumption.
Qed.

(** the links of one listing page as a function of its anchors *)
Lemma page_links_spec soup_listing urljoin url_query html raceDy found links :
  Scraper.collect_oneday_links soup_listing urljoin url_query html
    = Ok found ->
  Scraper._filter_links_by_day url_query found raceDy = Ok links ->
  links
  = filter (fun u => of_day url_query raceDy u = true)
      (first_by (link_fields url_query)
         (filter (fun u => has_fields url_query u = true)
            (candidates urljoin (walked_anchors (soup_listing html))))).
Proof.
  intros Hc Hf.
  unfold Scraper.collect_oneday_links in Hc.
  fold (walked_anchors (soup_listing html)) in Hc.
  pose proof (collect_loop_spec _ _ _ _ _ _ Hc) as Hspec.
  apply collect_loop_inv in Hc as (new & -> & _ & HF & HN).
  cbn [app] in *.
  assert (forall l : list string,
            filter (fun u => unseen url_query ∅ u = true) l = l) as Hall.
  { intros l. induction l as [|x l IH]; [reflexivity|].
    rewrite filter_cons_True, IH; [reflexivity|].
    unfold unseen. destruct (link_fields url_query x); [|reflexivity].
    apply bool_decide_eq_true, not_elem_of_empty. }
  rewrite Hall in Hspec. rewrite <- Hspec.
  apply (filter_loop_spec url_query raceDy new ∅ [] links); auto.
  - eapply Forall_impl; [exact HF|]. cbn beta.
    intros u (dy & pc & Hk & Hdy & Hpc & _). unfold has_fields. rewrite Hk.
    apply truthy_true in Hdy, Hpc. by rewrite Hdy, Hpc.
  - rewrite <- (Hall new). apply Forall_forall. intros u Hu.
    by apply list_elem_of_filter in Hu as [Hu _].
Qed.

(** the links [main] crawls, from the first fetch or from the retry *)
Lemma discover_links_inv soup_listing urljoin url_query requests_get
    raceDy links :
  Scraper.discover soup_listing urljoin url_query requests_get raceDy
    = Ok links ->
  Forall (fun u => exists pc,
            link_fields url_query u = Some (raceDy, pc)
            /\ raceDy <> EmptyString /\ pc <> EmptyString) links
  /\ NoDup (link_fields url_query <$> links).
Proof.
  intros H. unfold Scraper.discover in H.
  destruct (Scraper.http_get requests_get Scraper.KAISAI_URL) as [r|e];
    [|discriminate H].
  cbn [Py.bind] in H.
  destruct (Scraper.collect_oneday_links _ _ _ (Scraper.text r))
    as [found|e] eqn:Hc; [|discriminate H].
  cbn [Py.bind] in H.
  destruct (Scraper._filter_links_by_day _ found raceDy)
    as [links1|e] eqn:Hf; [|discriminate H].
  cbn [Py.bind] in H.
  destruct links1 as [|u links1].
  - destruct (Scraper.http_get requests_get _) as [r2|e];
      [|discriminate H].
    cbn [Py.bind] in H.
    destruct (Scraper.collect_oneday_links _ _ _ (Scraper.text r2))
      as [found2|e] eqn:Hc2; [|discriminate H].
    cbn [Py.bind] in H.
    destruct (page_links_inv _ _ _ _ _ _ _ Hc2 H) as (? & ? & _). auto.
  - injection H as <-.
    destruct (page_links_inv _ _ _ _ _ _ _ Hc Hf) as (? & ? & _). auto.
Qed.

(** C4.  For every listing page and target day, the references that
    discovery followed by the day filter gives ([links]) each carry the
    target date and a venue code (references without a date or without a
    venue code, and references of another date, are not among them), no two
    of them carry the same (date, venue code) pair, and they stand in the
    order in which the listing has them: [links] is a subsequence of the
    discovered references, themselves a subsequence of the references of
    the anchors; they are the references of the target day among those
    that are the first of the listing with their pair.  The same holds of the links [discover] (the first part
    of [main]) ends with, from the first fetch or from the retry with the
    date parameter. *)
Theorem links_of_target_day soup_listing urljoin url_query :
  (forall html raceDy found links,
     Scraper.collect_oneday_links soup_listing urljoin url_query html
       = Ok found ->
     Scraper._filter_links_by_day url_query found raceDy = Ok links ->
     Forall (fun u => exists pc,
               link_fields url_query u = Some (raceDy, pc)
               /\ raceDy <> EmptyString /\ pc <> EmptyString) links
     /\ NoDup (link_fields url_query <$> links)
     /\ sublist links found
     /\ sublist found
          (candidates urljoin (walked_anchors (soup_listing html)))
     /\ links
        = filter (fun u => of_day url_query raceDy u = true)
            (first_by (link_fields url_query)
               (filter (fun u => has_fields url_query u = true)
                  (candidates urljoin
                     (walked_anchors (soup_listing html))))))
  /\ (forall requests_get raceDy links,
        Scraper.discover soup_listing urljoin url_query requests_get raceDy
          = Ok links ->
        Forall (fun u => exists pc,
                  link_fields url_query u = Some (raceDy, pc)
                  /\ raceDy <> EmptyString /\ pc <> EmptyString) links
        /\ NoDup (link_fields url_query <$> links)).
Proof.
  split.
  - intros html raceDy found links Hc Hf.
    destruct (page_links_inv _ _ _ _ _ _ _ Hc Hf) as (H1 & H2 & H3 & H4).
    repeat split; try assumption. by eapply page_links_spec.
  - intros requests_get raceDy links. apply discover_links_inv.
Qed.

Lemma links_of_target_day_witness :
  let found :=
    [Scraper.BASE +:+ sample_oneday_url "20250101" "02";
     Scraper.BASE +:+ sample_oneday_url "20250102" "03";
     Scraper.BASE +:+ sample_oneday_url "20250101" "05"] in
  let links :=
    [Scraper.BASE +:+ sample_oneday_url "20250101" "02";
     Scraper.BASE +:+ sample_oneday_url "20250101" "05"] in
  Scraper.collect_oneday_links sample_soup_listing sample_urljoin
    sample_url_query "listing" = Ok found
  /\ Scraper._filter_links_by_day sample_url_query found "20250101"
     = Ok links
  /\ NoDup (link_fields sample_url_query <$> links)
  /\ sublist links found.
Proof.
  intros found links.
  assert (Scraper.collect_oneday_links sample_soup_listing sample_urljoin
            sample_url_query "listing" = Ok found) as Hc
    by (vm_compute; reflexivity).
  assert (Scraper._filter_links_by_day sample_url_query found "20250101"
          = Ok links) as Hf by (vm_compute; reflexivity).
  split; [exact Hc|]. split; [exact Hf|].
  pose proof (proj1 (links_of_target_day sample_soup_listing sample_urljoin
                       sample_url_query) "listing" "20250101" found links
                Hc Hf) as (_ & HN & Hs & _).
  split; [exact HN | exact Hs].
Defined.

(** ** The race extractor *)

(** a start time that was resolved is not the empty string *)
Lemma normalize_hhmm_truthy s st :
  Scraper.normalize_hhmm s = Ok st -> truthy st = true.
Proof.
  unfold Scraper.normalize_hhmm.
  destruct (split ":" s) as [|hh [|mm [|x l]]]; try discriminate.
  destruct (int hh) as [h|]; [|discriminate].
  destruct (int mm) as [m|]; [|discriminate].
  cbn [Py.bind]. intros [= <-]. by destruct (format_02d h).
Qed.

Lemma box_start_truthy re_start b st :
  Scraper.box_start re_start b = Ok (Some st) -> truthy st = true.
Proof.
  unfold Scraper.box_start.
  destruct (Scraper.box_start_time b) as [t|].
  - destruct (Scraper.normalize_hhmm t) as [st'|] eqn:Hn; [|discriminate].
    cbn [Py.bind]. intros [= <-]. by eapply normalize_hhmm_truthy.
  - destruct (match re_start (Scraper.box_text b) with
              | Some g => Some g
              | None => re_start (Scraper.box_near2 b)
              end) as [g|]; [|discriminate].
    destruct (Scraper.normalize_hhmm g) as [st'|] eqn:Hn; [|discriminate].
    cbn [Py.bind]. intros [= <-]. by eapply normalize_hhmm_truthy.
Qed.

Section ExtractorProofs.

Variable strptime_Ymd : string -> option Z.
Variable re_race_no : string -> option string.
Variable re_start : string -> option string.
Variable re_roster_head : string -> bool.
Variable re_category : string -> option string.
Variable re_sub_spaces : string -> string.

Local Abbreviation box_section :=
  (Scraper.box_section strptime_Ymd re_race_no re_start re_roster_head
     re_category re_sub_spaces).
Local Abbreviation sections_loop :=
  (Scraper.sections_loop strptime_Ymd re_race_no re_start re_roster_head
     re_category re_sub_spaces).

(** the section of a box, when there is one, is made of its whole roster,
    of 6 to 8 entries, and of its start time *)
Lemma box_section_Some raceDy b s :
  box_section raceDy b = Ok (Some s) ->
  box_roster re_race_no re_roster_head re_sub_spaces b
    = Some (section_players s)
  /\ Scraper.box_start re_start b = Ok (Some (section_start s))
  /\ (6 <= length (section_players s) <= 8)%nat.
Proof using Type.
  unfold Scraper.box_section, box_roster. intros H.
  destruct (Scraper.box_anchor b) as [a|]; [|discriminate H].
  cbn [mbind option_bind].
  destruct (re_race_no (Scraper.replace "　" " " a)) as [g|];
    [|discriminate H].
  cbn [mbind option_bind].
  destruct (int g) as [race_no|e]; [|discriminate H]. cbn [Py.bind] in H.
  destruct (Scraper.box_start re_start b) as [start|e]; [|discriminate H].
  cbn [Py.bind] in H.
  destruct (Scraper.box_table b) as [table|]; [|discriminate H].
  cbn [mbind option_bind].
  destruct (re_roster_head (Scraper.table_text table));
    cbn [negb] in H; [|discriminate H].
  destruct start as [st|]; [|discriminate H].
  destruct ((6 <=? Z.of_nat (length _)) && (Z.of_nat (length _) <=? 8))
    eqn:Hlen; [|discriminate H].
  destruct (truthy st); [|discriminate H]. cbn [andb] in H.
  destruct (Scraper.hhmm_to_closed _ _ _) as [closed_at|e];
    [|discriminate H].
  cbn [Py.bind] in H. injection H as <-.
  unfold section_players, section_start. cbn [fst snd]. repeat split; lia.
Qed.

(** the sections of a page are those of its boxes, one by one *)
Lemma sections_loop_inv raceDy boxes : forall acc res,
  sections_loop raceDy boxes acc = Ok res ->
  exists outs,
    Forall2 (fun b o => box_section raceDy b = Ok o) boxes outs
    /\ res = acc ++ omap id outs.
Proof using Type.
  induction boxes as [|b boxes IH]; intros acc res H.
  - injection H as <-. exists []. split; [constructor|].
    by rewrite app_nil_r.
  - cbn [Scraper.sections_loop] in H.
    destruct (box_section raceDy b) as [o|e] eqn:Hb; [|discriminate H].
    cbn [Py.bind] in H.
    destruct o as [s|]; destruct (IH _ _ H) as (outs & HF & ->).
    + exists (Some s :: outs). split; [by constructor|].
      by rewrite <- app_assoc.
    + exists (None :: outs). split; [by constructor|]. reflexivity.
Qed.

End ExtractorProofs.

(** ** [sort]: a sorted permutation *)

Section SortProofs.
Context {A : Type} (key : A -> Z).

Lemma insert_by_Permutation x l : Scraper.insert_by key x l ≡ₚ x :: l.
Proof using Type.
  induction l as [|y l IH]; cbn [Scraper.insert_by]; [reflexivity|].
  destruct (key x <=? key y); [reflexivity|].
  rewrite IH. apply Permutation_swap.
Qed.

Lemma sort_by_Permutation l : Scraper.sort_by key l ≡ₚ l.
Proof using Type.
  induction l as [|x l IH]; cbn [Scraper.sort_by]; [reflexivity|].
  rewrite insert_by_Permutation. by constructor.
Qed.

Lemma insert_by_Sorted x l :
  Sorted (fun a b => key a <= key b) l ->
  Sorted (fun a b => key a <= key b) (Scraper.insert_by key x l).
Proof using Type.
  induction l as [|y l IH]; cbn [Scraper.insert_by]; intros Hs.
  - repeat constructor.
  - destruct (key x <=? key y) eqn:Hxy.
    + constructor; [exact Hs|]. constructor. lia.
    + apply Sorted_inv in Hs as [Hs Hhd]. constructor; [by apply IH|].
      destruct l as [|z l]; cbn [Scraper.insert_by].
      * constructor. lia.
      * destruct (key x <=? key z); constructor; try lia.
        by apply HdRel_inv in Hhd.
Qed.

Lemma sort_by_Sorted l :
  Sorted (fun a b => key a <= key b) (Scraper.sort_by key l).
Proof using Type.
  induction l as [|x l IH]; cbn [Scraper.sort_by]; [constructor|].
  by apply insert_by_Sorted.
Qed.

End SortProofs.

(** the closing time of any start time is computed when the reference
    date is read *)
Lemma hhmm_to_closed_total strptime_Ymd hhmm date_str d :
  strptime_Ymd date_str = Some d ->
  datetime.MINORD < d -> d + 4 < datetime.MAXORD ->
  exists out, Scraper.hhmm_to_closed strptime_Ymd hhmm date_str = Ok out.
Proof.
  intros Hd Hlo Hhi.
  destruct (valid_hhmm hhmm) as [[h mi]|] eqn:Hv.
  - rewrite (hhmm_to_closed_valid _ _ _ _ _ _ Hv Hd Hlo Hhi). eauto.
  - exists hhmm. apply closing_fallback_cases. exact Hv.
Qed.

Section ExtractorGate.

Variable strptime_Ymd : string -> option Z.
Variable re_race_no : string -> option string.
Variable re_start : string -> option string.
Variable re_roster_head : string -> bool.
Variable re_category : string -> option string.
Variable re_sub_spaces : string -> string.

Local Abbreviation box_section :=
  (Scraper.box_section strptime_Ymd re_race_no re_start re_roster_head
     re_category re_sub_spaces).
Local Abbreviation sections_loop :=
  (Scraper.sections_loop strptime_Ymd re_race_no re_start re_roster_head
     re_category re_sub_spaces).
Local Abbreviation roster :=
  (box_roster re_race_no re_roster_head re_sub_spaces).

(** a box with a roster of 6 to 8 entries and a start time gives a section,
    when [int] reads its ordinal and the reference date is read *)
Lemma box_section_gate raceDy d b players st :
  strptime_Ymd raceDy = Some d ->
  datetime.MINORD < d -> d + 4 < datetime.MAXORD ->
  (forall g, box_ordinal re_race_no b = Some g -> exists n, int g = Ok n) ->
  roster b = Some players ->
  Scraper.box_start re_start b = Ok (Some st) ->
  (6 <= length players <= 8)%nat ->
  exists s, box_section raceDy b = Ok (Some s).
Proof using Type.
  intros Hd Hlo Hhi Hint Hr Hs Hlen.
  unfold Scraper.box_section. unfold box_roster in Hr.
  unfold box_ordinal in Hint.
  destruct (Scraper.box_anchor b) as [a|]; [|discriminate Hr].
  cbn [mbind option_bind] in Hr, Hint.
  destruct (re_race_no (Scraper.replace "　" " " a)) as [g|] eqn:Hg;
    [|discriminate Hr].
  cbn [mbind option_bind] in Hr.
  destruct (Hint g eq_refl) as (n & ->). cbn [Py.bind].
  rewrite Hs. cbn [Py.bind].
  destruct (Scraper.box_table b) as [table|]; [|discriminate Hr].
  cbn [mbind option_bind] in Hr.
  destruct (re_roster_head (Scraper.table_text table));
    [|discriminate Hr].
  injection Hr as Hr. rewrite Hr. cbn [negb].
  replace ((6 <=? Z.of_nat (length players))
           && (Z.of_nat (length players) <=? 8)) with true by lia.
  rewrite (box_start_truthy _ _ _ Hs). cbn [andb].
  destruct (hhmm_to_closed_total strptime_Ymd st raceDy d Hd Hlo Hhi)
    as (closed_at & ->).
  cbn [Py.bind]. by eexists.
Qed.

(** a readable box does not raise, when the reference date is read *)
Lemma box_section_total raceDy d b :
  strptime_Ymd raceDy = Some d ->
  datetime.MINORD < d -> d + 4 < datetime.MAXORD ->
  box_readable re_race_no re_start b ->
  exists o, box_section raceDy b = Ok o.
Proof using Type.
  intros Hd Hlo Hhi Hb. unfold Scraper.box_section.
  unfold box_readable, box_ordinal in Hb.
  destruct (Scraper.box_anchor b) as [a|]; [|by eexists].
  cbn [mbind option_bind] in Hb.
  destruct (re_race_no (Scraper.replace "　" " " a)) as [g|];
    [|by eexists].
  destruct (Hb g eq_refl) as ((n & ->) & (start & ->)). cbn [Py.bind].
  destruct (Scraper.box_table b) as [table|]; [|by eexists].
  destruct (negb (re_roster_head (Scraper.table_text table)));
    [by eexists|].
  destruct start as [st|]; [|by eexists].
  destruct (_ && _ && _); [|by eexists].
  destruct (hhmm_to_closed_total strptime_Ymd st raceDy d Hd Hlo Hhi)
    as (closed_at & ->).
  cbn [Py.bind]. by eexists.
Qed.

(** the loop over the boxes returns when no box raises *)
Lemma sections_loop_total raceDy boxes : forall acc,
  Forall (fun b => exists o, box_section raceDy b = Ok o) boxes ->
  exists res, sections_loop raceDy boxes acc = Ok res.
Proof using Type.
  induction boxes as [|b boxes IH]; intros acc HF; [by eexists|].
  apply Forall_cons in HF as [(o & Hb) HF].
  cbn [Scraper.sections_loop]. rewrite Hb. cbn [Py.bind].
  destruct o; by apply IH.
Qed.

(** and raises when a box does *)
Lemma sections_loop_raises raceDy boxes b e : forall acc,
  b ∈ boxes -> box_section raceDy b = Raise e ->
  exists e', sections_loop raceDy boxes acc = Raise e'.
Proof using Type.
  induction boxes as [|x boxes IH]; intros acc Hin Hb.
  { by apply elem_of_nil in Hin. }
  cbn [Scraper.sections_loop].
  destruct (box_section raceDy x) as [o|e0] eqn:Hx; [|by eexists].
  cbn [Py.bind].
  apply elem_of_cons in Hin as [-> | Hin]; [congruence|].
  destruct o; by apply IH.
Qed.

End ExtractorGate.




(** The roster-size test on the sample boxes: rosters of 5 and of 9 entries give no
    section, neither does a box without a start time. *)
Example race_block_gate_samples :
  let section :=
    Scraper.box_section strptime_Ymd8 sample_re_race_no sample_re_start
      sample_re_roster_head sample_re_category sample_re_sub_spaces
      "20250101" in
  section (sample_box (Some "18:48") (sample_roster 5)) = Ok None
  /\ section (sample_box (Some "18:48") (sample_roster 9)) = Ok None
  /\ section (sample_box None (sample_roster 6)) = Ok None
  /\ length (Scraper.players_loop sample_re_sub_spaces (sample_roster 9) [])
     = 9%nat.
Proof. repeat split; vm_compute; reflexivity. Qed.

(** a time text that [split] does not cut into two fields raises *)
Lemma normalize_hhmm_fields s :
  length (split ":" s) <> 2%nat -> Scraper.normalize_hhmm s = Raise ValueError.
Proof.
  unfold Scraper.normalize_hhmm.
  destruct (split ":" s) as [|hh [|mm [|x l]]]; cbn [length]; try reflexivity.
  intros H. by destruct H.
Qed.

(** a header box with an ordinal and such a start-time cell raises *)
Lemma box_section_malformed_time strptime_Ymd re_race_no re_start
    re_roster_head re_category re_sub_spaces raceDy b a g n st :
  Scraper.box_anchor b = Some a ->
  re_race_no (Scraper.replace "　" " " a) = Some g ->
  int g = Ok n ->
  Scraper.box_start_time b = Some st ->
  length (split ":" st) <> 2%nat ->
  Scraper.box_section strptime_Ymd re_race_no re_start re_roster_head
    re_category re_sub_spaces raceDy b = Raise ValueError.
Proof.
  intros Ha Hg Hn Hst Hlen. unfold Scraper.box_section, Scraper.box_start.
  rewrite Ha, Hg, Hn. cbn [Py.bind].
  rewrite Hst, (normalize_hhmm_fields _ Hlen). reflexivity.
Qed.

(** C6 fails on the code: a start-time cell whose text is not two fields
    around one colon makes [split] give another number of fields, the
    unpacking raises [ValueError], and the exception leaves the extractor:
    the page gives no rows at all, not even those of its well-formed
    boxes. *)
Lemma extract_malformed_time_raises :
  let page :=
    [sample_box (Some "18:48") (sample_roster 6);
     sample_box (Some "未定") (sample_roster 6)] in
  Scraper.normalize_hhmm "未定" = Raise ValueError
  /\ Scraper.box_section strptime_Ymd8 sample_re_race_no sample_re_start
       sample_re_roster_head sample_re_category sample_re_sub_spaces
       "20250101" (sample_box (Some "未定") (sample_roster 6))
     = Raise ValueError
  /\ Scraper.extract_races_from_oneday strptime_Ymd8 (fun _ => page)
       sample_re_race_no sample_re_start sample_re_roster_head
       sample_re_category sample_re_sub_spaces "page" "20250101" "02"
     = Raise ValueError.
Proof. repeat split; vm_compute; reflexivity. Qed.

(** ** The orchestrator *)

(** the outcome of [http_get] when none of the three tries has status 200
    and a body: the last exception, if a try raised; the last response
    through [raise_for_status] otherwise *)
Lemma http_get_exhausted requests_get url :
  attempt_ok (requests_get url 1%nat) = false ->
  attempt_ok (requests_get url 2%nat) = false ->
  attempt_ok (requests_get url 3%nat) = false ->
  Scraper.http_get requests_get url
  = match last_failure [requests_get url 1%nat; requests_get url 2%nat;
                        requests_get url 3%nat] with
    | Some e => Raise e
    | None =>
        match requests_get url 3%nat with
        | Scraper.Responded r =>
            let* _u := Scraper.raise_for_status r in Ok r
        | Scraper.Failed e => Raise e
        end
    end.
Proof.
  unfold Scraper.http_get. cbn [Scraper.http_get_loop last_failure].
  destruct (requests_get url 1%nat) as [e1|r1];
    destruct (requests_get url 2%nat) as [e2|r2];
    destruct (requests_get url 3%nat) as [e3|r3];
    cbn [attempt_ok]; intros H1 H2 H3; rewrite ?H1, ?H2, ?H3;
    reflexivity.
Qed.

Section OrchestratorProofs.

Variable strptime_Ymd : string -> option Z.
Variable url_query : string -> result (gmap string (list string)).
Variable soup_oneday : string -> list Scraper.box.
Variable re_race_no : string -> option string.
Variable re_start : string -> option string.
Variable re_roster_head : string -> bool.
Variable re_category : string -> option string.
Variable re_sub_spaces : string -> string.
Variable requests_get : string -> nat -> Scraper.attempt.

Local Abbreviation crawl :=
  (Scraper.crawl strptime_Ymd url_query soup_oneday re_race_no re_start
     re_roster_head re_category re_sub_spaces requests_get).
Local Abbreviation page :=
  (page_result strptime_Ymd url_query soup_oneday re_race_no re_start
     re_roster_head re_category re_sub_spaces requests_get).

(** the loop appends the rows of the pages, link after link *)
Lemma crawl_pages raceDy links : forall rows_out,
  Forall (fun u => exists pc,
            link_fields url_query u = Some (raceDy, pc)
            /\ raceDy <> EmptyString /\ pc <> EmptyString) links ->
  Forall (fun u => exists rows, page u = Ok rows) links ->
  crawl raceDy links rows_out
  = Ok (rows_out ++ concat ((fun u => rows_of (page u)) <$> links)).
Proof using Type.
  induction links as [|u links IH]; intros rows_out Hk Hp.
  - cbn [Scraper.crawl fmap list_fmap concat]. by rewrite app_nil_r.
  - apply Forall_cons in Hk as [(pc & Hu & Hdy & Hpc) Hk].
    apply Forall_cons in Hp as [(rows & Hrows) Hp].
    cbn [Scraper.crawl fmap list_fmap concat]. rewrite Hrows. cbn [rows_of].
    unfold page_result, link_fields in Hrows, Hu.
    destruct (url_query u) as [q|e]; [|discriminate Hu]. cbn [Py.bind] in *.
    injection Hu as Hq1 Hq2. rewrite Hq1, Hq2 in *.
    apply truthy_true in Hdy, Hpc. rewrite Hdy, Hpc. cbn [negb orb].
    rewrite String.eqb_refl. cbn [negb].
    destruct (Scraper.http_get requests_get u) as [rr|e];
      [|discriminate Hrows].
    cbn [Py.bind] in *.
    destruct (Scraper.extract_races_from_oneday _ _ _ _ _ _ _ _ _ _)
      as [data|e]; [|discriminate Hrows].
    cbn [Py.bind] in *. injection Hrows as <-.
    rewrite (IH _ Hk Hp). by rewrite <- app_assoc.
Qed.

(** the loop has no handler: it raises when the fetch of a link of the
    target day does, whatever was accumulated *)
Lemma crawl_fetch_raises raceDy u pc e post rows_out :
  link_fields url_query u = Some (raceDy, pc) ->
  raceDy <> EmptyString -> pc <> EmptyString ->
  Scraper.http_get requests_get u = Raise e ->
  crawl raceDy (u :: post) rows_out = Raise e.
Proof using Type.
  intros Hk Hdy Hpc Hget. cbn [Scraper.crawl]. unfold link_fields in Hk.
  destruct (url_query u) as [q|]; [|discriminate Hk].
  injection Hk as Hq1 Hq2. cbn [Py.bind]. rewrite Hq1, Hq2.
  apply truthy_true in Hdy, Hpc. rewrite Hdy, Hpc. cbn [negb orb].
  rewrite String.eqb_refl. cbn [negb]. rewrite Hget. reflexivity.
Qed.

(** the loop over two lists of links, one after the other *)
Lemma crawl_app raceDy l1 l2 : forall rows_out,
  crawl raceDy (l1 ++ l2) rows_out
  = (let* rows := crawl raceDy l1 rows_out in crawl raceDy l2 rows).
Proof using Type.
  induction l1 as [|x l1 IH]; intros rows_out; [reflexivity|].
  cbn [app Scraper.crawl].
  destruct (url_query x) as [q|e0]; [|reflexivity]. cbn [Py.bind].
  destruct (negb (truthy _) || negb (truthy _)); [apply IH|].
  destruct (negb (String.eqb _ raceDy)); [apply IH|].
  destruct (Scraper.http_get requests_get x) as [rr|e0]; [|reflexivity].
  cbn [Py.bind].
  destruct (Scraper.extract_races_from_oneday _ _ _ _ _ _ _ _ _ _)
    as [data|e0]; [|reflexivity].
  cbn [Py.bind]. apply IH.
Qed.

End OrchestratorProofs.

(** C5, as amended.  The loop of [main] has no handler.  When the retry
    budget of a venue page of the target day is exhausted (none of the
    three tries has status 200 and a body) and a try raised, [http_get]
    raises the last exception; when no try raised and the last response has
    a status from 400 to 599, it raises [HTTPError]: in both cases the run
    ends with that exception and writes no table, the rows of the pages
    crawled before included.  When no try raised and the last status is
    outside 400 to 599, [http_get] returns the last response without
    raising, the page is read from it like any other, and the run goes on
    to the next reference: with every page read, the rows of all the pages
    are written. *)
Theorem fetch_exhaustion_outcome strptime_Ymd soup_listing urljoin url_query
    soup_oneday re_race_no re_start re_roster_head re_category
    re_sub_spaces requests_get raceDy pre u post :
  let page :=
    page_result strptime_Ymd url_query soup_oneday re_race_no re_start
      re_roster_head re_category re_sub_spaces requests_get in
  let run :=
    Scraper.main strptime_Ymd soup_listing urljoin url_query soup_oneday
      re_race_no re_start re_roster_head re_category re_sub_spaces
      requests_get raceDy in
  let tries :=
    [requests_get u 1%nat; requests_get u 2%nat; requests_get u 3%nat] in
  Scraper.discover soup_listing urljoin url_query requests_get raceDy
    = Ok (pre ++ u :: post) ->
  Forall (fun t => attempt_ok t = false) tries ->
  Forall (fun v => exists rows, page v = Ok rows) pre ->
  (forall e,
     last_failure tries = Some e ->
     Scraper.http_get requests_get u = Raise e /\ run = Raise e)
  /\ (forall r,
        last_failure tries = None ->
        requests_get u 3%nat = Scraper.Responded r ->
        400 <= Scraper.status_code r < 600 ->
        Scraper.http_get requests_get u = Raise HTTPError
        /\ run = Raise HTTPError)
  /\ (forall r,
        last_failure tries = None ->
        requests_get u 3%nat = Scraper.Responded r ->
        ~ (400 <= Scraper.status_code r < 600) ->
        Scraper.http_get requests_get u = Ok r
        /\ (Forall (fun v => exists rows, page v = Ok rows) (u :: post) ->
            run = Ok (match concat ((fun v => rows_of (page v))
                                      <$> pre ++ u :: post) with
                      | [] => None
                      | rows => Some rows
                      end))).
Proof.
  intros page run tries Hd Htries Hpre.
  apply Forall_cons in Htries as [H1 Htries].
  apply Forall_cons in Htries as [H2 Htries].
  apply Forall_cons in Htries as [H3 _].
  pose proof (http_get_exhausted requests_get u H1 H2 H3) as Hget.
  fold tries in Hget.
  destruct (discover_links_inv _ _ _ _ _ _ Hd) as (HF & _).
  pose proof HF as HF'. apply Forall_app in HF' as [HFpre HFu].
  apply Forall_cons in HFu as [(pc & Hk & Hdy & Hpc) _].
  assert (forall e, Scraper.http_get requests_get u = Raise e ->
                    run = Raise e) as Hrun.
  { intros e He. unfold run, Scraper.main. rewrite Hd. cbn [Py.bind].
    rewrite crawl_app, (crawl_pages _ _ _ _ _ _ _ _ _ _ _ _ HFpre Hpre).
    cbn [Py.bind].
    by rewrite (crawl_fetch_raises _ _ _ _ _ _ _ _ _ _ _ pc e _ _ Hk Hdy
                  Hpc He). }
  split; [|split].
  - intros e He. rewrite He in Hget. split; [exact Hget | by apply Hrun].
  - intros r Hnone Hr Hst. rewrite Hnone, Hr in Hget.
    unfold Scraper.raise_for_status in Hget.
    replace ((400 <=? Scraper.status_code r)
             && (Scraper.status_code r <? 600)) with true in Hget by lia.
    split; [exact Hget | by apply Hrun].
  - intros r Hnone Hr Hst. rewrite Hnone, Hr in Hget.
    unfold Scraper.raise_for_status in Hget.
    replace ((400 <=? Scraper.status_code r)
             && (Scraper.status_code r <? 600)) with false in Hget by lia.
    split; [exact Hget|]. intros Hpost.
    unfold run, Scraper.main. rewrite Hd. cbn [Py.bind].
    rewrite (crawl_pages _ _ _ _ _ _ _ _ _ _ (pre ++ u :: post) [] HF);
      [|apply Forall_app; by split].
    cbn [Py.bind app]. by destruct (concat _).
Qed.

Lemma fetch_exhaustion_outcome_witness :
  let u02 := Scraper.BASE +:+ sample_oneday_url "20250101" "02" in
  let u05 := Scraper.BASE +:+ sample_oneday_url "20250101" "05" in
  Scraper.discover sample_soup_listing sample_urljoin sample_url_query
    sample_requests_get "20250101" = Ok ([u02] ++ u05 :: [])
  /\ Forall (fun t => attempt_ok t = false)
       [sample_requests_get u05 1%nat; sample_requests_get u05 2%nat;
        sample_requests_get u05 3%nat]
  /\ Scraper.http_get sample_requests_get u05 = Raise RequestException
  /\ Scraper.main strptime_Ymd8 sample_soup_listing sample_urljoin
       sample_url_query sample_soup_oneday sample_re_race_no
       sample_re_start sample_re_roster_head sample_re_category
       sample_re_sub_spaces sample_requests_get "20250101"
     = Raise RequestException.
Proof.
  intros u02 u05.
  assert (Scraper.discover sample_soup_listing sample_urljoin
            sample_url_query sample_requests_get "20250101"
          = Ok ([u02] ++ u05 :: [])) as Hd by (vm_compute; reflexivity).
  assert (Forall (fun t => attempt_ok t = false)
            [sample_requests_get u05 1%nat; sample_requests_get u05 2%nat;
             sample_requests_get u05 3%nat]) as Ht
    by (repeat (apply Forall_cons; split); try apply Forall_nil_2;
        reflexivity).
  assert (Forall
            (fun v => exists rows,
               page_result strptime_Ymd8 sample_url_query sample_soup_oneday
                 sample_re_race_no sample_re_start sample_re_roster_head
                 sample_re_category sample_re_sub_spaces sample_requests_get
                 v = Ok rows) [u02]) as Hp.
  { apply Forall_cons. split; [|apply Forall_nil_2].
    exists [("20250101", "川口", "", 9, "18:48", "18:46",
             "1青山,2鈴木,3佐藤,4高橋,5田中,6伊藤", "予選")].
    vm_compute. reflexivity. }
  split; [exact Hd|]. split; [exact Ht|].
  exact (proj1 (fetch_exhaustion_outcome strptime_Ymd8 sample_soup_listing
                  sample_urljoin sample_url_query sample_soup_oneday
                  sample_re_race_no sample_re_start sample_re_roster_head
                  sample_re_category sample_re_sub_spaces
                  sample_requests_get "20250101" [u02] u05 [] Hd Ht Hp)
           RequestException eq_refl).
Defined.

(** The budget exhausted by error statuses: on the sample network on which
    the page of venue 05 answers three times with status 503, the run ends
    with [HTTPError] and writes nothing. *)
Example fetch_exhaustion_status :
  let u05 := Scraper.BASE +:+ sample_oneday_url "20250101" "05" in
  Scraper.http_get sample_requests_503 u05 = Raise HTTPError
  /\ Scraper.main strptime_Ymd8 sample_soup_listing sample_urljoin
       sample_url_query sample_soup_oneday sample_re_race_no sample_re_start
       sample_re_roster_head sample_re_category sample_re_sub_spaces
       sample_requests_503 "20250101"
     = Raise HTTPError.
Proof. split; vm_compute; reflexivity. Qed.

(** The budget exhausted without an exception: on the sample network on
    which the page of venue 05 answers three times with status 200 and an
    empty body, [http_get] returns the third response, the page gives no
    row and the run writes the row of venue 02. *)
Example fetch_exhaustion_goes_on :
  let u05 := Scraper.BASE +:+ sample_oneday_url "20250101" "05" in
  attempt_ok (sample_requests_empty u05 3%nat) = false
  /\ Scraper.http_get sample_requests_empty u05
     = Ok {| Scraper.status_code := 200; Scraper.text := EmptyString |}
  /\ Scraper.main strptime_Ymd8 sample_soup_listing sample_urljoin
       sample_url_query sample_soup_body sample_re_race_no sample_re_start
       sample_re_roster_head sample_re_category sample_re_sub_spaces
       sample_requests_empty "20250101"
     = Ok (Some [("20250101", "川口", "", 9, "18:48", "18:46",
                  "1青山,2鈴木,3佐藤,4高橋,5田中,6伊藤", "予選")]).
Proof. repeat split; vm_compute; reflexivity. Qed.

(** C5 as stated fails on the code: with the page of venue 02 fetched and
    giving a row, and every try of the page of venue 05 failing, the run
    ends with the exception of the last try instead of writing the row of
    venue 02. *)
Lemma fetch_failure_counterexample :
  let run :=
    Scraper.main strptime_Ymd8 sample_soup_listing sample_urljoin
      sample_url_query sample_soup_oneday sample_re_race_no
      sample_re_start sample_re_roster_head sample_re_category
      sample_re_sub_spaces in
  Scraper.crawl strptime_Ymd8 sample_url_query sample_soup_oneday
    sample_re_race_no sample_re_start sample_re_roster_head
    sample_re_category sample_re_sub_spaces sample_requests_get "20250101"
    [Scraper.BASE +:+ sample_oneday_url "20250101" "02"] []
  = Ok [("20250101", "川口", "", 9, "18:48", "18:46",
         "1青山,2鈴木,3佐藤,4高橋,5田中,6伊藤", "予選")]
  /\ run sample_requests_get "20250101" = Raise RequestException
  /\ forall rows, run sample_requests_get "20250101" <> Ok rows.
Proof.
  intros run.
  assert (run sample_requests_get "20250101" = Raise RequestException)
    as H by (vm_compute; reflexivity).
  split; [vm_compute; reflexivity|]. split; [exact H|].
  intros rows. rewrite H. discriminate.
Qed.

(** ** The converter *)

(** one turn of the loop over the rows *)
Lemma read_rows_cons r rows groups res :
  Converter.read_rows (r :: rows) groups = Ok res ->
  (retained r = false /\ is_Some (r !! "players")
   /\ Converter.read_rows rows groups = Ok res)
  \/ (retained r = true
      /\ exists p rn n st cl v,
           r !! "players" = Some p
           /\ r !! "race_number" = Some rn
           /\ Converter.int_field rn = Ok n
           /\ r !! "start_time" = Some st
           /\ r !! "closed_at" = Some cl
           /\ r !! "venue" = Some v
           /\ Converter.read_rows rows
                (Converter.groups_append
                   (v, Converter.get r "grade" EmptyString)
                   {| Converter.race_number := n;
                      Converter.start_time := st;
                      Converter.closed_at := cl;
                      Converter.players := Converter.row_players p;
                      Converter.class_category :=
                        Converter.get r "class_category" EmptyString |}
                   groups) = Ok res).
Proof.
  cbn [Converter.read_rows]. unfold Converter.getitem, retained. intros H.
  destruct (r !! "players") as [p|]; [|discriminate H]. cbn [Py.bind] in H.
  destruct ((6 <=? Z.of_nat (length (Converter.row_players p)))
            && (Z.of_nat (length (Converter.row_players p)) <=? 8));
    cbn [negb] in H; [right|left; eauto].
  split; [reflexivity|].
  destruct (r !! "race_number") as [rn|]; [|discriminate H].
  cbn [Py.bind] in H.
  destruct (Converter.int_field rn) as [n|e] eqn:Hn; [|discriminate H].
  cbn [Py.bind] in H.
  destruct (r !! "start_time") as [st|]; [|discriminate H].
  cbn [Py.bind] in H.
  destruct (r !! "closed_at") as [cl|]; [|discriminate H].
  cbn [Py.bind] in H.
  destruct (r !! "venue") as [v|]; [|discriminate H].
  cbn [Py.bind] in H.
  exists p, rn, n, st, cl, v. repeat split; auto.
Qed.

(** readable rows are read *)
Lemma read_rows_total rows : forall groups,
  Forall readable rows ->
  exists res, Converter.read_rows rows groups = Ok res.
Proof.
  induction rows as [|r rows IH]; intros groups HF; [by eexists|].
  apply Forall_cons in HF as [[[p Hp] Hr] HF].
  cbn [Converter.read_rows]. unfold Converter.getitem.
  unfold retained in Hr. rewrite Hp in *. cbn [Py.bind].
  destruct ((6 <=? Z.of_nat (length (Converter.row_players p)))
            && (Z.of_nat (length (Converter.row_players p)) <=? 8));
    cbn [negb]; [|by apply IH].
  destruct (Hr eq_refl)
    as ((rn & n & Hrn & Hn) & [st Hst] & [cl Hcl] & [v Hv]).
  rewrite Hrn. cbn [Py.bind]. rewrite Hn. cbn [Py.bind].
  rewrite Hst. cbn [Py.bind]. rewrite Hcl. cbn [Py.bind].
  rewrite Hv. cbn [Py.bind]. by apply IH.
Qed.

Section FirstSeen.
Context {K : Type} `{EqDecision K}.

Lemma fold_note_key (l : list K) : forall seen,
  fold_left note_key l seen
  = seen ++ filter (fun k => k ∉ seen) (first_seen l).
Proof using Type.
  induction l as [|x l IH]; intros seen; cbn [fold_left first_seen].
  - by rewrite filter_nil, app_nil_r.
  - unfold note_key at 2. destruct (decide (x ∈ seen)) as [Hin|Hin].
    + rewrite IH, filter_cons_False by (intros Hn; by apply Hn).
      rewrite list_filter_filter. do 2 f_equal.
      apply list_filter_iff. intros k. split; [|tauto].
      intros Hk. split; [exact Hk|]. by intros ->.
    + rewrite IH, filter_cons_True by exact Hin.
      rewrite list_filter_filter, <- app_assoc. cbn [app]. do 2 f_equal.
      apply list_filter_iff. intros k. rewrite elem_of_app, list_elem_of_singleton.
      tauto.
Qed.

Lemma fold_note_key_nil (l : list K) : fold_left note_key l [] = first_seen l.
Proof using Type.
  rewrite fold_note_key. cbn [app]. induction (first_seen l) as [|k l' IH].
  - reflexivity.
  - rewrite filter_cons_True by apply not_elem_of_nil. by rewrite IH.
Qed.

End FirstSeen.

Lemma groups_append_keys key item groups :
  (Converter.groups_append key item groups).*1
  = note_key (groups.*1) key.
Proof.
  unfold note_key. induction groups as [|[k items] groups IH];
    cbn [Converter.groups_append].
  - rewrite decide_False by apply not_elem_of_nil. reflexivity.
  - destruct (decide (k = key)) as [->|Hne]; cbn [fmap list_fmap fst].
    + rewrite decide_True by (apply elem_of_cons; by left). reflexivity.
    + fold (fmap (M := list) (@fst Converter.group_key
                                 (list Converter.races_item))).
      rewrite IH. destruct (decide (key ∈ groups.*1)) as [Hin|Hin].
      * rewrite decide_True by (apply elem_of_cons; by right). reflexivity.
      * rewrite decide_False; [reflexivity|].
        rewrite elem_of_cons. intros [->|?]; tauto.
Qed.

(** the keys of the groups read: those of the kept rows, as first seen *)
Lemma read_rows_keys rows : forall groups res,
  Converter.read_rows rows groups = Ok res ->
  res.*1
  = fold_left note_key (row_key <$> filter (fun r => retained r = true) rows)
      (groups.*1).
Proof.
  induction rows as [|r rows IH]; intros groups res H.
  - injection H as <-. reflexivity.
  - apply read_rows_cons in H
      as [(Hr & _ & H) | (Hr & p & rn & n & st & cl & v & Hp & _ & _ & _
                          & _ & Hv & H)].
    + rewrite filter_cons_False by (rewrite Hr; discriminate).
      by apply IH.
    + rewrite filter_cons_True by exact Hr.
      rewrite fmap_cons. cbn [fold_left].
      rewrite (IH _ _ H), groups_append_keys.
      unfold row_key. rewrite Hv. reflexivity.
Qed.

Section FirstSeenFacts.
Context {K : Type} `{EqDecision K}.

Lemma elem_of_first_seen (l : list K) k : k ∈ first_seen l <-> k ∈ l.
Proof using Type.
  induction l as [|x l IH]; cbn [first_seen]; [reflexivity|].
  rewrite !elem_of_cons, list_elem_of_filter, IH.
  destruct (decide (k = x)); tauto.
Qed.

Lemma NoDup_first_seen (l : list K) : NoDup (first_seen l).
Proof using Type.
  induction l as [|x l IH]; cbn [first_seen]; constructor.
  - rewrite list_elem_of_filter. tauto.
  - by apply NoDup_filter.
Qed.

End FirstSeenFacts.

Lemma main_pairs groups :
  group_pair
  <$> map (fun '((venue, grade), items) =>
             {| Converter.venue := venue; Converter.grade := grade;
                Converter.races :=
                  Scraper.sort_by Converter.race_number items |}) groups
  = groups.*1.
Proof.
  induction groups as [|[[v g] items] groups IH]; [reflexivity|].
  cbn [map fmap list_fmap]. f_equal. exact IH.
Qed.

(** C7.  The groups of the document are the distinct (venue, grade) pairs
    of the kept rows, one group per pair, in the order in which the pairs
    first occur in the input, and the races of every group are sorted by
    race number, ascending; the document is produced whenever every row
    is readable. *)
Theorem groups_first_seen_sorted rows :
  (forall out,
     Converter.main rows = Ok out ->
     group_pair <$> out
     = first_seen (row_key <$> filter (fun r => retained r = true) rows)
     /\ NoDup (group_pair <$> out)
     /\ (forall k, k ∈ group_pair <$> out
                   <-> exists r, r ∈ rows /\ retained r = true
                                 /\ row_key r = k)
     /\ Forall (fun g =>
                  Sorted (fun a b => Converter.race_number a
                                     <= Converter.race_number b)
                    (Converter.races g)) out)
  /\ (Forall readable rows -> exists out, Converter.main rows = Ok out).
Proof.
  split.
  - intros out H. unfold Converter.main in H.
    destruct (Converter.read_rows rows []) as [groups|e] eqn:Hr;
      [|discriminate H].
    cbn [Py.bind] in H. injection H as <-.
    rewrite main_pairs, (read_rows_keys _ _ _ Hr).
    cbn [fmap list_fmap]. rewrite fold_note_key_nil.
    split; [reflexivity|]. split; [apply NoDup_first_seen|]. split.
    + intros k. rewrite elem_of_first_seen, list_elem_of_fmap. split.
      * intros (r & -> & Hin).
        apply list_elem_of_filter in Hin as [Hkept Hin]. eauto.
      * intros (r & Hin & Hkept & <-). exists r. split; [reflexivity|].
        apply list_elem_of_filter. auto.
    + apply Forall_forall. intros g Hg.
      apply list_elem_of_fmap in Hg as ([[v gr] items] & -> & _).
      cbn [Converter.races]. apply sort_by_Sorted.
  - intros HF. unfold Converter.main.
    destruct (read_rows_total rows [] HF) as (groups & ->).
    cbn [Py.bind]. by eexists.
Qed.

Lemma groups_first_seen_sorted_witness :
  Converter.main sample_rows = Ok sample_document
  /\ group_pair <$> sample_document
     = first_seen (row_key
                   <$> filter (fun r => retained r = true) sample_rows)
  /\ Forall (fun g =>
               Sorted (fun a b => Converter.race_number a
                                  <= Converter.race_number b)
                 (Converter.races g)) sample_document.
Proof.
  assert (Converter.main sample_rows = Ok sample_document) as H
    by (vm_compute; reflexivity).
  split; [exact H|].
  destruct (proj1 (groups_first_seen_sorted sample_rows) sample_document H)
    as (Hk & _ & _ & Hs).
  split; [exact Hk | exact Hs].
Defined.

(** the players of a row are non-empty segments *)
Lemma row_players_nonempty v :
  Forall (fun p => p <> EmptyString) (Converter.row_players v).
Proof.
  apply Forall_forall. intros p Hp. unfold Converter.row_players in Hp.
  apply list_elem_of_filter in Hp as [Hp _]. by apply truthy_true.
Qed.

Lemma groups_append_Forall (P : Converter.races_item -> Prop) key item groups :
  P item ->
  Forall (fun g => Forall P g.2) groups ->
  Forall (fun g => Forall P g.2) (Converter.groups_append key item groups).
Proof.
  intros Hi HF. induction HF as [|[k items] groups Hg HF IH];
    cbn [Converter.groups_append].
  - repeat constructor. exact Hi.
  - destruct (decide (k = key)); constructor; auto.
    cbn [snd] in *. apply Forall_app. split; [exact Hg|]. by constructor.
Qed.

(** every item read has the players of a kept row *)
Lemma read_rows_players rows0 rows : forall groups res,
  rows ⊆ rows0 ->
  Forall (fun g => Forall (players_ok rows0) g.2) groups ->
  Converter.read_rows rows groups = Ok res ->
  Forall (fun g => Forall (players_ok rows0) g.2) res.
Proof.
  induction rows as [|r rows IH]; intros groups res Hsub HF H.
  - injection H as <-. exact HF.
  - assert (rows ⊆ rows0) as Hsub' by set_solver.
    apply read_rows_cons in H
      as [(_ & _ & H) | (Hr & p & rn & n & st & cl & v & Hp & _ & _ & _
                         & _ & _ & H)].
    + by eapply IH.
    + eapply IH; [exact Hsub' | | exact H].
      apply groups_append_Forall; [|exact HF].
      unfold players_ok. cbn [Converter.players].
      unfold retained in Hr. rewrite Hp in Hr.
      split; [lia|]. split; [apply row_players_nonempty|].
      exists r, p. repeat split; auto. set_solver.
Qed.

(** C10.  The players of a row are the non-empty segments of its field,
    taken before the validation; so every players array of the document
    has 6 to 8 entries, none of them empty, and is the list of non-empty
    segments of the players field of a row of the table, leading, trailing
    and repeated commas included. *)
Theorem players_arrays_valid rows out :
  Converter.main rows = Ok out ->
  Forall (fun g => Forall (players_ok rows) (Converter.races g)) out
  /\ Converter.row_players (Some ",1a,,2b,3c,4d,5e,6f,")
     = ["1a"; "2b"; "3c"; "4d"; "5e"; "6f"].
Proof.
  intros H. split; [|reflexivity]. unfold Converter.main in H.
  destruct (Converter.read_rows rows []) as [groups|e] eqn:Hr;
    [|discriminate H].
  cbn [Py.bind] in H. injection H as <-.
  assert (Forall (fun g => Forall (players_ok rows) g.2) groups) as HF.
  { eapply read_rows_players; [reflexivity | constructor | exact Hr]. }
  clear Hr.
  induction HF as [|[[v g] items] groups Hg HF IH]; cbn [map];
    constructor; [|exact IH].
  cbn [Converter.races snd] in *. by rewrite sort_by_Permutation.
Qed.

Lemma players_arrays_valid_witness :
  Converter.main sample_rows = Ok sample_document
  /\ Forall (fun g => Forall (players_ok sample_rows) (Converter.races g))
       sample_document.
Proof.
  assert (Converter.main sample_rows = Ok sample_document) as H
    by (vm_compute; reflexivity).
  split; [exact H|].
  exact (proj1 (players_arrays_valid sample_rows sample_document H)).
Defined.

(** ** [int] reads what [str] writes *)

Lemma pretty_N_char_digit d :
  (d < 10)%N ->
  is_digit (pretty_N_char d) = true
  /\ digit_value (pretty_N_char d) = Z.of_N d.
Proof.
  intros H.
  assert (d = 0 \/ d = 1 \/ d = 2 \/ d = 3 \/ d = 4 \/ d = 5 \/ d = 6
          \/ d = 7 \/ d = 8 \/ d = 9)%N as Hd by lia.
  repeat (destruct Hd as [-> | Hd]); try subst d; split; reflexivity.
Qed.

Lemma all_digits_pretty_N_go x : forall s,
  all_digits s = true -> all_digits (pretty_N_go x s) = true.
Proof.
  induction x as [x IH] using (well_founded_induction N.lt_wf_0).
  intros s Hs. destruct (decide (0 < x)%N) as [Hx|Hx].
  - rewrite pretty_N_go_step by exact Hx.
    apply IH; [apply N.div_lt; lia|]. cbn [all_digits].
    destruct (pretty_N_char_digit (x mod 10)) as [-> _];
      [apply N.mod_lt; lia | exact Hs].
  - replace x with 0%N by lia. by rewrite pretty_N_go_0.
Qed.

Lemma digits_body_pretty_N_go x : forall pd s,
  (0 < x)%N ->
  digits_body pd 0 (pretty_N_go x s) = digits_body true (Z.of_N x) s.
Proof.
  induction x as [x IH] using (well_founded_induction N.lt_wf_0).
  intros pd s Hx. rewrite pretty_N_go_step by exact Hx.
  destruct (pretty_N_char_digit (x mod 10)) as [Hd Hv];
    [apply N.mod_lt; lia|].
  destruct (decide (0 < x / 10)%N) as [Hq|Hq].
  - rewrite IH by (try apply N.div_lt; lia).
    cbn [digits_body]. rewrite Hd, Hv. f_equal.
    rewrite (N.div_mod x 10) at 3 by lia. lia.
  - replace (x / 10)%N with 0%N by lia. rewrite pretty_N_go_0.
    cbn [digits_body]. rewrite Hd, Hv. f_equal.
    rewrite (N.div_mod x 10) at 2 by lia. lia.
Qed.

Lemma all_digits_starts s : all_digits s = true -> starts_char s = true.
Proof.
  destruct s as [|c s]; [reflexivity|]. cbn [all_digits].
  intros [Hc _]%andb_true_iff. by apply is_digit_starts.
Qed.

(** the characters of a string of ASCII digits are its bytes, and the
    digits of [int] are those of [digits_body] *)
Lemma int_body_all_digits s : forall pd acc,
  all_digits s = true ->
  int_body pd acc (chars s) = digits_body pd acc s.
Proof.
  induction s as [|c s IH]; intros pd acc H; [reflexivity|].
  cbn [all_digits] in H. apply andb_true_iff in H as [Hc Hs].
  rewrite chars_cons_start by (by apply all_digits_starts).
  cbn [int_body digits_body]. rewrite (is_digit_decimal c Hc), Hc.
  by apply IH.
Qed.

Lemma all_digits_no_space s :
  all_digits s = true ->
  Forall (fun ch => is_int_space ch = false) (chars s).
Proof.
  induction s as [|c s IH]; [constructor|]. cbn [all_digits].
  intros [Hc Hs]%andb_true_iff.
  rewrite chars_cons_start by (by apply all_digits_starts).
  constructor; [|by apply IH].
  by destruct (decimal_plain _ _ (is_digit_decimal c Hc)) as [? _].
Qed.

Lemma rstrip_no_space cs :
  Forall (fun ch => is_int_space ch = false) cs -> rstrip cs = cs.
Proof.
  induction 1 as [|ch cs Hch _ IH]; [reflexivity|]. cbn [rstrip].
  rewrite IH, Hch. by destruct cs.
Qed.

Lemma int_all_digits s :
  all_digits s = true ->
  int s = match digits_body false 0 s with
          | Some z => Ok z
          | None => Raise ValueError
          end.
Proof.
  intros Hs. unfold int.
  rewrite <- (int_body_all_digits s false 0 Hs).
  pose proof (all_digits_no_space s Hs) as HF.
  destruct s as [|c s]; [reflexivity|].
  cbn [all_digits] in Hs. apply andb_true_iff in Hs as [Hc Hs].
  rewrite chars_cons_start in HF |- * by (by apply all_digits_starts).
  cbn [lstrip]. apply Forall_cons in HF as HF'. destruct HF' as [Hsp _].
  rewrite Hsp, (rstrip_no_space _ HF).
  destruct (decimal_plain _ _ (is_digit_decimal c Hc)) as (_ & -> & -> & _).
  reflexivity.
Qed.

Lemma int_str_of_int n : 0 <= n -> int (str_of_int n) = Ok n.
Proof.
  intros Hn. destruct n as [|q|q]; [reflexivity| |lia].
  unfold str_of_int, pretty, pretty_Z, pretty, pretty_positive, pretty,
    pretty_N.
  rewrite decide_False by discriminate.
  rewrite int_all_digits by (by apply all_digits_pretty_N_go).
  rewrite digits_body_pretty_N_go by lia. reflexivity.
Qed.

(** ** [split] undoes [join] *)

Lemma split_comma_free p : comma_free p = true -> split "," p = [p].
Proof.
  induction p as [|c p IH]; [reflexivity|]. cbn [comma_free split].
  intros [Hc Hp]%andb_true_iff. apply negb_true_iff in Hc.
  by rewrite Hc, (IH Hp).
Qed.

Lemma split_app_comma p rest :
  comma_free p = true ->
  split "," (p +:+ String "," rest) = p :: split "," rest.
Proof.
  induction p as [|c p IH]; [reflexivity|]. cbn [comma_free].
  intros [Hc Hp]%andb_true_iff. apply negb_true_iff in Hc.
  change (String c p +:+ String "," rest)
    with (String c (p +:+ String "," rest)).
  cbn [split]. by rewrite Hc, (IH Hp).
Qed.

Lemma split_join ps :
  ps <> [] ->
  Forall (fun p => comma_free p = true) ps ->
  split "," (join "," ps) = ps.
Proof.
  intros Hne HF. induction HF as [|p ps Hp HF IH]; [done|].
  destruct ps as [|q ps].
  - cbn [join]. by apply split_comma_free.
  - change (join "," (p :: q :: ps))
      with (p +:+ String "," (join "," (q :: ps))).
    rewrite split_app_comma by exact Hp. f_equal. by apply IH.
Qed.

Lemma row_players_join ps :
  ps <> [] ->
  Forall (fun p => p <> EmptyString /\ comma_free p = true) ps ->
  Converter.row_players (Some (join "," ps)) = ps.
Proof.
  intros Hne HF. unfold Converter.row_players.
  change (default EmptyString (Some (join "," ps))) with (join "," ps).
  rewrite split_join;
    [|exact Hne | eapply Forall_impl; [exact HF|]; by intros ? [_ ?]].
  clear Hne. induction HF as [|p ps [Hp _] HF IH]; [reflexivity|].
  rewrite filter_cons_True by (by apply truthy_true). by rewrite IH.
Qed.

(** ** Grouping, then flattening *)

(** the fields of a row built by [csv_fields] *)
Lemma csv_fields_lookup d v g rn st cl ps cat :
  let r := csv_fields d v g rn st cl ps cat in
  r !! "players" = Some ps /\ r !! "race_number" = Some rn
  /\ r !! "start_time" = Some st /\ r !! "closed_at" = Some cl
  /\ r !! "venue" = Some v /\ r !! "grade" = Some g
  /\ r !! "class_category" = Some cat /\ r !! "date" = Some d.
Proof. repeat split; reflexivity. Qed.

Lemma flat_groups_append ymd key item groups :
  flat_groups ymd (Converter.groups_append key item groups)
  ≡ₚ flat_groups ymd groups ++ [item_row ymd key item].
Proof.
  unfold flat_groups.
  induction groups as [|[k items] groups IH]; cbn [Converter.groups_append].
  - reflexivity.
  - destruct (decide (k = key)) as [->|Hne]; rewrite !bind_cons;
      cbn [fst snd].
    + rewrite fmap_app, <- !app_assoc. apply Permutation_app_head.
      apply Permutation_app_comm.
    + rewrite IH. by rewrite app_assoc.
Qed.

(** canonical rows are all read, and grouped without loss *)
Lemma read_rows_canonical ymd rows : forall groups,
  Forall (canonical_row ymd) rows ->
  exists res,
    Converter.read_rows rows groups = Ok res
    /\ flat_groups ymd res ≡ₚ flat_groups ymd groups ++ rows.
Proof.
  induction rows as [|r rows IH]; intros groups HF.
  - exists groups. split; [reflexivity|]. by rewrite app_nil_r.
  - apply Forall_cons in HF
      as [(v & g & n & st & cl & ps & cat & -> & Hn & Hlen & Hps) HF].
    destruct (csv_fields_lookup (Some ymd) (Some v) (Some g)
                (Some (str_of_int n)) (Some st) (Some cl)
                (Some (join "," ps)) (Some cat))
      as (Hp & Hrn & Hst & Hcl & Hv & Hg & Hcat & _).
    cbn zeta in Hp, Hrn, Hst, Hcl, Hv, Hg, Hcat.
    cbn [Converter.read_rows]. unfold Converter.getitem, Converter.get.
    rewrite Hp. cbn [Py.bind].
    rewrite row_players_join by (try exact Hps; intros ->; cbn in Hlen; lia).
    replace ((6 <=? Z.of_nat (length ps)) && (Z.of_nat (length ps) <=? 8))
      with true by lia.
    cbn [negb]. rewrite Hrn. cbn [Py.bind Converter.int_field].
    rewrite int_str_of_int by exact Hn. cbn [Py.bind].
    rewrite Hst. cbn [Py.bind]. rewrite Hcl. cbn [Py.bind].
    rewrite Hv. cbn [Py.bind]. rewrite Hg, Hcat.
    destruct (IH (Converter.groups_append (Some v, default (Some "") (Some (Some g)))
                    {| Converter.race_number := n;
                       Converter.start_time := Some st;
                       Converter.closed_at := Some cl;
                       Converter.players := ps;
                       Converter.class_category :=
                         default (Some "") (Some (Some cat)) |}
                    groups) HF) as (res & Hres & Hperm).
    exists res. split; [exact Hres|].
    rewrite Hperm, flat_groups_append, <- app_assoc. reflexivity.
Qed.

Lemma flatten_sorted_groups ymd groups :
  flatten ymd
    (map (fun '((venue, grade), items) =>
            {| Converter.venue := venue; Converter.grade := grade;
               Converter.races :=
                 Scraper.sort_by Converter.race_number items |}) groups)
  ≡ₚ flat_groups ymd groups.
Proof.
  unfold flatten, flat_groups.
  induction groups as [|[[v g] items] groups IH]; [reflexivity|].
  cbn [map]. rewrite !bind_cons, IH. unfold group_pair.
  cbn [Converter.races Converter.venue Converter.grade fst snd].
  by rewrite sort_by_Permutation.
Qed.

(** C8, as amended.  For every table of the day [ymd] whose rows are in
    the form the scraper writes (the eight fields, the date [ymd], the race
    number in decimal, 6 to 8 players, each non-empty and without a comma,
    joined by commas), the converter produces the document, and flattening
    the document back into rows gives the rows of the table, every field
    as it was, up to their order. *)
Theorem group_then_flatten ymd rows :
  Forall (canonical_row ymd) rows ->
  exists doc, Converter.main rows = Ok doc /\ flatten ymd doc ≡ₚ rows.
Proof.
  intros HF. unfold Converter.main.
  destruct (read_rows_canonical ymd rows [] HF) as (res & -> & Hperm).
  cbn [Py.bind]. eexists. split; [reflexivity|].
  by rewrite flatten_sorted_groups, Hperm.
Qed.

Lemma group_then_flatten_witness :
  let rows :=
    [sample_row "川口" "3" "1a,2b,3c,4d,5e,6f";
     sample_row "伊勢崎" "2" "1a,2b,3c,4d,5e,6f,7g";
     sample_row "川口" "1" "1a,2b,3c,4d,5e,6f"] in
  Forall (canonical_row "20250101") rows
  /\ exists doc,
       Converter.main rows = Ok doc /\ flatten "20250101" doc ≡ₚ rows.
Proof.
  intros rows.
  assert (forall p, p ∈ ["1a"; "2b"; "3c"; "4d"; "5e"; "6f"; "7g"] ->
                    p <> EmptyString /\ comma_free p = true) as Hp.
  { intros p Hin.
    repeat (apply elem_of_cons in Hin as [-> | Hin];
            [split; [discriminate|reflexivity]|]).
    by apply elem_of_nil in Hin. }
  assert (Forall (canonical_row "20250101") rows) as HF.
  { repeat constructor.
    - exists "川口", "", 3, "18:48", "18:46",
        ["1a"; "2b"; "3c"; "4d"; "5e"; "6f"], "予選".
      split; [reflexivity|]. split; [discriminate|].
      split; [cbn [length]; lia|].
      apply Forall_forall. intros p Hin. apply Hp.
      eapply elem_of_sublist; [exact Hin|].
      repeat apply sublist_skip. apply sublist_nil_l.
    - exists "伊勢崎", "", 2, "18:48", "18:46",
        ["1a"; "2b"; "3c"; "4d"; "5e"; "6f"; "7g"], "予選".
      split; [reflexivity|]. split; [discriminate|].
      split; [cbn [length]; lia|].
      apply Forall_forall. intros p Hin. by apply Hp.
    - exists "川口", "", 1, "18:48", "18:46",
        ["1a"; "2b"; "3c"; "4d"; "5e"; "6f"], "予選".
      split; [reflexivity|]. split; [discriminate|].
      split; [cbn [length]; lia|].
      apply Forall_forall. intros p Hin. apply Hp.
      eapply elem_of_sublist; [exact Hin|].
      repeat apply sublist_skip. apply sublist_nil_l. }
  split; [exact HF|].
  exact (group_then_flatten "20250101" rows HF).
Defined.

(** C8 as stated fails on the code: a row whose players field has a
    repeated comma passes the validation with its 6 non-empty segments, and
    the document keeps the segments only, so that flattening gives back
    another players field. *)
Lemma group_then_flatten_counterexample :
  let r := sample_row "川口" "1" "1a,,2b,3c,4d,5e,6f" in
  let doc :=
    [{| Converter.venue := Some "川口"; Converter.grade := Some EmptyString;
        Converter.races :=
          [sample_item 1 ["1a"; "2b"; "3c"; "4d"; "5e"; "6f"]] |}] in
  retained r = true
  /\ Converter.main [r] = Ok doc
  /\ flatten "20250101" doc = [sample_row "川口" "1" "1a,2b,3c,4d,5e,6f"]
  /\ ~ (flatten "20250101" doc ≡ₚ [r]).
Proof.
  intros r doc.
  assert (flatten "20250101" doc
          = [sample_row "川口" "1" "1a,2b,3c,4d,5e,6f"]) as Hflat
    by (vm_compute; reflexivity).
  split; [reflexivity|]. split; [vm_compute; reflexivity|].
  split; [exact Hflat|].
  rewrite Hflat. intros Hperm. apply Permutation_singleton_r in Hperm.
  apply (f_equal (fun l : list Converter.row =>
                    l !! 0%nat ≫= (fun m => m !! "players"))) in Hperm.
  vm_compute in Hperm. discriminate Hperm.
Qed.

(** * Further properties of the code *)

(** ** [http_get] *)

(** X1: [http_get] returns the response of the first of its three tries
    that has status 200 and a body, whatever the tries before it gave
    (exceptions included). *)
Theorem http_get_first_success requests_get url (i : nat) r :
  (1 <= i <= 3)%nat ->
  requests_get url i = Scraper.Responded r ->
  attempt_ok (Scraper.Responded r) = true ->
  (forall j, (1 <= j < i)%nat -> attempt_ok (requests_get url j) = false) ->
  Scraper.http_get requests_get url = Ok r.
Proof.
  intros Hi Hr Hok Hbefore. unfold Scraper.http_get.
  assert (forall j a, requests_get url j = a -> attempt_ok a = false ->
            match a with
            | Scraper.Responded r' =>
                (Scraper.status_code r' =? 200) && truthy (Scraper.text r')
                = false
            | Scraper.Failed _ => True
            end) as Hno.
  { intros j [e|r'] _ Ha; [exact I | exact Ha]. }
  cbn [attempt_ok] in Hok.
  assert (i = 1 \/ i = 2 \/ i = 3)%nat as [-> | [-> | ->]] by lia.
  - cbn [Scraper.http_get_loop]. by rewrite Hr, Hok.
  - cbn [Scraper.http_get_loop].
    pose proof (Hno 1%nat _ eq_refl (Hbefore 1%nat ltac:(lia))) as H1.
    destruct (requests_get url 1%nat) as [e1|r1]; [|rewrite H1];
      by rewrite Hr, Hok.
  - cbn [Scraper.http_get_loop].
    pose proof (Hno 1%nat _ eq_refl (Hbefore 1%nat ltac:(lia))) as H1.
    pose proof (Hno 2%nat _ eq_refl (Hbefore 2%nat ltac:(lia))) as H2.
    destruct (requests_get url 1%nat) as [e1|r1]; [|rewrite H1];
      (destruct (requests_get url 2%nat) as [e2|r2]; [|rewrite H2]);
      by rewrite Hr, Hok.
Qed.

Lemma http_get_first_success_witness :
  let net (url : string) (i : nat) :=
    match i with
    | 1%nat => Scraper.Failed RequestException
    | 2%nat => Scraper.Responded {| Scraper.status_code := 503;
                                    Scraper.text := "busy" |}
    | _ => Scraper.Responded {| Scraper.status_code := 200;
                                Scraper.text := "<html>" |}
    end in
  Scraper.http_get net Scraper.KAISAI_URL
  = Ok {| Scraper.status_code := 200; Scraper.text := "<html>" |}.
Proof.
  intros net.
  apply (http_get_first_success net Scraper.KAISAI_URL 3).
  - lia.
  - reflexivity.
  - reflexivity.
  - intros j Hj. assert (j = 1 \/ j = 2)%nat as [-> | ->] by lia; reflexivity.
Defined.

(** X2: a response that [http_get] returns either has status 200 and a
    body, or is the response of the third try, after three tries that all
    got a response, and has a status outside 400 to 599; so the caller can
    be handed an empty body. *)
Theorem http_get_returns requests_get url r :
  Scraper.http_get requests_get url = Ok r ->
  attempt_ok (Scraper.Responded r) = true
  \/ (requests_get url 3%nat = Scraper.Responded r
      /\ last_failure [requests_get url 1%nat; requests_get url 2%nat;
                       requests_get url 3%nat] = None
      /\ ~ (400 <= Scraper.status_code r < 600)).
Proof.
  unfold Scraper.http_get. cbn [Scraper.http_get_loop attempt_ok last_failure].
  destruct (requests_get url 1%nat) as [e1|r1];
    [|destruct ((Scraper.status_code r1 =? 200) && truthy (Scraper.text r1))
        eqn:H1; [intros [= <-]; by left|]];
    (destruct (requests_get url 2%nat) as [e2|r2];
     [|destruct ((Scraper.status_code r2 =? 200) && truthy (Scraper.text r2))
         eqn:H2; [intros [= <-]; by left|]]);
    (destruct (requests_get url 3%nat) as [e3|r3];
     [|destruct ((Scraper.status_code r3 =? 200) && truthy (Scraper.text r3))
         eqn:H3; [intros [= <-]; by left|]]);
    try discriminate.
  unfold Scraper.raise_for_status.
  destruct ((400 <=? Scraper.status_code r3) && (Scraper.status_code r3 <? 600))
    eqn:Hst; [discriminate|].
  cbn [Py.bind]. intros [= <-]. right. repeat split. lia.
Qed.

Lemma http_get_returns_witness :
  let empty := {| Scraper.status_code := 200; Scraper.text := EmptyString |} in
  let net (url : string) (i : nat) := Scraper.Responded empty in
  Scraper.http_get net Scraper.KAISAI_URL = Ok empty
  /\ (attempt_ok (Scraper.Responded empty) = true
      \/ (net Scraper.KAISAI_URL 3%nat = Scraper.Responded empty
          /\ last_failure [net Scraper.KAISAI_URL 1%nat;
                           net Scraper.KAISAI_URL 2%nat;
                           net Scraper.KAISAI_URL 3%nat] = None
          /\ ~ (400 <= Scraper.status_code empty < 600))).
Proof.
  intros empty net.
  assert (Scraper.http_get net Scraper.KAISAI_URL = Ok empty) as H
    by reflexivity.
  split; [exact H|].
  exact (http_get_returns net Scraper.KAISAI_URL empty H).
Defined.

(** X3: when none of the three tries has status 200 and a body, an
    exception raised by any try decides the outcome: [http_get] raises the
    exception of the last try that raised, and the status of a response
    received after it is not looked at; without any exception the status
    of the third response decides ([HTTPError] from 400 to 599). *)
Theorem http_get_failure requests_get url :
  attempt_ok (requests_get url 1%nat) = false ->
  attempt_ok (requests_get url 2%nat) = false ->
  attempt_ok (requests_get url 3%nat) = false ->
  (forall e,
     last_failure [requests_get url 1%nat; requests_get url 2%nat;
                   requests_get url 3%nat] = Some e ->
     Scraper.http_get requests_get url = Raise e)
  /\ (forall r,
        last_failure [requests_get url 1%nat; requests_get url 2%nat;
                      requests_get url 3%nat] = None ->
        requests_get url 3%nat = Scraper.Responded r ->
        400 <= Scraper.status_code r < 600 ->
        Scraper.http_get requests_get url = Raise HTTPError).
Proof.
  unfold Scraper.http_get. cbn [Scraper.http_get_loop attempt_ok last_failure].
  destruct (requests_get url 1%nat) as [e1|r1];
    destruct (requests_get url 2%nat) as [e2|r2];
    destruct (requests_get url 3%nat) as [e3|r3];
    intros H1 H2 H3; cbn [attempt_ok] in H1, H2, H3;
    rewrite ?H1, ?H2, ?H3;
    (split; [intros e He | intros r Hl Hr Hst]);
    try discriminate He; try discriminate Hl;
    try (injection He as <-; reflexivity).
  injection Hr as ->. unfold Scraper.raise_for_status.
  replace ((400 <=? Scraper.status_code r) && (Scraper.status_code r <? 600))
    with true by lia.
  reflexivity.
Qed.

Lemma http_get_failure_witness :
  let net (url : string) (i : nat) :=
    match i with
    | 1%nat => Scraper.Failed RequestException
    | _ => Scraper.Responded {| Scraper.status_code := 404;
                                Scraper.text := "not found" |}
    end in
  Scraper.http_get net Scraper.KAISAI_URL = Raise RequestException.
Proof.
  intros net.
  apply (proj1 (http_get_failure net Scraper.KAISAI_URL
                  eq_refl eq_refl eq_refl)).
  reflexivity.
Defined.

(** ** [hhmm_to_closed] *)

(** X4: the closing time does not depend on the reference date: two
    dates that [strptime] reads (0001-01-02 to 9999-12-26) give the same
    result for every input. *)
Theorem closing_date_independent strptime_Ymd hhmm date1 date2 d1 d2 :
  strptime_Ymd date1 = Some d1 ->
  datetime.MINORD < d1 -> d1 + 4 < datetime.MAXORD ->
  strptime_Ymd date2 = Some d2 ->
  datetime.MINORD < d2 -> d2 + 4 < datetime.MAXORD ->
  Scraper.hhmm_to_closed strptime_Ymd hhmm date1
  = Scraper.hhmm_to_closed strptime_Ymd hhmm date2.
Proof.
  intros H1 Hlo1 Hhi1 H2 Hlo2 Hhi2.
  destruct (valid_hhmm hhmm) as [[h mi]|] eqn:Hv.
  - rewrite (hhmm_to_closed_valid _ _ _ _ _ _ Hv H1 Hlo1 Hhi1).
    by rewrite (hhmm_to_closed_valid _ _ _ _ _ _ Hv H2 Hlo2 Hhi2).
  - by rewrite !closing_fallback_cases.
Qed.

Lemma closing_date_independent_witness :
  strptime_Ymd8 "20250101" = Some 739252
  /\ strptime_Ymd8 "19700101" = Some 719163
  /\ Scraper.hhmm_to_closed strptime_Ymd8 "24:01" "20250101"
     = Scraper.hhmm_to_closed strptime_Ymd8 "24:01" "19700101".
Proof.
  assert (strptime_Ymd8 "20250101" = Some 739252) as H1 by reflexivity.
  assert (strptime_Ymd8 "19700101" = Some 719163) as H2 by reflexivity.
  split; [exact H1|]. split; [exact H2|].
  apply (closing_date_independent strptime_Ymd8 "24:01" "20250101"
           "19700101" 739252 719163 H1); try exact H2; reflexivity.
Defined.

(** X5: for every valid input and readable reference date the result is a
    five-character time [HH:MM] that is valid again, with an hour from 0
    to 47, and whose time of day is two minutes before that of the input
    (modulo 24 hours), whatever the hour of the input. *)
Theorem closing_well_formed strptime_Ymd hhmm date_str d h mi :
  valid_hhmm hhmm = Some (h, mi) ->
  strptime_Ymd date_str = Some d ->
  datetime.MINORD < d -> d + 4 < datetime.MAXORD ->
  exists out h' mi',
    Scraper.hhmm_to_closed strptime_Ymd hhmm date_str = Ok out
    /\ String.length out = 5%nat
    /\ valid_hhmm out = Some (h', mi')
    /\ 0 <= h' <= 47
    /\ (60 * h' + mi') mod 1440 = (60 * h + mi - 2) mod 1440.
Proof.
  intros Hv Hd Hlo Hhi.
  destruct (valid_hhmm_inv _ _ _ Hv) as (_ & _ & _ & _ & _ & Hh & Hmi).
  rewrite (hhmm_to_closed_valid _ _ _ _ _ _ Hv Hd Hlo Hhi).
  set (c := 60 * h + mi - 2).
  destruct ((24 <=? h) && (c / 1440 =? 1)).
  - exists (plus24_HM c), ((c mod 1440) / 60 + 24), (c mod 60).
    split; [reflexivity|]. split; [reflexivity|].
    split; [apply valid_hhmm_two_digits; lia|]. split; lia.
  - exists (plain_HM c), ((c mod 1440) / 60), (c mod 60).
    split; [reflexivity|]. split; [reflexivity|].
    split; [apply valid_hhmm_two_digits; lia|]. split; lia.
Qed.

Lemma closing_well_formed_witness :
  valid_hhmm "0:00" = Some (0, 0)
  /\ strptime_Ymd8 "20250101" = Some 739252
  /\ exists out h' mi',
       Scraper.hhmm_to_closed strptime_Ymd8 "0:00" "20250101" = Ok out
       /\ String.length out = 5%nat
       /\ valid_hhmm out = Some (h', mi')
       /\ 0 <= h' <= 47
       /\ (60 * h' + mi') mod 1440 = (60 * 0 + 0 - 2) mod 1440.
Proof.
  assert (valid_hhmm "0:00" = Some (0, 0)) as Hv by reflexivity.
  assert (strptime_Ymd8 "20250101" = Some 739252) as Hd by reflexivity.
  split; [exact Hv|]. split; [exact Hd|].
  apply (closing_well_formed strptime_Ymd8 "0:00" "20250101" 739252 0 0
           Hv Hd); reflexivity.
Defined.

(** X6: on a valid input the function raises when the reference date
    cannot be used: [ValueError] when [strptime] does not read it, and
    [OverflowError] when the start, or the instant two minutes before it,
    is a day outside the years 1 to 9999 (00:00 and 00:01 on 0001-01-01,
    an hour of 24 or more on 9999-12-31). *)
Theorem closing_date_errors strptime_Ymd hhmm date_str h mi :
  valid_hhmm hhmm = Some (h, mi) ->
  (strptime_Ymd date_str = None ->
   Scraper.hhmm_to_closed strptime_Ymd hhmm date_str = Raise ValueError)
  /\ (forall d,
        strptime_Ymd date_str = Some d ->
        d + (60 * h + mi - 2) / 1440 < datetime.MINORD
        \/ datetime.MAXORD < d + (60 * h + mi) / 1440 ->
        Scraper.hhmm_to_closed strptime_Ymd hhmm date_str
        = Raise OverflowError).
Proof.
  intros Hv.
  destruct (valid_hhmm_inv _ _ _ Hv) as (g1 & g2 & Hm & H1 & H2 & Hh & Hmi).
  unfold Scraper.hhmm_to_closed, Scraper.strptime.
  rewrite Hm, H1. cbn [Py.bind]. rewrite H2. cbn [Py.bind].
  replace ((0 <=? mi) && (mi <? 60)) with true by lia. cbn [negb].
  split; [by intros ->|]. intros d -> Hout. cbn [Py.bind].
  unfold datetime.MINORD, datetime.MAXORD in Hout.
  assert (datetime.of_ordinal d
          + datetime.timedelta (if 24 <=? h then h / 24 else 0)
              (if 24 <=? h then h mod 24 else h) mi
          = d * 1440 + (60 * h + mi)) as Hstart.
  { unfold datetime.of_ordinal, datetime.timedelta. destruct (24 <=? h); lia. }
  destruct (24 <=? h) eqn:H24;
    unfold datetime.sub, datetime.add; rewrite Hstart;
    unfold datetime.in_range, datetime.date, datetime.MINORD,
      datetime.MAXORD, datetime.timedelta.
  - destruct ((1 <=? (d * 1440 + (60 * h + mi)) / 1440)
              && ((d * 1440 + (60 * h + mi)) / 1440 <=? 3652059)) eqn:Hs;
      [|reflexivity].
    cbn [Py.bind].
    replace ((1 <=? (d * 1440 + (60 * h + mi)
                     + - (0 * 1440 + 0 * 60 + 2)) / 1440)
             && ((d * 1440 + (60 * h + mi)
                  + - (0 * 1440 + 0 * 60 + 2)) / 1440 <=? 3652059))
      with false by lia.
    reflexivity.
  - destruct ((1 <=? (d * 1440 + (60 * h + mi)) / 1440)
              && ((d * 1440 + (60 * h + mi)) / 1440 <=? 3652059)) eqn:Hs;
      [|reflexivity].
    cbn [Py.bind].
    replace ((1 <=? (d * 1440 + (60 * h + mi)
                     + - (0 * 1440 + 0 * 60 + 2)) / 1440)
             && ((d * 1440 + (60 * h + mi)
                  + - (0 * 1440 + 0 * 60 + 2)) / 1440 <=? 3652059))
      with false by lia.
    reflexivity.
Qed.

Lemma closing_date_errors_witness :
  valid_hhmm "00:01" = Some (0, 1)
  /\ strptime_Ymd8 "2025-1-1" = None
  /\ Scraper.hhmm_to_closed strptime_Ymd8 "00:01" "2025-1-1"
     = Raise ValueError
  /\ strptime_Ymd8 "00010101" = Some 1
  /\ Scraper.hhmm_to_closed strptime_Ymd8 "00:01" "00010101"
     = Raise OverflowError.
Proof.
  assert (valid_hhmm "00:01" = Some (0, 1)) as Hv by reflexivity.
  assert (strptime_Ymd8 "2025-1-1" = None) as Hn by reflexivity.
  assert (strptime_Ymd8 "00010101" = Some 1) as Hd by reflexivity.
  split; [exact Hv|]. split; [exact Hn|].
  split; [exact (proj1 (closing_date_errors strptime_Ymd8 "00:01"
                          "2025-1-1" 0 1 Hv) Hn)|].
  split; [exact Hd|].
  apply (proj2 (closing_date_errors strptime_Ymd8 "00:01" "00010101" 0 1 Hv)
           1 Hd).
  left. reflexivity.
Defined.

(** X7: for an input hour of 48 or more (48:00 and 48:01 apart) the
    result is the plain rendering of the time of day: the days that the
    hour stands for are dropped, and the result denotes an instant of the
    reference day. *)
Theorem closing_hour_48_plain strptime_Ymd hhmm date_str d h mi :
  valid_hhmm hhmm = Some (h, mi) ->
  strptime_Ymd date_str = Some d ->
  datetime.MINORD < d -> d + 4 < datetime.MAXORD ->
  48 * 60 + 2 <= 60 * h + mi ->
  Scraper.hhmm_to_closed strptime_Ymd hhmm date_str
  = Ok (plain_HM (60 * h + mi - 2))
  /\ instant_of (plain_HM (60 * h + mi - 2))
     = Some ((60 * h + mi - 2) mod 1440).
Proof.
  intros Hv Hd Hlo Hhi Hlate.
  destruct (valid_hhmm_inv _ _ _ Hv) as (_ & _ & _ & _ & _ & Hh & Hmi).
  rewrite (hhmm_to_closed_valid _ _ _ _ _ _ Hv Hd Hlo Hhi).
  replace ((24 <=? h) && ((60 * h + mi - 2) / 1440 =? 1)) with false by lia.
  split; [reflexivity|].
  unfold instant_of, plain_HM. rewrite valid_hhmm_two_digits by lia.
  simpl. f_equal. lia.
Qed.

Lemma closing_hour_48_plain_witness :
  valid_hhmm "49:30" = Some (49, 30)
  /\ strptime_Ymd8 "20250101" = Some 739252
  /\ Scraper.hhmm_to_closed strptime_Ymd8 "49:30" "20250101" = Ok "01:28".
Proof.
  assert (valid_hhmm "49:30" = Some (49, 30)) as Hv by reflexivity.
  assert (strptime_Ymd8 "20250101" = Some 739252) as Hd by reflexivity.
  split; [exact Hv|]. split; [exact Hd|].
  refine (proj1 (closing_hour_48_plain strptime_Ymd8 "49:30" "20250101"
                   739252 49 30 Hv Hd _ _ _)); try reflexivity.
  discriminate.
Defined.

(** ** The start time of a race block *)

(** X8: a start-time cell of the shape [H:MM] or [HH:MM] is normalised to
    two digits for the hour and two for the minute, and the minute is not
    checked: below 60 the start time is a valid time for the same hour and
    minute; from 60 on it is kept, and its closing time is the start time
    itself. *)
Theorem start_time_normalized s g1 g2 h mi :
  Scraper.re_fullmatch_hhmm s = Some (g1, g2) ->
  int g1 = Ok h -> int g2 = Ok mi ->
  let start_time := two_digits h +:+ ":" +:+ two_digits mi in
  Scraper.normalize_hhmm s = Ok start_time
  /\ (mi < 60 -> valid_hhmm start_time = Some (h, mi))
  /\ (60 <= mi ->
      forall strptime_Ymd raceDy,
        Scraper.hhmm_to_closed strptime_Ymd start_time raceDy
        = Ok start_time).
Proof.
  intros Hm H1 H2 start_time.
  destruct (re_fullmatch_hhmm_int _ _ _ Hm) as (h' & mi' & H1' & H2' & Hh & Hmi).
  rewrite H1 in H1'. rewrite H2 in H2'.
  injection H1' as <-. injection H2' as <-.
  destruct (fullmatch_two_digits h mi) as (Hm' & Hh' & Hmi'); [lia|lia|].
  split; [|split].
  - unfold Scraper.normalize_hhmm. rewrite (split_colon_hhmm _ _ _ Hm), H1.
    cbn [Py.bind]. rewrite H2. cbn [Py.bind].
    by rewrite !format_02d_two_digits by lia.
  - intros Hlt. apply valid_hhmm_two_digits; lia.
  - intros Hge strptime_Ymd raceDy. apply closing_fallback_cases.
    unfold valid_hhmm. fold start_time in Hm'. rewrite Hm', Hh', Hmi'.
    by replace ((0 <=? mi) && (mi <? 60)) with false by lia.
Qed.

Lemma start_time_normalized_witness :
  Scraper.re_fullmatch_hhmm "9:75" = Some ("9", "75")
  /\ Scraper.normalize_hhmm "9:75" = Ok "09:75"
  /\ Scraper.hhmm_to_closed strptime_Ymd8 "09:75" "20250101" = Ok "09:75".
Proof.
  assert (Scraper.re_fullmatch_hhmm "9:75" = Some ("9", "75")) as Hm
    by reflexivity.
  pose proof (start_time_normalized "9:75" "9" "75" 9 75 Hm eq_refl eq_refl)
    as (Hn & _ & Hc).
  split; [exact Hm|]. split; [exact Hn|].
  apply Hc. discriminate.
Defined.

(** ** The rows of a race page *)

Lemma players_loop_car re_sub_spaces trs : forall players,
  Forall starts_with_car players ->
  Forall starts_with_car (Scraper.players_loop re_sub_spaces trs players).
Proof.
  induction trs as [|r trs IH]; intros players HF; [exact HF|].
  cbn [Scraper.players_loop].
  destruct (Scraper.tr_tds r); [by apply IH|].
  destruct (Scraper.tr_car_td r) as [car_txt|]; [|by apply IH].
  destruct (Scraper.re_fullmatch_car car_txt) eqn:Hcar; cbn [negb];
    [|by apply IH].
  destruct (Scraper.tr_name_cell r) as [name_txt|]; [|by apply IH].
  apply IH, Forall_app. split; [exact HF|]. constructor; [|constructor].
  destruct car_txt as [|c [|c' rest]]; try discriminate Hcar.
  exists c, (re_sub_spaces name_txt). split; [reflexivity|].
  cbn [Scraper.re_fullmatch_car] in Hcar. lia.
Qed.

Lemma box_section_ok strptime_Ymd re_race_no re_start re_roster_head
    re_category re_sub_spaces raceDy b s :
  Scraper.box_section strptime_Ymd re_race_no re_start re_roster_head
    re_category re_sub_spaces raceDy b = Ok (Some s) ->
  section_ok strptime_Ymd raceDy s.
Proof.
  unfold Scraper.box_section. intros H.
  destruct (Scraper.box_anchor b) as [a|]; [|discriminate H].
  destruct (re_race_no (Scraper.replace "　" " " a)) as [g|];
    [|discriminate H].
  destruct (int g) as [race_no|e]; [|discriminate H]. cbn [Py.bind] in H.
  destruct (Scraper.box_start re_start b) as [start|e] eqn:Hs;
    [|discriminate H].
  cbn [Py.bind] in H.
  destruct (Scraper.box_table b) as [table|]; [|discriminate H].
  destruct (re_roster_head (Scraper.table_text table));
    cbn [negb] in H; [|discriminate H].
  destruct start as [st|]; [|discriminate H].
  destruct ((6 <=? Z.of_nat (length _)) && (Z.of_nat (length _) <=? 8))
    eqn:Hlen; [|discriminate H].
  destruct (truthy st); [|discriminate H]. cbn [andb] in H.
  destruct (Scraper.hhmm_to_closed _ _ _) as [closed_at|e] eqn:Hc;
    [|discriminate H].
  cbn [Py.bind] in H. injection H as <-. cbn [section_ok].
  split; [lia|]. split; [apply players_loop_car; constructor|].
  split; [|exact Hc].
  unfold Scraper.box_start in Hs.
  destruct (Scraper.box_start_time b) as [t|].
  - destruct (Scraper.normalize_hhmm t) as [st'|] eqn:Hn; [|discriminate Hs].
    injection Hs as <-. eauto.
  - destruct (match re_start (Scraper.box_text b) with
              | Some g' => Some g'
              | None => re_start (Scraper.box_near2 b)
              end) as [t|]; [|discriminate Hs].
    destruct (Scraper.normalize_hhmm t) as [st'|] eqn:Hn; [|discriminate Hs].
    injection Hs as <-. eauto.
Qed.

(** X9: the rows that [extract_races_from_oneday] returns are sorted by
    race number, ascending; each has 6 to 8 players, every one starting
    with a car number from 1 to 8, a start time that went through the
    normalisation, and as closing time the result of [hhmm_to_closed] on
    that start time and the day; the grade is empty and the venue is the
    name of the venue code, empty for a code outside the table. *)
Theorem page_rows_sorted_ok strptime_Ymd soup_oneday re_race_no re_start
    re_roster_head re_category re_sub_spaces html raceDy placeCd data :
  Scraper.extract_races_from_oneday strptime_Ymd soup_oneday re_race_no
    re_start re_roster_head re_category re_sub_spaces html raceDy placeCd
  = Ok data ->
  Sorted (fun a b => section_race_no a <= section_race_no b)
    (Scraper.oneday_rows data)
  /\ Forall (section_ok strptime_Ymd raceDy) (Scraper.oneday_rows data)
  /\ Scraper.oneday_grade data = EmptyString
  /\ Scraper.oneday_venue data
     = default EmptyString (Scraper.PLACECD_TO_VENUE !! placeCd)
  /\ (placeCd ∉ ["02"; "03"; "04"; "05"; "06"] ->
      Scraper.oneday_venue data = EmptyString).
Proof.
  unfold Scraper.extract_races_from_oneday. intros H.
  destruct (Scraper.sections_loop _ _ _ _ _ _ _ _ _) as [rs|e] eqn:Hl;
    [|discriminate H].
  cbn [Py.bind] in H. injection H as <-.
  cbn [Scraper.oneday_rows Scraper.oneday_grade Scraper.oneday_venue].
  split; [apply (sort_by_Sorted (fun x : Scraper.race_section => x.1.1.1.1))|].
  split; [|split; [reflexivity|split; [reflexivity|]]].
  - rewrite sort_by_Permutation.
    apply sections_loop_inv in Hl as (outs & HF & ->). cbn [app].
    induction HF as [|b o boxes outs Hb HF IH]; [constructor|].
    destruct o as [s|]; cbn [omap list_omap]; [|exact IH].
    constructor; [|exact IH]. by eapply box_section_ok.
  - intros Hout. unfold Scraper.PLACECD_TO_VENUE.
    rewrite (not_elem_of_list_to_map_1 _ placeCd); [reflexivity|].
    exact Hout.
Qed.

Lemma page_rows_sorted_ok_witness :
  let page :=
    [sample_box (Some "18:48") (sample_roster 8);
     sample_box (Some "9:05") (sample_roster 6)] in
  exists data,
    Scraper.extract_races_from_oneday strptime_Ymd8 (fun _ => page)
      sample_re_race_no sample_re_start sample_re_roster_head
      sample_re_category sample_re_sub_spaces "page" "20250101" "07"
    = Ok data
    /\ Forall (section_ok strptime_Ymd8 "20250101") (Scraper.oneday_rows data)
    /\ Scraper.oneday_venue data = EmptyString.
Proof.
  intros page. eexists. split; [vm_compute; reflexivity|].
  match goal with
  | |- Forall _ (Scraper.oneday_rows ?d) /\ _ =>
      assert (Scraper.extract_races_from_oneday strptime_Ymd8 (fun _ => page)
                sample_re_race_no sample_re_start sample_re_roster_head
                sample_re_category sample_re_sub_spaces "page" "20250101"
                "07" = Ok d) as H by (vm_compute; reflexivity);
      destruct (page_rows_sorted_ok _ _ _ _ _ _ _ _ _ _ _ H)
        as (_ & HF & _ & Hv & _)
  end.
  split; [exact HF | exact Hv].
Defined.

(** ** [sort] is stable *)

Section SortStable.
Context {A : Type} (key : A -> Z).

Lemma insert_by_filter x l k :
  filter (fun y => key y = k) (Scraper.insert_by key x l)
  = filter (fun y => key y = k) (x :: l).
Proof using Type.
  induction l as [|y l IH]; cbn [Scraper.insert_by]; [reflexivity|].
  destruct (key x <=? key y) eqn:Hxy; [reflexivity|].
  rewrite (filter_cons _ y), IH, (filter_cons _ x l),
    (filter_cons _ x (y :: l)), (filter_cons _ y l).
  destruct (decide (key x = k)), (decide (key y = k));
    try reflexivity; lia.
Qed.

Lemma sort_by_filter l k :
  filter (fun y => key y = k) (Scraper.sort_by key l)
  = filter (fun y => key y = k) l.
Proof using Type.
  induction l as [|x l IH]; cbn [Scraper.sort_by]; [reflexivity|].
  by rewrite insert_by_filter, !filter_cons, IH.
Qed.

End SortStable.

(** X10: the sort of the rows of a page is stable: the rows of one race
    number stand in the order of their header boxes on the page. *)
Theorem page_rows_stable strptime_Ymd soup_oneday re_race_no re_start
    re_roster_head re_category re_sub_spaces html raceDy placeCd data :
  Scraper.extract_races_from_oneday strptime_Ymd soup_oneday re_race_no
    re_start re_roster_head re_category re_sub_spaces html raceDy placeCd
  = Ok data ->
  exists outs,
    Forall2 (fun b o =>
               Scraper.box_section strptime_Ymd re_race_no re_start
                 re_roster_head re_category re_sub_spaces raceDy b = Ok o)
      (soup_oneday html) outs
    /\ forall n,
         filter (fun s => section_race_no s = n) (Scraper.oneday_rows data)
         = filter (fun s => section_race_no s = n) (omap id outs).
Proof.
  unfold Scraper.extract_races_from_oneday. intros H.
  destruct (Scraper.sections_loop _ _ _ _ _ _ _ _ _) as [rs|e] eqn:Hl;
    [|discriminate H].
  cbn [Py.bind] in H. injection H as <-. cbn [Scraper.oneday_rows].
  apply sections_loop_inv in Hl as (outs & HF & ->). cbn [app].
  exists outs. split; [exact HF|]. intros n.
  apply (sort_by_filter (fun x : Scraper.race_section => x.1.1.1.1)).
Qed.

Lemma page_rows_stable_witness :
  let page :=
    [sample_box (Some "18:48") (sample_roster 8);
     sample_box (Some "9:05") (sample_roster 6)] in
  exists data,
    Scraper.extract_races_from_oneday strptime_Ymd8 (fun _ => page)
      sample_re_race_no sample_re_start sample_re_roster_head
      sample_re_category sample_re_sub_spaces "page" "20250101" "02"
    = Ok data
    /\ map (fun s : Scraper.race_section => s.1.1.1.2)
         (Scraper.oneday_rows data) = ["18:48"; "09:05"]
    /\ exists outs,
         forall n,
           filter (fun s => section_race_no s = n) (Scraper.oneday_rows data)
           = filter (fun s => section_race_no s = n) (omap id outs).
Proof.
  intros page. eexists. split; [vm_compute; reflexivity|].
  split; [reflexivity|].
  match goal with
  | |- context [Scraper.oneday_rows ?d] =>
      assert (Scraper.extract_races_from_oneday strptime_Ymd8 (fun _ => page)
                sample_re_race_no sample_re_start sample_re_roster_head
                sample_re_category sample_re_sub_spaces "page" "20250101"
                "02" = Ok d) as H by (vm_compute; reflexivity);
      destruct (page_rows_stable _ _ _ _ _ _ _ _ _ _ _ H) as (outs & _ & Hs)
  end.
  exists outs. exact Hs.
Defined.

(** ** The day filter on its own *)

(** references of the day with a venue code and without a repeated pair
    all pass the filter *)
Lemma filter_loop_fixed url_query raceDy l : forall seen filtered,
  Forall (fun u => exists pc,
            link_fields url_query u = Some (raceDy, pc)
            /\ pc <> EmptyString /\ (raceDy, pc) ∉ seen) l ->
  NoDup (link_fields url_query <$> l) ->
  Scraper.filter_loop url_query l raceDy seen filtered = Ok (filtered ++ l).
Proof.
  induction l as [|u l IH]; intros seen filtered HF HN.
  - by rewrite app_nil_r.
  - apply Forall_cons in HF as [(pc & Hk & Hpc & Hs) HF].
    rewrite fmap_cons in HN. apply NoDup_cons in HN as [Hfresh HN].
    cbn [Scraper.filter_loop]. unfold link_fields in Hk.
    destruct (url_query u) as [q|e] eqn:Hq; [|discriminate Hk].
    injection Hk as Hdy Hq2. cbn [Py.bind]. rewrite Hdy, Hq2.
    rewrite String.eqb_refl. apply truthy_true in Hpc. rewrite Hpc.
    cbn [andb]. rewrite (bool_decide_eq_false_2 _ Hs). cbn [negb].
    rewrite IH; [by rewrite <- app_assoc| |exact HN].
    apply Forall_forall. intros v Hv. rewrite Forall_forall in HF.
    destruct (HF v Hv) as (pc' & Hk' & Hpc' & Hs'). exists pc'.
    repeat split; auto. apply not_elem_of_union. split; [|exact Hs'].
    intros [= <-]%elem_of_singleton. apply Hfresh.
    unfold link_fields at 1. rewrite Hq, Hdy, Hq2, <- Hk'.
    by apply list_elem_of_fmap_2.
Qed.

(** X11: on any list of references, [_filter_links_by_day] keeps
    references of the target day that have a venue code, no two with the
    same pair, in the order of the list; and it is idempotent: filtering
    its result again gives the result unchanged. *)
Theorem filter_links_idempotent url_query links raceDy res :
  Scraper._filter_links_by_day url_query links raceDy = Ok res ->
  Forall (fun u => exists pc,
            link_fields url_query u = Some (raceDy, pc)
            /\ pc <> EmptyString) res
  /\ NoDup (link_fields url_query <$> res)
  /\ sublist res links
  /\ Scraper._filter_links_by_day url_query res raceDy = Ok res.
Proof.
  unfold Scraper._filter_links_by_day. intros H.
  apply filter_loop_inv in H as (new & -> & Hs & HF & HN). cbn [app].
  split; [|split; [exact HN|split; [exact Hs|]]].
  - eapply Forall_impl; [exact HF|]. cbn beta.
    intros u (pc & Hk & Hpc & _). eauto.
  - by apply (filter_loop_fixed url_query raceDy new ∅ []).
Qed.

Lemma filter_links_idempotent_witness :
  let u02 := Scraper.BASE +:+ sample_oneday_url "20250101" "02" in
  let u03 := Scraper.BASE +:+ sample_oneday_url "20250102" "03" in
  let u05 := Scraper.BASE +:+ sample_oneday_url "20250101" "05" in
  Scraper._filter_links_by_day sample_url_query [u02; u03; u02; u05]
    "20250101" = Ok [u02; u05]
  /\ Scraper._filter_links_by_day sample_url_query [u02; u05] "20250101"
     = Ok [u02; u05].
Proof.
  intros u02 u03 u05.
  assert (Scraper._filter_links_by_day sample_url_query [u02; u03; u02; u05]
            "20250101" = Ok [u02; u05]) as H by (vm_compute; reflexivity).
  split; [exact H|].
  exact (proj2 (proj2 (proj2 (filter_links_idempotent sample_url_query
                                [u02; u03; u02; u05] "20250101" [u02; u05]
                                H)))).
Defined.

(** ** The rows that [main] writes *)

Lemma extract_data_inv strptime_Ymd soup_oneday re_race_no re_start
    re_roster_head re_category re_sub_spaces html raceDy placeCd data :
  Scraper.extract_races_from_oneday strptime_Ymd soup_oneday re_race_no
    re_start re_roster_head re_category re_sub_spaces html raceDy placeCd
  = Ok data ->
  Forall (section_ok strptime_Ymd raceDy) (Scraper.oneday_rows data)
  /\ Scraper.oneday_grade data = EmptyString
  /\ Scraper.oneday_venue data
     = default EmptyString (Scraper.PLACECD_TO_VENUE !! placeCd).
Proof.
  unfold Scraper.extract_races_from_oneday. intros H.
  destruct (Scraper.sections_loop _ _ _ _ _ _ _ _ _) as [rs|e] eqn:Hl;
    [|discriminate H].
  cbn [Py.bind] in H. injection H as <-.
  cbn [Scraper.oneday_rows Scraper.oneday_grade Scraper.oneday_venue].
  split; [|split; reflexivity].
  rewrite sort_by_Permutation.
  apply sections_loop_inv in Hl as (outs & HF & ->). cbn [app].
  induction HF as [|b o boxes outs Hb HF IH]; [constructor|].
  destruct o as [s|]; cbn [omap list_omap]; [|exact IH].
  constructor; [|exact IH]. by eapply box_section_ok.
Qed.

Lemma section_rows_ok strptime_Ymd raceDy venue grade rows :
  Forall (section_ok strptime_Ymd raceDy) rows ->
  grade = EmptyString ->
  (exists placeCd,
     venue = default EmptyString (Scraper.PLACECD_TO_VENUE !! placeCd)) ->
  Forall (csv_row_ok strptime_Ymd raceDy)
    (map (fun '(race_no, start_time, closed_at, players, class_cat) =>
            (raceDy, venue, grade, race_no, start_time, closed_at,
             join "," players, class_cat)) rows).
Proof.
  intros Hrows Hg Hv.
  induction Hrows as [|[[[[race_no st] cl] ps] cat] rows Hs Hrows IHr];
    [constructor|].
  cbn [map]. constructor; [|exact IHr].
  destruct Hs as (Hlen & Hcar & _ & Hcl). cbn [csv_row_ok].
  repeat split; eauto.
Qed.

Section MainRows.

Variable strptime_Ymd : string -> option Z.
Variable url_query : string -> result (gmap string (list string)).
Variable soup_oneday : string -> list Scraper.box.
Variable re_race_no : string -> option string.
Variable re_start : string -> option string.
Variable re_roster_head : string -> bool.
Variable re_category : string -> option string.
Variable re_sub_spaces : string -> string.
Variable requests_get : string -> nat -> Scraper.attempt.

Local Abbreviation crawl :=
  (Scraper.crawl strptime_Ymd url_query soup_oneday re_race_no re_start
     re_roster_head re_category re_sub_spaces requests_get).
Local Abbreviation page :=
  (page_result strptime_Ymd url_query soup_oneday re_race_no re_start
     re_roster_head re_category re_sub_spaces requests_get).

(** every row appended by the loop is a row of the target day *)
Lemma crawl_rows_ok raceDy links : forall rows_out res,
  Forall (csv_row_ok strptime_Ymd raceDy) rows_out ->
  crawl raceDy links rows_out = Ok res ->
  Forall (csv_row_ok strptime_Ymd raceDy) res.
Proof using Type.
  induction links as [|u links IH]; intros rows_out res HF H.
  - by injection H as <-.
  - cbn [Scraper.crawl] in H.
    destruct (url_query u) as [q|e]; [|discriminate H]. cbn [Py.bind] in H.
    destruct (negb (truthy _) || negb (truthy _)); [by eapply IH|].
    destruct (String.eqb (Scraper.first_value (q !! "raceDy")) raceDy)
      eqn:Hdy; cbn [negb] in H; [|by eapply IH].
    apply String.eqb_eq in Hdy.
    destruct (Scraper.http_get requests_get u) as [rr|e]; [|discriminate H].
    cbn [Py.bind] in H.
    destruct (Scraper.extract_races_from_oneday _ _ _ _ _ _ _ _ _ _)
      as [data|e] eqn:He; [|discriminate H].
    cbn [Py.bind] in H. eapply IH; [|exact H].
    apply Forall_app. split; [exact HF|].
    apply extract_data_inv in He as (Hrows & Hg & Hv).
    rewrite Hdy in Hrows |- *.
    apply section_rows_ok; [exact Hrows | exact Hg | eauto].
Qed.

End MainRows.

(** X12: every row of the table that [main] writes carries the target
    date and an empty grade, the name of a venue code (or the empty name),
    as closing time the result of [hhmm_to_closed] on its start time and
    the target date, and a players field that joins 6 to 8 entries, each
    starting with a car number; and [main] writes no empty table. *)
Theorem main_rows_ok strptime_Ymd soup_listing urljoin url_query soup_oneday
    re_race_no re_start re_roster_head re_category re_sub_spaces
    requests_get raceDy rows :
  Scraper.main strptime_Ymd soup_listing urljoin url_query soup_oneday
    re_race_no re_start re_roster_head re_category re_sub_spaces
    requests_get raceDy = Ok (Some rows) ->
  rows <> [] /\ Forall (csv_row_ok strptime_Ymd raceDy) rows.
Proof.
  unfold Scraper.main. intros H.
  destruct (Scraper.discover _ _ _ _ _) as [links|e]; [|discriminate H].
  cbn [Py.bind] in H.
  destruct (Scraper.crawl _ _ _ _ _ _ _ _ _ _ _ _) as [rows_out|e] eqn:Hc;
    [|discriminate H].
  cbn [Py.bind] in H. destruct rows_out as [|row rows_out]; [discriminate H|].
  injection H as <-. split; [discriminate|].
  eapply crawl_rows_ok; [|exact Hc]. constructor.
Qed.

Lemma main_rows_ok_witness :
  let net (url : string) (i : nat) :=
    Scraper.Responded {| Scraper.status_code := 200;
                         Scraper.text := "<html>" |} in
  exists rows,
    Scraper.main strptime_Ymd8 sample_soup_listing sample_urljoin
      sample_url_query sample_soup_oneday sample_re_race_no sample_re_start
      sample_re_roster_head sample_re_category sample_re_sub_spaces net
      "20250101" = Ok (Some rows)
    /\ length rows = 2%nat
    /\ Forall (csv_row_ok strptime_Ymd8 "20250101") rows.
Proof.
  intros net. eexists. split; [vm_compute; reflexivity|].
  split; [reflexivity|].
  match goal with
  | |- Forall _ ?r =>
      assert (Scraper.main strptime_Ymd8 sample_soup_listing sample_urljoin
                sample_url_query sample_soup_oneday sample_re_race_no
                sample_re_start sample_re_roster_head sample_re_category
                sample_re_sub_spaces net "20250101" = Ok (Some r)) as H
        by (vm_compute; reflexivity);
      exact (proj2 (main_rows_ok _ _ _ _ _ _ _ _ _ _ _ _ _ H))
  end.
Defined.

(** X13: when the page of every link of the day is fetched and read, the
    loop of [main] skips none of the links: the rows written are the rows
    of the pages, put one after the other in the order of the links, and
    no table is written when the pages give no row. *)
Theorem main_pages_in_order strptime_Ymd soup_listing urljoin url_query
    soup_oneday re_race_no re_start re_roster_head re_category
    re_sub_spaces requests_get raceDy links :
  let page :=
    page_result strptime_Ymd url_query soup_oneday re_race_no re_start
      re_roster_head re_category re_sub_spaces requests_get in
  Scraper.discover soup_listing urljoin url_query requests_get raceDy
    = Ok links ->
  Forall (fun u => exists rows, page u = Ok rows) links ->
  Scraper.main strptime_Ymd soup_listing urljoin url_query soup_oneday
    re_race_no re_start re_roster_head re_category re_sub_spaces
    requests_get raceDy
  = Ok (match concat ((fun u => rows_of (page u)) <$> links) with
        | [] => None
        | rows => Some rows
        end).
Proof.
  intros page Hd Hp. unfold Scraper.main. rewrite Hd. cbn [Py.bind].
  destruct (discover_links_inv _ _ _ _ _ _ Hd) as (HF & _).
  rewrite (crawl_pages strptime_Ymd url_query soup_oneday re_race_no re_start
             re_roster_head re_category re_sub_spaces requests_get raceDy
             links [] HF Hp).
  cbn [Py.bind app]. by destruct (concat _).
Qed.

Lemma main_pages_in_order_witness :
  let net (url : string) (i : nat) :=
    Scraper.Responded {| Scraper.status_code := 200;
                         Scraper.text := "<html>" |} in
  let page :=
    page_result strptime_Ymd8 sample_url_query sample_soup_oneday
      sample_re_race_no sample_re_start sample_re_roster_head
      sample_re_category sample_re_sub_spaces net in
  let links :=
    [Scraper.BASE +:+ sample_oneday_url "20250101" "02";
     Scraper.BASE +:+ sample_oneday_url "20250101" "05"] in
  Scraper.discover sample_soup_listing sample_urljoin sample_url_query net
    "20250101" = Ok links
  /\ Scraper.main strptime_Ymd8 sample_soup_listing sample_urljoin
       sample_url_query sample_soup_oneday sample_re_race_no sample_re_start
       sample_re_roster_head sample_re_category sample_re_sub_spaces net
       "20250101"
     = Ok (match concat ((fun u => rows_of (page u)) <$> links) with
           | [] => None
           | rows => Some rows
           end).
Proof.
  intros net page links.
  assert (Scraper.discover sample_soup_listing sample_urljoin
            sample_url_query net "20250101" = Ok links) as Hd
    by (vm_compute; reflexivity).
  split; [exact Hd|].
  apply (main_pages_in_order strptime_Ymd8 sample_soup_listing
           sample_urljoin sample_url_query sample_soup_oneday
           sample_re_race_no sample_re_start sample_re_roster_head
           sample_re_category sample_re_sub_spaces net "20250101" links Hd).
  clear Hd. subst page links net.
  constructor; [eexists; vm_compute; reflexivity|].
  constructor; [eexists; vm_compute; reflexivity|]. constructor.
Defined.

(** ** A day without races *)

Lemma filter_loop_total url_query raceDy links : forall seen filtered,
  (forall u, exists q, url_query u = Ok q) ->
  exists res,
    Scraper.filter_loop url_query links raceDy seen filtered = Ok res.
Proof.
  intros seen filtered Hq. revert seen filtered.
  induction links as [|u links IH]; intros seen filtered; [by eexists|].
  cbn [Scraper.filter_loop]. destruct (Hq u) as (q & ->). cbn [Py.bind].
  destruct (String.eqb _ raceDy && truthy _); [|apply IH].
  destruct (negb (bool_decide _)); apply IH.
Qed.

Lemma first_by_subseteq {A K} `{EqDecision K} (f : A -> K) (l : list A) x :
  x ∈ first_by f l -> x ∈ l.
Proof.
  induction l as [|y l IH]; cbn [first_by]; [done|].
  rewrite !elem_of_cons, list_elem_of_filter. tauto.
Qed.

(** a listing without a reference of the day gives no link *)
Lemma page_links_none soup_listing urljoin url_query html raceDy :
  (forall href, exists u, urljoin Scraper.BASE href = Ok u) ->
  (forall u, exists q, url_query u = Ok q) ->
  Forall (fun u => of_day url_query raceDy u = false)
    (candidates urljoin (walked_anchors (soup_listing html))) ->
  exists found,
    Scraper.collect_oneday_links soup_listing urljoin url_query html
      = Ok found
    /\ Scraper._filter_links_by_day url_query found raceDy = Ok [].
Proof.
  intros Hj Hq Hnone.
  destruct (collect_loop_total urljoin url_query
              (walked_anchors (soup_listing html)) ∅ [] Hj Hq)
    as (found & Hc).
  assert (Scraper.collect_oneday_links soup_listing urljoin url_query html
          = Ok found) as Hc' by exact Hc.
  destruct (filter_loop_total url_query raceDy found ∅ [] Hq) as (links & Hf).
  exists found. split; [exact Hc'|].
  unfold Scraper._filter_links_by_day. rewrite Hf. f_equal.
  rewrite (page_links_spec _ _ _ _ _ _ _ Hc' Hf).
  apply elem_of_nil_inv. intros u [Hday Hu]%list_elem_of_filter.
  apply first_by_subseteq in Hu. apply list_elem_of_filter in Hu as [_ Hu].
  rewrite Forall_forall in Hnone. rewrite (Hnone u Hu) in Hday.
  discriminate Hday.
Qed.

(** X14: a day without races is no error: when both listings are fetched
    and neither has a reference of the target day, [main] fetches no race
    page, returns normally and writes no table. *)
Theorem main_no_race_day strptime_Ymd soup_listing urljoin url_query
    soup_oneday re_race_no re_start re_roster_head re_category
    re_sub_spaces requests_get raceDy r r2 :
  (forall href, exists u, urljoin Scraper.BASE href = Ok u) ->
  (forall u, exists q, url_query u = Ok q) ->
  Scraper.http_get requests_get Scraper.KAISAI_URL = Ok r ->
  Scraper.http_get requests_get
    (Scraper.KAISAI_URL +:+ "?raceDy=" +:+ raceDy) = Ok r2 ->
  Forall (fun u => of_day url_query raceDy u = false)
    (candidates urljoin (walked_anchors (soup_listing (Scraper.text r)))) ->
  Forall (fun u => of_day url_query raceDy u = false)
    (candidates urljoin (walked_anchors (soup_listing (Scraper.text r2)))) ->
  Scraper.main strptime_Ymd soup_listing urljoin url_query soup_oneday
    re_race_no re_start re_roster_head re_category re_sub_spaces
    requests_get raceDy = Ok None.
Proof.
  intros Hj Hq Hr Hr2 Hn Hn2. unfold Scraper.main, Scraper.discover.
  rewrite Hr. cbn [Py.bind].
  destruct (page_links_none soup_listing urljoin url_query _ raceDy Hj Hq Hn)
    as (found & -> & Hf).
  cbn [Py.bind]. rewrite Hf. cbn [Py.bind]. rewrite Hr2. cbn [Py.bind].
  destruct (page_links_none soup_listing urljoin url_query _ raceDy Hj Hq Hn2)
    as (found2 & -> & Hf2).
  cbn [Py.bind]. rewrite Hf2. reflexivity.
Qed.

Lemma main_no_race_day_witness :
  let net (url : string) (i : nat) :=
    Scraper.Responded {| Scraper.status_code := 200;
                         Scraper.text := "<html>" |} in
  Scraper.main strptime_Ymd8 sample_soup_listing sample_urljoin
    sample_url_query sample_soup_oneday sample_re_race_no sample_re_start
    sample_re_roster_head sample_re_category sample_re_sub_spaces net
    "20250103" = Ok None.
Proof.
  intros net.
  apply (main_no_race_day strptime_Ymd8 sample_soup_listing sample_urljoin
           sample_url_query sample_soup_oneday sample_re_race_no
           sample_re_start sample_re_roster_head sample_re_category
           sample_re_sub_spaces net "20250103"
           {| Scraper.status_code := 200; Scraper.text := "<html>" |}
           {| Scraper.status_code := 200; Scraper.text := "<html>" |}).
  - intros href. by eexists.
  - intros u. unfold sample_url_query.
    repeat (destruct (String.eqb u _); [by eexists|]). by eexists.
  - vm_compute. reflexivity.
  - vm_compute. reflexivity.
  - apply (bool_decide_unpack _). vm_compute. exact I.
  - apply (bool_decide_unpack _). vm_compute. exact I.
Defined.

(** ** The converter: dropped rows and errors *)

(** a row outside 6 to 8 players is skipped before any other field of it
    is read *)
Lemma read_rows_filter rows : forall groups,
  Forall (fun r : Converter.row => is_Some (r !! "players")) rows ->
  Converter.read_rows rows groups
  = Converter.read_rows (filter (fun r => retained r = true) rows) groups.
Proof.
  induction rows as [|r rows IH]; intros groups HF; [reflexivity|].
  apply Forall_cons in HF as [[p Hp] HF].
  destruct (retained r) eqn:Hr.
  - rewrite filter_cons_True by exact Hr. cbn [Converter.read_rows].
    unfold Converter.getitem. rewrite Hp. cbn [Py.bind].
    destruct (negb _); [by apply IH|].
    destruct (r !! "race_number") as [rn|]; [|reflexivity]. cbn [Py.bind].
    destruct (Converter.int_field rn) as [n|e]; [|reflexivity].
    cbn [Py.bind].
    destruct (r !! "start_time") as [st|]; [|reflexivity]. cbn [Py.bind].
    destruct (r !! "closed_at") as [cl|]; [|reflexivity]. cbn [Py.bind].
    destruct (r !! "venue") as [v|]; [|reflexivity]. cbn [Py.bind].
    by apply IH.
  - rewrite filter_cons_False by (rewrite Hr; discriminate).
    cbn [Converter.read_rows]. unfold Converter.getitem. rewrite Hp.
    cbn [Py.bind]. unfold retained in Hr. rewrite Hp in Hr. rewrite Hr.
    cbn [negb]. by apply IH.
Qed.

(** X15: the rows that fail the 6-to-8 validation have no effect on the
    outcome of the converter, whatever their other fields hold (a race
    number that is not a number, a missing venue): with a players field in
    every row, converting a table and converting its kept rows only give
    the same document, or the same exception. *)
Theorem converter_ignores_dropped_rows rows :
  Forall (fun r : Converter.row => is_Some (r !! "players")) rows ->
  Converter.main rows
  = Converter.main (filter (fun r => retained r = true) rows).
Proof.
  intros HF. unfold Converter.main. by rewrite (read_rows_filter rows [] HF).
Qed.

Lemma converter_ignores_dropped_rows_witness :
  let bad : Converter.row :=
    {[ "players" := Some "1a,2b"; "race_number" := Some "x" ]} in
  Forall (fun r : Converter.row => is_Some (r !! "players"))
    (bad :: sample_rows)
  /\ Converter.main (bad :: sample_rows) = Ok sample_document.
Proof.
  intros bad.
  assert (Forall (fun r : Converter.row => is_Some (r !! "players"))
            (bad :: sample_rows)) as HF.
  { repeat constructor; by eexists. }
  split; [exact HF|].
  rewrite (converter_ignores_dropped_rows (bad :: sample_rows) HF).
  vm_compute. reflexivity.
Defined.

Lemma read_rows_app l1 l2 : forall groups,
  Converter.read_rows (l1 ++ l2) groups
  = (let* groups' := Converter.read_rows l1 groups in
     Converter.read_rows l2 groups').
Proof.
  induction l1 as [|r l1 IH]; intros groups; [reflexivity|].
  cbn [app Converter.read_rows].
  destruct (Converter.getitem r "players") as [p|]; [|reflexivity].
  cbn [Py.bind]. destruct (negb _); [by apply IH|].
  destruct (Converter.getitem r "race_number") as [rn|]; [|reflexivity].
  cbn [Py.bind].
  destruct (Converter.int_field rn) as [n|e]; [|reflexivity]. cbn [Py.bind].
  destruct (Converter.getitem r "start_time") as [st|]; [|reflexivity].
  cbn [Py.bind].
  destruct (Converter.getitem r "closed_at") as [cl|]; [|reflexivity].
  cbn [Py.bind].
  destruct (Converter.getitem r "venue") as [v|]; [|reflexivity].
  cbn [Py.bind]. by apply IH.
Qed.

(** X16: the converter raises at the first row it cannot read, after
    readable rows: [KeyError] for a row without a players field (a table
    without that column), and for a kept row [KeyError] without a race
    number field, [TypeError] when the field is absent from a short line,
    [ValueError] when [int] does not read it; no document is produced. *)
Theorem converter_errors l1 r l2 :
  Forall readable l1 ->
  (r !! "players" = None ->
   Converter.main (l1 ++ r :: l2) = Raise KeyError)
  /\ (retained r = true -> r !! "race_number" = None ->
      Converter.main (l1 ++ r :: l2) = Raise KeyError)
  /\ (retained r = true -> r !! "race_number" = Some None ->
      Converter.main (l1 ++ r :: l2) = Raise TypeError)
  /\ (forall s,
        retained r = true -> r !! "race_number" = Some (Some s) ->
        int s = Raise ValueError ->
        Converter.main (l1 ++ r :: l2) = Raise ValueError).
Proof.
  intros HF. unfold Converter.main. rewrite read_rows_app.
  destruct (read_rows_total l1 [] HF) as (groups & ->). cbn [Py.bind].
  cbn [Converter.read_rows]. unfold Converter.getitem, retained.
  split; [by intros ->|].
  destruct (r !! "players") as [p|]; [|repeat split; discriminate].
  cbn [Py.bind]. repeat split.
  - intros -> ->. reflexivity.
  - intros -> ->. reflexivity.
  - intros s -> -> Hs. cbn [negb Py.bind Converter.int_field].
    by rewrite Hs.
Qed.

Lemma sample_row_readable venue rn n players :
  int rn = Ok n -> readable (sample_row venue rn players).
Proof.
  intros Hn. split; [by eexists|]. intros _.
  split; [|repeat split; by eexists].
  exists (Some rn), n. split; [reflexivity|exact Hn].
Qed.

Lemma converter_errors_witness :
  let bad := sample_row "川口" "7R" "1a,2b,3c,4d,5e,6f" in
  Forall readable sample_rows
  /\ Converter.main (sample_rows ++ [bad]) = Raise ValueError.
Proof.
  intros bad.
  assert (Forall readable sample_rows) as HF.
  { unfold sample_rows.
    repeat (apply Forall_cons; split); try apply Forall_nil_2.
    - by apply (sample_row_readable _ _ 3).
    - by apply (sample_row_readable _ _ 2).
    - by apply (sample_row_readable _ _ 1).
    - by apply (sample_row_readable _ _ 9). }
  split; [exact HF|].
  apply (proj2 (proj2 (proj2 (converter_errors sample_rows bad [] HF)))
           "7R"); reflexivity.
Defined.

(** ** The converter: the document, group by group *)

Lemma first_seen_snoc {K} `{EqDecision K} (l : list K) k :
  first_seen (l ++ [k]) = note_key (first_seen l) k.
Proof.
  rewrite <- !fold_note_key_nil, fold_left_app. reflexivity.
Qed.

Lemma groups_append_map (f : Converter.group_key -> list Converter.races_item)
    key item ks :
  NoDup ks -> (key ∉ ks -> f key = []) ->
  Converter.groups_append key item (map (fun k => (k, f k)) ks)
  = map (fun k => (k, f k ++ if decide (key = k) then [item] else []))
      (note_key ks key).
Proof.
  unfold note_key. induction ks as [|k ks IH]; intros Hnd Hf.
  - rewrite decide_False by apply not_elem_of_nil.
    cbn [map app Converter.groups_append].
    rewrite decide_True by reflexivity.
    rewrite Hf by apply not_elem_of_nil. reflexivity.
  - apply NoDup_cons in Hnd as [Hk Hnd]. cbn [map Converter.groups_append].
    destruct (decide (k = key)) as [->|Hne].
    + rewrite decide_True by (apply elem_of_cons; by left).
      cbn [map]. rewrite decide_True by reflexivity. f_equal.
      apply map_ext_in. intros k' Hk'. apply list_elem_of_In in Hk'.
      rewrite decide_False by (intros ->; contradiction).
      by rewrite app_nil_r.
    + rewrite IH; [|exact Hnd|].
      2:{ intros Hn. apply Hf. rewrite elem_of_cons. intros [->|?]; tauto. }
      destruct (decide (key ∈ ks)) as [Hin|Hin].
      * rewrite decide_True by (apply elem_of_cons; by right).
        cbn [map]. rewrite decide_False by (intros ->; contradiction).
        by rewrite app_nil_r.
      * rewrite decide_False
          by (rewrite elem_of_cons; intros [->|?]; tauto).
        cbn [map app]. rewrite decide_False by (intros ->; contradiction).
        by rewrite app_nil_r.
Qed.

Lemma items_of_snoc key pre r :
  items_of key (pre ++ [r])
  = items_of key pre
    ++ (if retained r then
          if decide (row_key r = key) then [row_item r] else []
        else []).
Proof.
  unfold items_of. rewrite filter_app, fmap_app. f_equal.
  destruct (retained r) eqn:Hr.
  - destruct (decide (row_key r = key)) as [Hk|Hk].
    + rewrite filter_cons_True by (by rewrite Hr). reflexivity.
    + rewrite filter_cons_False by (intros [_ ?]; contradiction).
      reflexivity.
  - rewrite filter_cons_False by (rewrite Hr; intros [? _]; discriminate).
    reflexivity.
Qed.

Lemma items_of_unseen key pre :
  key ∉ first_seen (row_key <$> filter (fun r => retained r = true) pre) ->
  items_of key pre = [].
Proof.
  intros Hn. unfold items_of.
  destruct (filter (fun r => retained r = true /\ row_key r = key) pre)
    as [|r l] eqn:Hf; [reflexivity|].
  exfalso. apply Hn.
  assert (r ∈ filter (fun r => retained r = true /\ row_key r = key) pre)
    as Hr by (rewrite Hf; apply elem_of_cons; by left).
  apply list_elem_of_filter in Hr as [[Hr <-] Hin].
  apply elem_of_first_seen, list_elem_of_fmap. exists r.
  split; [reflexivity|]. apply list_elem_of_filter. by split.
Qed.

Lemma groups_of_snoc_dropped pre r :
  retained r = false -> groups_of (pre ++ [r]) = groups_of pre.
Proof.
  intros Hr. unfold groups_of. rewrite filter_app.
  rewrite (filter_cons_False _ r) by (rewrite Hr; discriminate).
  rewrite filter_nil, app_nil_r. apply map_ext. intros key.
  rewrite items_of_snoc, Hr. by rewrite app_nil_r.
Qed.

Lemma groups_of_snoc_kept pre r :
  retained r = true ->
  Converter.groups_append (row_key r) (row_item r) (groups_of pre)
  = groups_of (pre ++ [r]).
Proof.
  intros Hr. unfold groups_of. rewrite filter_app.
  rewrite (filter_cons_True _ r) by exact Hr.
  rewrite filter_nil, fmap_app. cbn [fmap list_fmap].
  rewrite first_seen_snoc.
  rewrite (groups_append_map (fun key => items_of key pre));
    [|apply NoDup_first_seen|apply items_of_unseen].
  apply map_ext. intros key. rewrite items_of_snoc, Hr. reflexivity.
Qed.

(** the groups after the loop over the rows *)
Lemma read_rows_groups rows : forall pre res,
  Converter.read_rows rows (groups_of pre) = Ok res ->
  res = groups_of (pre ++ rows).
Proof.
  induction rows as [|r rows IH]; intros pre res H.
  - rewrite app_nil_r. cbn [Converter.read_rows] in H. congruence.
  - replace (pre ++ r :: rows) with ((pre ++ [r]) ++ rows)
      by (by rewrite <- app_assoc).
    apply read_rows_cons in H
      as [(Hr & _ & H)
         |(Hr & p & rn & n & st & cl & v
           & Hp & Hrn & Hn & Hst & Hcl & Hv & H)].
    + apply IH. by rewrite groups_of_snoc_dropped.
    + apply IH. rewrite <- (groups_of_snoc_kept pre r Hr). rewrite <- H.
      unfold row_key, row_item. rewrite Hp, Hrn, Hst, Hcl, Hv.
      cbn [from_option id]. rewrite Hn. reflexivity.
Qed.

Lemma main_groups rows out :
  Converter.main rows = Ok out ->
  out = map (fun '((venue, grade), items) =>
               {| Converter.venue := venue; Converter.grade := grade;
                  Converter.races :=
                    Scraper.sort_by Converter.race_number items |})
          (groups_of rows).
Proof.
  unfold Converter.main. intros H.
  destruct (Converter.read_rows rows []) as [groups|e] eqn:Hg;
    [|discriminate].
  apply (read_rows_groups rows [] groups) in Hg. cbn [app] in Hg.
  cbn [Py.bind] in H. congruence.
Qed.

(** X17: the document of a table that the converter reads is determined
    group by group: the groups are the (venue, grade) pairs of the kept
    rows in the order of their first rows, and the races of a group are
    the races of the kept rows of its pair, each row giving one race, in
    the order of the race numbers. *)
Theorem converter_document rows out :
  Converter.main rows = Ok out -> out = document_of rows.
Proof.
  intros H. rewrite (main_groups rows out H).
  unfold groups_of, document_of. rewrite map_map. apply map_ext.
  by intros [v g].
Qed.

Lemma converter_document_witness :
  Converter.main sample_rows = Ok sample_document
  /\ sample_document = document_of sample_rows.
Proof.
  assert (Converter.main sample_rows = Ok sample_document) as H
    by (vm_compute; reflexivity).
  split; [exact H|]. exact (converter_document sample_rows sample_document H).
Defined.

(** X18: within a group of the document the races of one race number stand
    in the order of their rows in the table: the sort by race number is
    stable. *)
Theorem converter_sort_stable rows out g n :
  Converter.main rows = Ok out -> g ∈ out ->
  filter (fun item => Converter.race_number item = n) (Converter.races g)
  = filter (fun item => Converter.race_number item = n)
      (items_of (group_pair g) rows).
Proof.
  intros H Hg. rewrite (main_groups rows out H) in Hg.
  apply list_elem_of_fmap in Hg as ([[v gr] items] & -> & Hin).
  unfold groups_of in Hin.
  apply list_elem_of_fmap in Hin as (key & Heq & _).
  injection Heq as <- ->. cbn [Converter.races group_pair Converter.venue
                               Converter.grade].
  apply sort_by_filter.
Qed.

Lemma converter_sort_stable_witness :
  let twice := sample_rows ++ [sample_row "川口" "3" "8h,7g,6f,5e,4d,3c"] in
  exists out g,
    Converter.main twice = Ok out /\ g ∈ out
    /\ filter (fun item => Converter.race_number item = 3)
         (Converter.races g)
       = [sample_item 3 ["1a"; "2b"; "3c"; "4d"; "5e"; "6f"];
          sample_item 3 ["8h"; "7g"; "6f"; "5e"; "4d"; "3c"]].
Proof.
  intros twice.
  destruct (Converter.main twice) as [out|e] eqn:H;
    [|vm_compute in H; discriminate].
  destruct out as [|g out]; [vm_compute in H; discriminate|].
  assert (g ∈ g :: out) as Hg by (apply elem_of_cons; by left).
  exists (g :: out), g. split; [reflexivity|]. split; [exact Hg|].
  rewrite (converter_sort_stable twice (g :: out) g 3 H Hg).
  vm_compute in H. injection H as <- _. vm_compute. reflexivity.
Defined.

Lemma groups_append_Permutation key item groups :
  concat (Converter.groups_append key item groups).*2
  ≡ₚ concat groups.*2 ++ [item].
Proof.
  induction groups as [|[k items] groups IH];
    cbn [Converter.groups_append]; [reflexivity|].
  destruct (decide (k = key)) as [->|Hne]; cbn [fmap list_fmap snd concat].
  - rewrite <- !app_assoc. apply Permutation_app_head, Permutation_app_comm.
  - fold (fmap (M := list) (@snd Converter.group_key
                              (list Converter.races_item))).
    rewrite IH. by rewrite app_assoc.
Qed.

Lemma read_rows_Permutation rows : forall groups res,
  Converter.read_rows rows groups = Ok res ->
  concat res.*2
  ≡ₚ concat groups.*2
     ++ (row_item <$> filter (fun r => retained r = true) rows).
Proof.
  induction rows as [|r rows IH]; intros groups res H.
  - cbn [Converter.read_rows] in H. injection H as <-.
    by rewrite filter_nil, app_nil_r.
  - apply read_rows_cons in H
      as [(Hr & _ & H)
         |(Hr & p & rn & n & st & cl & v
           & Hp & Hrn & Hn & Hst & Hcl & Hv & H)].
    + rewrite filter_cons_False by (rewrite Hr; discriminate).
      by apply IH.
    + rewrite filter_cons_True by exact Hr. apply IH in H. rewrite H.
      rewrite groups_append_Permutation, <- app_assoc.
      apply Permutation_app_head. cbn [app fmap list_fmap].
      unfold row_item. rewrite Hp, Hrn, Hst, Hcl. cbn [from_option id].
      rewrite Hn. reflexivity.
Qed.

Lemma main_races_Permutation groups :
  concat (Converter.races
          <$> map (fun '((venue, grade), items) =>
                     {| Converter.venue := venue; Converter.grade := grade;
                        Converter.races :=
                          Scraper.sort_by Converter.race_number items |})
                groups)
  ≡ₚ concat groups.*2.
Proof.
  induction groups as [|[[v g] items] groups IH]; [reflexivity|].
  cbn [map fmap list_fmap concat Converter.races snd].
  apply Permutation_app; [apply sort_by_Permutation|exact IH].
Qed.

(** X19: the races of the document are those of the kept rows, one for
    each row: no race is lost, doubled or invented by the grouping and the
    sort. *)
Theorem converter_races_of_kept_rows rows out :
  Converter.main rows = Ok out ->
  concat (Converter.races <$> out)
  ≡ₚ row_item <$> filter (fun r => retained r = true) rows.
Proof.
  unfold Converter.main. intros H.
  destruct (Converter.read_rows rows []) as [groups|e] eqn:Hg;
    [|discriminate].
  cbn [Py.bind] in H. injection H as <-.
  rewrite main_races_Permutation.
  by rewrite (read_rows_Permutation rows [] groups Hg).
Qed.

Lemma converter_races_of_kept_rows_witness :
  Converter.main sample_rows = Ok sample_document
  /\ concat (Converter.races <$> sample_document)
     ≡ₚ row_item <$> filter (fun r => retained r = true) sample_rows.
Proof.
  assert (Converter.main sample_rows = Ok sample_document) as H
    by (vm_compute; reflexivity).
  split; [exact H|].
  exact (converter_races_of_kept_rows sample_rows sample_document H).
Defined.

(** ** The scraper: the requests of a run *)

(** [http_get] looks at the tries 1 to 3 of its URL only *)
Lemma http_get_ext (net net' : string -> nat -> Scraper.attempt) url :
  (forall i, (1 <= i <= 3)%nat -> net url i = net' url i) ->
  Scraper.http_get net url = Scraper.http_get net' url.
Proof.
  intros H. unfold Scraper.http_get. cbn [Scraper.http_get_loop].
  rewrite <- (H 1%nat), <- (H 2%nat), <- (H 3%nat) by lia. reflexivity.
Qed.

Section Requests.

Variable strptime_Ymd : string -> option Z.
Variable soup_listing : string -> Scraper.listing.
Variable urljoin : string -> string -> result string.
Variable url_query : string -> result (gmap string (list string)).
Variable soup_oneday : string -> list Scraper.box.
Variable re_race_no : string -> option string.
Variable re_start : string -> option string.
Variable re_roster_head : string -> bool.
Variable re_category : string -> option string.
Variable re_sub_spaces : string -> string.

Local Abbreviation crawl :=
  (Scraper.crawl strptime_Ymd url_query soup_oneday re_race_no re_start
     re_roster_head re_category re_sub_spaces).
Local Abbreviation discover :=
  (Scraper.discover soup_listing urljoin url_query).
Local Abbreviation main :=
  (Scraper.main strptime_Ymd soup_listing urljoin url_query soup_oneday
     re_race_no re_start re_roster_head re_category re_sub_spaces).

(** the loop over the links fetches the pages of the target day only *)
Lemma crawl_ext (net net' : string -> nat -> Scraper.attempt) raceDy links :
  (forall u i, of_day url_query raceDy u = true -> (1 <= i <= 3)%nat ->
               net u i = net' u i) ->
  forall rows_out,
    crawl net raceDy links rows_out = crawl net' raceDy links rows_out.
Proof using Type.
  intros H. induction links as [|u links IH]; intros rows_out;
    [reflexivity|].
  cbn [Scraper.crawl].
  destruct (url_query u) as [q|e] eqn:Hq; [|reflexivity]. cbn [Py.bind].
  destruct (negb (truthy _) || negb (truthy _)); [apply IH|].
  destruct (String.eqb (Scraper.first_value (q !! "raceDy")) raceDy)
    eqn:Hdy; cbn [negb]; [|apply IH].
  rewrite (http_get_ext net net' u).
  2:{ intros i Hi. apply H; [|exact Hi].
      unfold of_day, link_fields. by rewrite Hq. }
  destruct (Scraper.http_get net' u) as [rr|e]; [|reflexivity].
  cbn [Py.bind].
  destruct (Scraper.extract_races_from_oneday _ _ _ _ _ _ _ _ _ _)
    as [data|e]; [|reflexivity].
  cbn [Py.bind]. apply IH.
Qed.

Lemma discover_ext (net net' : string -> nat -> Scraper.attempt) raceDy :
  (forall i, (1 <= i <= 3)%nat ->
             net Scraper.KAISAI_URL i = net' Scraper.KAISAI_URL i) ->
  (forall i, (1 <= i <= 3)%nat ->
             net (Scraper.KAISAI_URL +:+ "?raceDy=" +:+ raceDy) i
             = net' (Scraper.KAISAI_URL +:+ "?raceDy=" +:+ raceDy) i) ->
  discover net raceDy = discover net' raceDy.
Proof using Type.
  intros H1 H2. unfold Scraper.discover.
  rewrite (http_get_ext net net' Scraper.KAISAI_URL H1).
  by rewrite (http_get_ext net net' _ H2).
Qed.

End Requests.

(** X20: a run of the scraper depends on the network through the first
    three answers for the listing, for the listing of the day and for the
    references that carry the target date only: no other page is
    requested, and no page a fourth time. *)
Theorem main_requests_day_pages_only strptime_Ymd soup_listing urljoin
    url_query soup_oneday re_race_no re_start re_roster_head re_category
    re_sub_spaces (net net' : string -> nat -> Scraper.attempt) raceDy :
  (forall i, (1 <= i <= 3)%nat ->
             net Scraper.KAISAI_URL i = net' Scraper.KAISAI_URL i) ->
  (forall i, (1 <= i <= 3)%nat ->
             net (Scraper.KAISAI_URL +:+ "?raceDy=" +:+ raceDy) i
             = net' (Scraper.KAISAI_URL +:+ "?raceDy=" +:+ raceDy) i) ->
  (forall u i, of_day url_query raceDy u = true -> (1 <= i <= 3)%nat ->
               net u i = net' u i) ->
  Scraper.main strptime_Ymd soup_listing urljoin url_query soup_oneday
    re_race_no re_start re_roster_head re_category re_sub_spaces net raceDy
  = Scraper.main strptime_Ymd soup_listing urljoin url_query soup_oneday
      re_race_no re_start re_roster_head re_category re_sub_spaces net'
      raceDy.
Proof.
  intros H1 H2 H3. unfold Scraper.main.
  rewrite (discover_ext soup_listing urljoin url_query net net' raceDy H1 H2).
  destruct (Scraper.discover soup_listing urljoin url_query net' raceDy)
    as [links|e]; [|reflexivity].
  cbn [Py.bind].
  by rewrite (crawl_ext strptime_Ymd url_query soup_oneday re_race_no
                re_start re_roster_head re_category re_sub_spaces net net'
                raceDy links H3).
Qed.

Lemma main_requests_day_pages_only_witness :
  let net (url : string) (i : nat) :=
    Scraper.Responded {| Scraper.status_code := 200;
                         Scraper.text := "<html>" |} in
  let net' (url : string) (i : nat) :=
    if Nat.leb i 3
       && (String.eqb url Scraper.KAISAI_URL
           || String.eqb url (Scraper.KAISAI_URL +:+ "?raceDy=20250101")
           || of_day sample_url_query "20250101" url)
    then net url i
    else Scraper.Failed RequestException in
  Scraper.main strptime_Ymd8 sample_soup_listing sample_urljoin
    sample_url_query sample_soup_oneday sample_re_race_no sample_re_start
    sample_re_roster_head sample_re_category sample_re_sub_spaces net
    "20250101"
  = Scraper.main strptime_Ymd8 sample_soup_listing sample_urljoin
      sample_url_query sample_soup_oneday sample_re_race_no sample_re_start
      sample_re_roster_head sample_re_category sample_re_sub_spaces net'
      "20250101".
Proof.
  intros net net'.
  apply (main_requests_day_pages_only strptime_Ymd8 sample_soup_listing
           sample_urljoin sample_url_query sample_soup_oneday
           sample_re_race_no sample_re_start sample_re_roster_head
           sample_re_category sample_re_sub_spaces net net' "20250101").
  - intros i Hi. unfold net'.
    rewrite (proj2 (Nat.leb_le i 3)) by lia.
    by rewrite String.eqb_refl.
  - intros i Hi. unfold net'.
    rewrite (proj2 (Nat.leb_le i 3)) by lia.
    change (Scraper.KAISAI_URL +:+ "?raceDy=" +:+ "20250101")
      with (Scraper.KAISAI_URL +:+ "?raceDy=20250101").
    by rewrite String.eqb_refl, orb_true_r.
  - intros u i Hu Hi. unfold net'.
    rewrite (proj2 (Nat.leb_le i 3)) by lia.
    by rewrite Hu, orb_true_r.
Defined.

(** X21: the listing of the day is requested only when the listing without
    parameter has no reference of the target day: with one, the links of
    the run are those of the first listing, whatever the network answers
    for any other address. *)
Theorem discover_first_listing soup_listing urljoin url_query
    (net net' : string -> nat -> Scraper.attempt) raceDy r found u links :
  Scraper.http_get net Scraper.KAISAI_URL = Ok r ->
  Scraper.collect_oneday_links soup_listing urljoin url_query
    (Scraper.text r) = Ok found ->
  Scraper._filter_links_by_day url_query found raceDy = Ok (u :: links) ->
  (forall i, (1 <= i <= 3)%nat ->
             net Scraper.KAISAI_URL i = net' Scraper.KAISAI_URL i) ->
  Scraper.discover soup_listing urljoin url_query net' raceDy
  = Ok (u :: links).
Proof.
  intros Hr Hc Hf H. unfold Scraper.discover.
  rewrite <- (http_get_ext net net' Scraper.KAISAI_URL H), Hr.
  cbn [Py.bind]. rewrite Hc. cbn [Py.bind]. rewrite Hf. reflexivity.
Qed.

Lemma discover_first_listing_witness :
  let net (url : string) (i : nat) :=
    Scraper.Responded {| Scraper.status_code := 200;
                         Scraper.text := "<html>" |} in
  let net' (url : string) (i : nat) :=
    if String.eqb url Scraper.KAISAI_URL then net url i
    else Scraper.Failed RequestException in
  Scraper.discover sample_soup_listing sample_urljoin sample_url_query net'
    "20250101"
  = Ok [Scraper.BASE +:+ sample_oneday_url "20250101" "02";
        Scraper.BASE +:+ sample_oneday_url "20250101" "05"].
Proof.
  intros net net'.
  apply (discover_first_listing sample_soup_listing sample_urljoin
           sample_url_query net net' "20250101"
           {| Scraper.status_code := 200; Scraper.text := "<html>" |}
           [Scraper.BASE +:+ sample_oneday_url "20250101" "02";
            Scraper.BASE +:+ sample_oneday_url "20250102" "03";
            Scraper.BASE +:+ sample_oneday_url "20250101" "05"]).
  - vm_compute. reflexivity.
  - vm_compute. reflexivity.
  - vm_compute. reflexivity.
  - intros i _. unfold net'. by rewrite String.eqb_refl.
Defined.
